(** * pdark.i18n: a shallow embedding of the translation engine

  The development follows [src/pdark/i18n/__init__.py].  Python values
  are an inductive type, classes with state become records, methods
  become functions that thread the service through a small monad with
  exceptions, and the parts of the CPython runtime the module relies on
  ([str.rfind], [str.join], the [%] operator, [repr]) are modelled next
  to the code that calls them. *)

From Stdlib Require Import ZArith String Ascii List Lia.
From Stdlib Require Import DecimalString DecimalZ DecimalPos.
From Stdlib Require Import Floats.SpecFloat.
From stdpp Require Import base option list gmap strings.
From Equations Require Import Equations.
Import ListNotations.

Local Open Scope string_scope.
Local Open Scope Z_scope.
Local Open Scope list_scope.

(** ** Python strings *)

Module PyStr.

(** [s[:n]] for [0 <= n]. *)
Fixpoint prefix (n : nat) (s : string) : string :=
  match n, s with
  | S n', String a s' => String a (prefix n' s')
  | _, _ => EmptyString
  end.

(** Highest index at which [c] occurs in [s], if any. *)
Fixpoint rindex (c : ascii) (s : string) : option nat :=
  match s with
  | EmptyString => None
  | String a s' =>
      match rindex c s' with
      | Some i => Some (S i)
      | None => if Ascii.eqb a c then Some O else None
      end
  end.

(** [s.rfind(c)]: the highest index of [c] in [s], or [-1]. *)
Definition rfind (c : ascii) (s : string) : Z :=
  match rindex c s with
  | Some i => Z.of_nat i
  | None => -1
  end.

(** [sep.join(parts)]. *)
Fixpoint join (sep : string) (parts : list string) : string :=
  match parts with
  | [] => EmptyString
  | [x] => x
  | x :: rest => x +:+ sep +:+ join sep rest
  end.

Lemma rindex_lt c s i : rindex c s = Some i -> (i < String.length s)%nat.
Proof.
  revert i; induction s as [|a s IH]; intros i; simpl; [discriminate|].
  destruct (rindex c s) as [j|].
  - intros [= <-]. specialize (IH j eq_refl). lia.
  - destruct (Ascii.eqb a c); [intros [= <-]; lia | discriminate].
Qed.

Lemma prefix_length n s :
  (n <= String.length s)%nat -> String.length (prefix n s) = n.
Proof.
  revert s; induction n as [|n IH]; intros [|a s]; simpl; intros H;
    try reflexivity; try lia.
  rewrite IH; [reflexivity | lia].
Qed.

Lemma rfind_lt c s : rfind c s < Z.of_nat (String.length s).
Proof.
  unfold rfind. destruct (rindex c s) as [i|] eqn:E.
  - apply rindex_lt in E. lia.
  - lia.
Qed.

End PyStr.

(** ** Locale fallback (class [LocaleFallbackStrategy]) *)

Module LocaleFallbackStrategy.

Definition locale_length (locale : option string) : nat :=
  match locale with
  | Some l => S (String.length l)
  | None => O
  end.

(** [split_locale(self, result, locale)]: the [while] loop appends to
    [result]; the updated list is returned. *)
Equations? split_locale (result : list string) (locale : option string)
  : list string by wf (locale_length locale) lt :=
  split_locale result None := result;
  split_locale result (Some l) with Z_lt_dec (PyStr.rfind "_" l) 0 => {
    | left _ := result ++ [l];
    | right Hpos :=
        split_locale (result ++ [l])
          (Some (PyStr.prefix (Z.to_nat (PyStr.rfind "_" l)) l)) }.
Proof.
  pose proof (PyStr.rfind_lt "_" l) as Hb. simpl.
  rewrite PyStr.prefix_length; lia.
Qed.

(** [apply(self, locale)], with [self.default_locale] as first argument. *)
Definition apply (default_locale : option string) (locale : option string)
  : list string :=
  let result := [] in
  let result := split_locale result locale in
  let result := split_locale result default_locale in
  result.

End LocaleFallbackStrategy.

(** The chain the specification describes: the locale itself, then every
  prefix that ends just before a ['_'], from the longest to the
  shortest. *)
Module FallbackSpec.

(** Prefixes of [s] that end just before an occurrence of [c], shortest
    first. *)
Fixpoint cut_points (c : ascii) (s : string) : list string :=
  match s with
  | EmptyString => []
  | String a s' =>
      (if Ascii.eqb a c then [EmptyString] else [])
        ++ map (String a) (cut_points c s')
  end.

Definition truncations (locale : string) : list string :=
  locale :: rev (cut_points "_" locale).

Definition chain (default requested : string) : list string :=
  truncations requested ++ truncations default.

End FallbackSpec.

(** ** Python values

    The values a message request can carry.  Strings are byte strings
    read as ASCII text; a dictionary has string keys and keeps insertion
    order; an instance of a class the engine does not know is a
    [VObject] with the name of its class and the text its [repr]
    gives. *)

#[local] Unset Elimination Schemes.
#[local] Set Warnings "-register-all".

Inductive PyValue : Type :=
| VNone
| VBool (b : bool)
| VInt (n : Z)
| VFloat (x : spec_float)
| VStr (s : string)
| VList (items : list PyValue)
| VTuple (items : list PyValue)
| VDict (entries : list (string * PyValue))
| VMessage (m : I18NMessage)
| VObject (cls : string) (shown : string)
(** [class I18NMessage]: [self.key, self.locale, self.args, self.kwargs]. *)
with I18NMessage : Type :=
| MkI18NMessage (key : string) (locale : option string)
    (args : list PyValue) (kwargs : list (string * PyValue)).

#[local] Set Elimination Schemes.

Definition I18NMessage_key (self : I18NMessage) : string :=
  let (k, _, _, _) := self in k.
Definition I18NMessage_locale (self : I18NMessage) : option string :=
  let (_, l, _, _) := self in l.
Definition I18NMessage_args (self : I18NMessage) : list PyValue :=
  let (_, _, a, _) := self in a.
Definition I18NMessage_kwargs (self : I18NMessage) : list (string * PyValue) :=
  let (_, _, _, k) := self in k.

(** [with_locale(self, locale)]. *)
Definition with_locale (self : I18NMessage) (locale : option string) : I18NMessage :=
  MkI18NMessage (I18NMessage_key self) locale (I18NMessage_args self)
    (I18NMessage_kwargs self).

(** A [dict] with string keys, and [d.get(k)]. *)
Definition Dict : Type := list (string * PyValue).

Fixpoint dict_get (d : Dict) (k : string) : option PyValue :=
  match d with
  | [] => None
  | (k', v) :: rest => if String.eqb k' k then Some v else dict_get rest k
  end.

Definition dict_keys (d : Dict) : list string := map fst d.

(** [del d[k]] for a key that is present. *)
Definition dict_del (d : Dict) (k : string) : Dict :=
  filter (fun kv => negb (String.eqb (fst kv) k)) d.

(** [type(inst)]. *)
Inductive PyType : Type :=
| NoneType | bool_t | int_t | float_t | str_t | list_t | tuple_t | dict_t
| I18NMessage_t
| class_t (name : string).

Definition type (inst : PyValue) : PyType :=
  match inst with
  | VNone => NoneType
  | VBool _ => bool_t
  | VInt _ => int_t
  | VFloat _ => float_t
  | VStr _ => str_t
  | VList _ => list_t
  | VTuple _ => tuple_t
  | VDict _ => dict_t
  | VMessage _ => I18NMessage_t
  | VObject cls _ => class_t cls
  end.

#[global] Instance PyType_eq_dec : EqDecision PyType.
Proof. solve_decision. Defined.

Definition PyType_encode (t : PyType) : nat + string :=
  match t with
  | NoneType => inl 0%nat | bool_t => inl 1%nat | int_t => inl 2%nat
  | float_t => inl 3%nat | str_t => inl 4%nat | list_t => inl 5%nat
  | tuple_t => inl 6%nat | dict_t => inl 7%nat | I18NMessage_t => inl 8%nat
  | class_t name => inr name
  end.

Definition PyType_decode (c : nat + string) : PyType :=
  match c with
  | inl 0%nat => NoneType | inl 1%nat => bool_t | inl 2%nat => int_t
  | inl 3%nat => float_t | inl 4%nat => str_t | inl 5%nat => list_t
  | inl 6%nat => tuple_t | inl 7%nat => dict_t | inl _ => I18NMessage_t
  | inr name => class_t name
  end.

#[global] Instance PyType_countable : Countable PyType.
Proof.
  apply (inj_countable' PyType_encode PyType_decode).
  intros []; reflexivity.
Defined.

(** [isinstance(inst, ...)] for the classes the engine tests.  [bool] is
    a subclass of [int]. *)
Definition isinstance_str (inst : PyValue) : bool :=
  match inst with VStr _ => true | _ => false end.
Definition isinstance_I18NMessage (inst : PyValue) : bool :=
  match inst with VMessage _ => true | _ => false end.
Definition isinstance_list_tuple (inst : PyValue) : bool :=
  match inst with VList _ | VTuple _ => true | _ => false end.
Definition isinstance_int (inst : PyValue) : bool :=
  match inst with VInt _ | VBool _ => true | _ => false end.
Definition isinstance_int_float (inst : PyValue) : bool :=
  match inst with VInt _ | VBool _ | VFloat _ => true | _ => false end.
Definition isinstance_dict (inst : PyValue) : bool :=
  match inst with VDict _ => true | _ => false end.

(** ** Fragments and compiled formatters *)

(** [class IndexRef] and [class NameRef].  The parser builds a [NameRef]
    from whatever is not an [int], so the name is a value. *)
Inductive Ref : Type :=
| IndexRef (index : Z)
| NameRef (name : PyValue).

(** [class TextFragment] and [class ArgumentFragment]; the [ts] field of
    the latter is the service that owns the catalog. *)
Inductive Fragment : Type :=
| TextFragment (text : string)
| ArgumentFragment (ref : Ref) (options : Dict).

(** [class MessageFormatter]: [self.fragments] is a tuple. *)
Record MessageFormatter : Type := mkMessageFormatter { fragments : list Fragment }.

(** ** Exceptions

    [I18nException] is the only exception class of the module.  Its
    message is kept as the format template that built it, with the
    operands of the template, so that what an exception carries can be
    read off; [cause] is the [__cause__] set by [raise ... from e]. *)

Inductive ExcClass : Type :=
| TypeError | KeyError | IndexError | AttributeError | ValueError
| OverflowError | NameError | NotImplementedError
| OtherException (name : string).

Inductive I18nText : Type :=
| MissingTextFor (key : string)
| NoFactoryCanHandle (ty : PyType) (inst : PyValue)
| MissingFormatterFor (i18n_message : PyValue) (locale : option string)
| ErrorFormattingWith (formatter : MessageFormatter) (args : list PyValue) (kwargs : Dict)
| ErrorTranslating (i18n_message : PyValue) (locale : option string)
| ErrorParsing (message : PyValue)
| UnsupportedPart (part : PyValue).

Inductive PyExc : Type :=
| Builtin (cls : ExcClass) (msg : string)
| I18nException (text : I18nText) (cause : option PyExc).

Definition is_I18nException (e : PyExc) : bool :=
  match e with I18nException _ _ => true | Builtin _ _ => false end.

(** A computation of the runtime that has no effect on the service. *)
Inductive Result (A : Type) : Type :=
| Ok (a : A)
| Error (e : PyExc).
Arguments Ok {A} a.
Arguments Error {A} e.

(** ** The service and its dispatch state *)

(** A factory registered by an extension ([DetailFormatterFactory]
    interface): [can_handle(inst)] and [create_formatter(locale,
    **options)], whose formatter maps a value to text or raises.
    Extension formatters are taken to be stateless and not to call back
    into the service. *)
Record ExtensionFactory : Type := mkExtensionFactory {
  ext_can_handle : PyValue -> bool;
  ext_create_formatter : option string -> Dict -> Result (PyValue -> Result string) }.

(** The factories [DefaultFormatterFactory] can hold. *)
Inductive Delegate : Type :=
| StringFormatterFactory
| I18nMessageFormatterFactory
| ListFormatterFactory
| NumberFormatterFactory
| Extension (f : ExtensionFactory).

(** The formatters the factories create, with the fields their
    constructors store. *)
Inductive DetailFormatter : Type :=
| StringFormatter
| I18nMessageFormatter (locale : option string)
| ListFormatter (locale : option string) (options : Dict)
| NumberFormatter (locale : option string) (plural_message_base : PyValue)
| ExtensionFormatter (format : PyValue -> Result string).

Inductive MissingTextStrategy : Type :=
| FailOnMissingTextsStrategy
| LogMissingTextStrategy.

Inductive LogLevel : Type := DEBUG | WARNING.

(** One call to a logger: the level, and the template with its operands. *)
Inductive LogRecord : Type :=
| LookingFor (key : string) (fallback_locales : list string)
| FoundKey (key : string) (locale : string)
| MissingTextWarning (key : string).

Definition level (r : LogRecord) : LogLevel :=
  match r with
  | MissingTextWarning _ => WARNING
  | _ => DEBUG
  end.

(** A [TranslationService] with the objects it owns: the message
    provider ([default_locale], [missing_text_strategy],
    [pattern_cache]) and the formatter factory ([delegates], [cache]).
    [log] collects what was sent to the loggers. *)
Record TranslationService : Type := mkTranslationService {
  default_locale : option string;
  missing_text_strategy : MissingTextStrategy;
  pattern_cache : gmap string (gmap string MessageFormatter);
  delegates : list Delegate;
  cache : gmap PyType Delegate;
  log : list LogRecord }.

Definition set_pattern_cache (ts : TranslationService) pc : TranslationService :=
  mkTranslationService (default_locale ts) (missing_text_strategy ts) pc
    (delegates ts) (cache ts) (log ts).
Definition set_delegates (ts : TranslationService) ds : TranslationService :=
  mkTranslationService (default_locale ts) (missing_text_strategy ts)
    (pattern_cache ts) ds (cache ts) (log ts).
Definition set_cache (ts : TranslationService) c : TranslationService :=
  mkTranslationService (default_locale ts) (missing_text_strategy ts)
    (pattern_cache ts) (delegates ts) c (log ts).
Definition set_log (ts : TranslationService) l : TranslationService :=
  mkTranslationService (default_locale ts) (missing_text_strategy ts)
    (pattern_cache ts) (delegates ts) (cache ts) l.

(** ** Computations on the service

    A method call either returns, raises, or (in the recursive
    functions below) runs out of the fuel that bounds the depth of the
    recursion.  The service is threaded through and keeps the changes
    made before an exception was raised. *)

Inductive Outcome (A : Type) : Type :=
| Return (a : A)
| Raise (e : PyExc)
| OutOfFuel.
Arguments Return {A} a.
Arguments Raise {A} e.
Arguments OutOfFuel {A}.

Definition Py (A : Type) : Type := TranslationService -> Outcome A * TranslationService.

Definition ret {A} (a : A) : Py A := fun ts => (Return a, ts).
Definition raise {A} (e : PyExc) : Py A := fun ts => (Raise e, ts).
Definition out_of_fuel {A} : Py A := fun ts => (OutOfFuel, ts).

Definition bind {A B} (c : Py A) (k : A -> Py B) : Py B :=
  fun ts =>
    match c ts with
    | (Return a, ts') => k a ts'
    | (Raise e, ts') => (Raise e, ts')
    | (OutOfFuel, ts') => (OutOfFuel, ts')
    end.

#[global] Instance Py_ret : MRet Py := @ret.
#[global] Instance Py_bind : MBind Py := fun A B k c => bind c k.

Definition lift {A} (r : Result A) : Py A :=
  match r with
  | Ok a => ret a
  | Error e => raise e
  end.

Definition get_service : Py TranslationService := fun ts => (Return ts, ts).
Definition log_record (r : LogRecord) : Py unit :=
  fun ts => (Return tt, set_log ts (log ts ++ [r])).

(** [try: c except Exception as e: handler(e)]. *)
Definition try_except {A} (c : Py A) (handler : PyExc -> Py A) : Py A :=
  fun ts =>
    match c ts with
    | (Raise e, ts') => handler e ts'
    | other => other
    end.

(** [try: c except I18nException: handler]. *)
Definition try_except_I18nException {A} (c : Py A) (handler : PyExc -> Py A) : Py A :=
  fun ts =>
    match c ts with
    | (Raise e, ts') => if is_I18nException e then handler e ts' else (Raise e, ts')
    | other => other
    end.

(** A comprehension [[f(item) for item in items]]. *)
Fixpoint for_each {A B} (f : A -> Py B) (items : list A) : Py (list B) :=
  match items with
  | [] => ret []
  | item :: rest =>
      b ← f item;
      bs ← for_each f rest;
      ret (b :: bs)
  end.

(** ** The runtime: numbers as text *)

Module PyNum.

(** [str(n)] for an [int]: the decimal digits, with a sign when negative. *)
Definition decimal (n : Z) : string := NilZero.string_of_int (Z.to_int n).

(** [int(s)] for a string of decimal digits with an optional sign. *)
Definition read_decimal (s : string) : option Z :=
  option_map Z.of_int (NilZero.int_of_string s).

Definition digit (d : Z) : ascii := ascii_of_nat (48 + Z.to_nat d).

(** The last [width] decimal digits of [n], zero padded. *)
Fixpoint fixed_digits (width : nat) (n : Z) : string :=
  match width with
  | O => EmptyString
  | S w => fixed_digits w (n / 10) +:+ String (digit (n mod 10)) EmptyString
  end.

(** The integer nearest to [num / den], ties to the even one ([0 < den]). *)
Definition round_half_even (num den : Z) : Z :=
  let q := num / den in
  let r := num mod den in
  match 2 * r ?= den with
  | Lt => q
  | Gt => q + 1
  | Eq => if Z.even q then q else q + 1
  end.

(** [q / 10^precision] written with [precision] digits after the point. *)
Definition fixed_text (precision : nat) (q : Z) : string :=
  let scale := 10 ^ Z.of_nat precision in
  decimal (q / scale)
    +:+ match precision with
        | O => EmptyString
        | _ => "." +:+ fixed_digits precision (q mod scale)
        end.

Definition sign_text (negative : bool) : string :=
  if negative then "-" else EmptyString.

(** The conversion [%.<precision>f] of a binary64 value: the decimal
    expansion of the exact value, correctly rounded. *)
Definition format_f (upper : bool) (precision : nat) (x : spec_float) : string :=
  match x with
  | S754_nan => if upper then "NAN" else "nan"
  | S754_infinity s => sign_text s +:+ (if upper then "INF" else "inf")
  | S754_zero s => sign_text s +:+ fixed_text precision 0
  | S754_finite s m e =>
      let scale := 10 ^ Z.of_nat precision in
      let q := if 0 <=? e
               then Z.pos m * 2 ^ e * scale
               else round_half_even (Z.pos m * scale) (2 ^ (- e)) in
      sign_text s +:+ fixed_text precision q
  end.

(** [float(n)] for an [int]: the nearest binary64 value. *)
Definition float_of_int (n : Z) : Result spec_float :=
  match binary_normalize 53 1024 n 0 false with
  | S754_infinity _ => Error (Builtin OverflowError "int too large to convert to float")
  | x => Ok x
  end.

(** [int(x)] for a [float]: truncation towards zero. *)
Definition int_of_float (x : spec_float) : Result Z :=
  match x with
  | S754_nan => Error (Builtin ValueError "cannot convert float NaN to integer")
  | S754_infinity _ => Error (Builtin OverflowError "cannot convert float infinity to integer")
  | S754_zero _ => Ok 0
  | S754_finite s m e =>
      let magnitude := if 0 <=? e then Z.pos m * 2 ^ e else Z.pos m / 2 ^ (- e) in
      Ok (if s then - magnitude else magnitude)
  end.

(** The value a decimal literal [digits * 10^-places] denotes: the
    nearest binary64 value (for [digits] and [10^places] below [2^53]). *)
Definition literal (digits : Z) (places : nat) : spec_float :=
  SFdiv 53 1024 (binary_normalize 53 1024 digits 0 false)
    (binary_normalize 53 1024 (10 ^ Z.of_nat places) 0 false).

(** A number as the [%] operator sees it; a [bool] counts as its [int]. *)
Inductive Number : Type :=
| NInt (n : Z)
| NFloat (x : spec_float).

Definition as_number (inst : PyValue) : option Number :=
  match inst with
  | VInt n => Some (NInt n)
  | VBool b => Some (NInt (if b then 1 else 0))
  | VFloat x => Some (NFloat x)
  | _ => None
  end.

(** The conversions of a format string that are modelled here: literal
    text, [%%], [%d] ([%i], [%u]) and [%f] ([%F]) with an optional
    [.precision]. *)
Inductive Directive : Type :=
| Literal (c : ascii)
| ConvInt
| ConvFixed (upper : bool) (precision : nat).

Inductive ScanMode : Type :=
| InText
| AfterPercent
| InPrecision (precision : nat).

Definition digit_value (c : ascii) : option nat :=
  let n := nat_of_ascii c in
  if (48 <=? n)%nat && (n <=? 57)%nat then Some (n - 48)%nat else None.

(** Reads a format string; [None] when it uses anything else than the
    conversions above. *)
Fixpoint scan (mode : ScanMode) (s : string) : option (list Directive) :=
  match s with
  | EmptyString =>
      match mode with
      | InText => Some []
      | _ => None
      end
  | String c rest =>
      match mode with
      | InText =>
          if Ascii.eqb c "%" then scan AfterPercent rest
          else cons (Literal c) <$> scan InText rest
      | AfterPercent =>
          if Ascii.eqb c "%" then cons (Literal "%") <$> scan InText rest
          else if Ascii.eqb c "d" || Ascii.eqb c "i" || Ascii.eqb c "u"
          then cons ConvInt <$> scan InText rest
          else if Ascii.eqb c "f" then cons (ConvFixed false 6) <$> scan InText rest
          else if Ascii.eqb c "F" then cons (ConvFixed true 6) <$> scan InText rest
          else if Ascii.eqb c "." then scan (InPrecision 0) rest
          else None
      | InPrecision p =>
          match digit_value c with
          | Some d => scan (InPrecision (10 * p + d)) rest
          | None =>
              if Ascii.eqb c "f" then cons (ConvFixed false p) <$> scan InText rest
              else if Ascii.eqb c "F" then cons (ConvFixed true p) <$> scan InText rest
              else None
          end
      end
  end.

Definition convert_int (x : Number) : Result string :=
  match x with
  | NInt n => Ok (decimal n)
  | NFloat f =>
      match int_of_float f with
      | Ok n => Ok (decimal n)
      | Error e => Error e
      end
  end.

Definition convert_fixed (upper : bool) (precision : nat) (x : Number) : Result string :=
  match x with
  | NFloat f => Ok (format_f upper precision f)
  | NInt n =>
      match float_of_int n with
      | Ok f => Ok (format_f upper precision f)
      | Error e => Error e
      end
  end.

Definition prepend (text : string) (r : Result string) : Result string :=
  match r with
  | Ok rest => Ok (text +:+ rest)
  | Error e => Error e
  end.

(** Renders the directives from left to right; [operand] is the single
    operand while no conversion has consumed it. *)
Fixpoint render (ds : list Directive) (operand : option Number) : Result string :=
  match ds with
  | [] =>
      match operand with
      | Some _ =>
          Error (Builtin TypeError "not all arguments converted during string formatting")
      | None => Ok EmptyString
      end
  | Literal c :: rest => prepend (String c EmptyString) (render rest operand)
  | ConvInt :: rest =>
      match operand with
      | None => Error (Builtin TypeError "not enough arguments for format string")
      | Some x =>
          match convert_int x with
          | Ok text => prepend text (render rest None)
          | Error e => Error e
          end
      end
  | ConvFixed upper precision :: rest =>
      match operand with
      | None => Error (Builtin TypeError "not enough arguments for format string")
      | Some x =>
          match convert_fixed upper precision x with
          | Ok text => prepend text (render rest None)
          | Error e => Error e
          end
      end
  end.

End PyNum.

(** What is left to the runtime: the text [repr] gives for a [float],
    and the [%] operator on format strings and operands that are outside
    [PyNum]. *)
Record Runtime : Type := mkRuntime {
  float_repr : spec_float -> string;
  percent_other : string -> PyValue -> Result string }.

(** ** The runtime: sequences, comparison, [repr] *)

Module PySeq.

(** [seq[i]], with negative indices counted from the end. *)
Definition index {A} (seq : list A) (i : Z) : Result A :=
  let n := Z.of_nat (length seq) in
  let j := if i <? 0 then i + n else i in
  if (0 <=? j) && (j <? n) then
    match nth_error seq (Z.to_nat j) with
    | Some a => Ok a
    | None => Error (Builtin IndexError "index out of range")
    end
  else Error (Builtin IndexError "index out of range").

(** [seq[0:-1]]. *)
Definition all_but_last {A} (seq : list A) : list A := removelast seq.

(** What [len(inst)] counts and [for item in inst] visits. *)
Definition iterate (inst : PyValue) : Result (list PyValue) :=
  match inst with
  | VList items | VTuple items => Ok items
  | VStr s => Ok (map (fun c => VStr (String c EmptyString)) (list_ascii_of_string s))
  | VDict entries => Ok (map VStr (dict_keys entries))
  | _ => Error (Builtin TypeError "object has no len()")
  end.

(** [sep.join(parts)]: every part has to be a [str]. *)
Fixpoint strings (parts : list PyValue) : Result (list string) :=
  match parts with
  | [] => Ok []
  | VStr s :: rest =>
      match strings rest with
      | Ok ss => Ok (s :: ss)
      | Error e => Error e
      end
  | _ :: _ => Error (Builtin TypeError "sequence item: expected str instance")
  end.

Definition join (sep : string) (parts : list PyValue) : Result string :=
  match strings parts with
  | Ok ss => Ok (PyStr.join sep ss)
  | Error e => Error e
  end.

End PySeq.

(** [I18NMessage.__eq__(self)].  The method declares no parameter for
    the right operand: called with one, as [==] does, the call is refused
    before the body runs; called with none, the body reads the name
    [other], which is not defined. *)
Definition I18NMessage_eq (self : I18NMessage) (operands : list PyValue) : Result bool :=
  match operands with
  | [] => Error (Builtin NameError "name 'other' is not defined")
  | _ :: _ =>
      Error (Builtin TypeError "__eq__() takes 1 positional argument but 2 were given")
  end.

(** [inst == other] where [other] is an [int] or [str] literal. *)
Definition eq_int (inst : PyValue) (n : Z) : Result bool :=
  match inst with
  | VInt k => Ok (k =? n)
  | VBool b => Ok ((if b then 1 else 0) =? n)
  | VFloat x =>
      Ok (match SFcompare x (binary_normalize 53 1024 n 0 false) with
          | Some Eq => true
          | _ => false
          end)
  | VMessage m => I18NMessage_eq m [VInt n]
  | _ => Ok false
  end.

Definition eq_str (inst : PyValue) (s : string) : Result bool :=
  match inst with
  | VStr s' => Ok (String.eqb s' s)
  | VMessage m => I18NMessage_eq m [VStr s]
  | _ => Ok false
  end.

Module PyRepr.

Definition squote : ascii := ascii_of_nat 39.
Definition dquote : ascii := ascii_of_nat 34.
Definition backslash : ascii := ascii_of_nat 92.

Fixpoint contains (c : ascii) (s : string) : bool :=
  match s with
  | EmptyString => false
  | String a rest => Ascii.eqb a c || contains c rest
  end.

Definition hex_digit (n : nat) : ascii :=
  if (n <? 10)%nat then ascii_of_nat (48 + n) else ascii_of_nat (87 + n).

Definition escape (quote c : ascii) : string :=
  let n := nat_of_ascii c in
  if Ascii.eqb c backslash then String backslash (String backslash EmptyString)
  else if Ascii.eqb c quote then String backslash (String quote EmptyString)
  else if (n =? 10)%nat then String backslash "n"
  else if (n =? 13)%nat then String backslash "r"
  else if (n =? 9)%nat then String backslash "t"
  else if (n <? 32)%nat || (n =? 127)%nat
  then String backslash (String "x" (String (hex_digit (n / 16)) (String (hex_digit (n mod 16)) EmptyString)))
  else String c EmptyString.

Fixpoint escape_all (quote : ascii) (s : string) : string :=
  match s with
  | EmptyString => EmptyString
  | String c rest => escape quote c +:+ escape_all quote rest
  end.

(** [repr(s)] for a [str]. *)
Definition of_str (s : string) : string :=
  let quote := if contains squote s && negb (contains dquote s) then dquote else squote in
  String quote (escape_all quote s +:+ String quote EmptyString).

Definition of_locale (l : option string) : string :=
  match l with
  | Some s => of_str s
  | None => "None"
  end.

Section WithRuntime.
Context (runtime : Runtime).

(** [repr(v)], and [I18NMessage.__repr__(self)]. *)
Fixpoint repr (v : PyValue) : string :=
  match v with
  | VNone => "None"
  | VBool b => if b then "True" else "False"
  | VInt n => PyNum.decimal n
  | VFloat x => float_repr runtime x
  | VStr s => of_str s
  | VList items => "[" +:+ PyStr.join ", " (map repr items) +:+ "]"
  | VTuple items =>
      match items with
      | [item] => "(" +:+ repr item +:+ ",)"
      | _ => "(" +:+ PyStr.join ", " (map repr items) +:+ ")"
      end
  | VDict entries =>
      "{" +:+ PyStr.join ", "
                (map (fun kv => match kv with (k, x) => of_str k +:+ ": " +:+ repr x end) entries)
          +:+ "}"
  | VMessage m => I18NMessage_repr m
  | VObject _ shown => shown
  end
with I18NMessage_repr (self : I18NMessage) : string :=
  match self with
  | MkI18NMessage key locale args kwargs =>
      let args_text :=
        match args with
        | [item] => "(" +:+ repr item +:+ ",)"
        | _ => "(" +:+ PyStr.join ", " (map repr args) +:+ ")"
        end in
      let kwargs_text :=
        "{" +:+ PyStr.join ", "
                  (map (fun kv => match kv with (k, x) => of_str k +:+ ": " +:+ repr x end) kwargs)
            +:+ "}" in
      match locale with
      | None => "I18NMessage(" +:+ key +:+ ", " +:+ args_text +:+ ", " +:+ kwargs_text +:+ ")"
      | Some l =>
          "I18NMessage(" +:+ key +:+ ", locale=" +:+ of_str l +:+ ", "
            +:+ args_text +:+ ", " +:+ kwargs_text +:+ ")"
      end
  end.

End WithRuntime.

End PyRepr.

(** [template % operand] for a template with one conversion: a tuple
    is taken as the tuple of the operands, so it has to hold exactly
    one; any other value is the operand. *)
Definition single_operand (operand : PyValue) : Result PyValue :=
  match operand with
  | VTuple [] => Error (Builtin TypeError "not enough arguments for format string")
  | VTuple [item] => Ok item
  | VTuple (_ :: _ :: _) =>
      Error (Builtin TypeError "not all arguments converted during string formatting")
  | _ => Ok operand
  end.

(** ** Formatter dispatch (class [DefaultFormatterFactory]) *)

(** [delegate.can_handle(inst)]. *)
Definition can_handle (delegate : Delegate) (inst : PyValue) : bool :=
  match delegate with
  | StringFormatterFactory => isinstance_str inst
  | I18nMessageFormatterFactory => isinstance_I18NMessage inst
  | ListFormatterFactory => isinstance_list_tuple inst
  | NumberFormatterFactory => isinstance_int_float inst
  | Extension f => ext_can_handle f inst
  end.

Definition unexpected_keyword : PyExc :=
  Builtin TypeError "create_formatter() got an unexpected keyword argument".

Definition member (k : string) (ks : list string) : bool :=
  existsb (String.eqb k) ks.

(** [delegate.create_formatter(locale, **options)].  The options are
    passed as keyword arguments, so each factory accepts the names its
    signature, and the constructor it calls, leave free. *)
Definition delegate_create_formatter (delegate : Delegate) (locale : option string)
    (options : Dict) : Result DetailFormatter :=
  match delegate with
  | StringFormatterFactory =>
      match options with
      | [] => Ok StringFormatter
      | _ :: _ => Error unexpected_keyword
      end
  | I18nMessageFormatterFactory =>
      match options with
      | [] => Ok (I18nMessageFormatter locale)
      | _ :: _ => Error unexpected_keyword
      end
  | ListFormatterFactory =>
      if existsb (fun k => member k ["self"; "locale"; "ts"]) (dict_keys options)
      then Error unexpected_keyword
      else Ok (ListFormatter locale options)
  | NumberFormatterFactory =>
      if forallb (String.eqb "plural") (dict_keys options)
      then Ok (NumberFormatter locale (default VNone (dict_get options "plural")))
      else Error unexpected_keyword
  | Extension f =>
      match ext_create_formatter f locale options with
      | Ok format => Ok (ExtensionFormatter format)
      | Error e => Error e
      end
  end.

(** The scan [for delegate in self.delegates: if delegate.can_handle(inst)]. *)
Fixpoint first_match (delegates : list Delegate) (inst : PyValue) : option Delegate :=
  match delegates with
  | [] => None
  | delegate :: rest =>
      if can_handle delegate inst then Some delegate else first_match rest inst
  end.

Definition cache_store (t : PyType) (delegate : Delegate) : Py unit :=
  fun ts => (Return tt, set_cache ts (<[t := delegate]> (cache ts))).

(** [DefaultFormatterFactory.create_formatter(self, locale, inst, options)]. *)
Definition create_formatter (locale : option string) (inst : PyValue) (options : Dict)
    : Py DetailFormatter :=
  ts ← get_service;
  match cache ts !! type inst with
  | Some delegate => lift (delegate_create_formatter delegate locale options)
  | None =>
      match first_match (delegates ts) inst with
      | Some delegate =>
          cache_store (type inst) delegate;;
          lift (delegate_create_formatter delegate locale options)
      | None => raise (I18nException (NoFactoryCanHandle (type inst) inst) None)
      end
  end.

(** [DefaultFormatterFactory.register(self, *delegates)]. *)
Definition register (new_delegates : list Delegate) (ts : TranslationService)
    : TranslationService :=
  set_delegates ts (delegates ts ++ new_delegates).

(** ** Catalog (class [SimpleMessageProvider]) and missing texts *)

(** [tuple(fragments)] in [MessageFormatter.__init__]: the argument has
    to be iterable. *)
Inductive FragmentsArgument : Type :=
| FragmentList (fragments : list Fragment)
| SingleFragment (fragment : Fragment).

(** [MessageFormatter.__init__(self, fragments)]. *)
Definition MessageFormatter_init (fragments : FragmentsArgument) : Result MessageFormatter :=
  match fragments with
  | FragmentList l => Ok (mkMessageFormatter l)
  | SingleFragment (TextFragment _) =>
      Error (Builtin TypeError "'TextFragment' object is not iterable")
  | SingleFragment (ArgumentFragment _ _) =>
      Error (Builtin TypeError "'ArgumentFragment' object is not iterable")
  end.

(** [text_message_formatter(text)]. *)
Definition text_message_formatter (text : string) : Result MessageFormatter :=
  MessageFormatter_init (SingleFragment (TextFragment text)).

(** [lookup_single_locale(self, key, locale)]. *)
Definition lookup_single_locale (key : string) (locale : string)
    : Py (option MessageFormatter) :=
  ts ← get_service;
  match pattern_cache ts !! locale with
  | None => ret None
  | Some keys =>
      let formatter := keys !! key in
      match formatter with
      | Some _ => log_record (FoundKey key locale);; ret formatter
      | None => ret formatter
      end
  end.

(** The loop of [lookup_message] over the fallback locales. *)
Fixpoint lookup_chain (key : string) (fallback_locales : list string)
    : Py (option MessageFormatter) :=
  match fallback_locales with
  | [] => ret None
  | lc :: rest =>
      formatter ← lookup_single_locale key lc;
      match formatter with
      | Some _ => ret formatter
      | None => lookup_chain key rest
      end
  end.

Section Engine.
Context (runtime : Runtime).

(** [missing_text_strategy.apply(i18n_message, locale)]. *)
Definition MissingTextStrategy_apply (strategy : MissingTextStrategy)
    (i18n_message : I18NMessage) (locale : option string) : Py (option MessageFormatter) :=
  match strategy with
  | FailOnMissingTextsStrategy =>
      raise (I18nException (MissingTextFor (I18NMessage_key i18n_message)) None)
  | LogMissingTextStrategy =>
      log_record (MissingTextWarning (I18NMessage_key i18n_message));;
      formatter ← lift (text_message_formatter (PyRepr.repr runtime (VMessage i18n_message)));
      ret (Some formatter)
  end.

Definition no_attribute (name : string) : PyExc :=
  Builtin AttributeError ("object has no attribute " +:+ name).

(** [SimpleMessageProvider.lookup_message(self, i18n_message, locale)]. *)
Definition lookup_message (i18n_message : PyValue) (locale : option string)
    : Py (option MessageFormatter) :=
  ts ← get_service;
  let fallback_locales := LocaleFallbackStrategy.apply (default_locale ts) locale in
  match i18n_message with
  | VMessage m =>
      let key := I18NMessage_key m in
      log_record (LookingFor key fallback_locales);;
      formatter ← lookup_chain key fallback_locales;
      match formatter with
      | Some _ => ret formatter
      | None => MissingTextStrategy_apply (missing_text_strategy ts) m locale
      end
  | _ => raise (no_attribute "key")
  end.

(** ** Built-in formatters *)

(** [spec % inst]. *)
Definition percent (spec : string) (inst : PyValue) : Result string :=
  match PyNum.scan PyNum.InText spec, PyNum.as_number inst with
  | Some directives, Some x => PyNum.render directives (Some x)
  | _, _ => percent_other runtime spec inst
  end.

(** [base + suffix] for a [str] literal [suffix]. *)
Definition add_str (base : PyValue) (suffix : string) : Result string :=
  match base with
  | VStr b => Ok (b +:+ suffix)
  | _ => Error (Builtin TypeError "unsupported operand type(s) for +")
  end.

Fixpoint hashable (v : PyValue) : bool :=
  match v with
  | VList _ | VDict _ | VMessage _ => false
  | VTuple items => forallb hashable items
  | _ => true
  end.

(** [IndexRef.get(self, args, kwargs)] and [NameRef.get(self, args, kwargs)]. *)
Definition Ref_get (self : Ref) (args : list PyValue) (kwargs : Dict) : Result PyValue :=
  match self with
  | IndexRef index => PySeq.index args index
  | NameRef name =>
      if hashable name then
        match name with
        | VStr s =>
            match dict_get kwargs s with
            | Some value => Ok value
            | None => Error (Builtin KeyError (PyRepr.repr runtime name))
            end
        | _ => Error (Builtin KeyError (PyRepr.repr runtime name))
        end
      else Error (Builtin TypeError "unhashable type")
  end.

(** [IndexRef.__repr__(self)] is ['[%d]' % self.index] and
    [NameRef.__repr__(self)] is ['[%r]' % self.name]. *)
Definition Ref_repr (self : Ref) : Result string :=
  match self with
  | IndexRef index => Ok ("[" +:+ PyNum.decimal index +:+ "]")
  | NameRef name =>
      match single_operand name with
      | Ok shown => Ok ("[" +:+ PyRepr.repr runtime shown +:+ "]")
      | Error e => Error e
      end
  end.

(** [TextFragment.__repr__(self)] and [ArgumentFragment.__repr__(self)]. *)
Definition Fragment_repr (self : Fragment) : Result string :=
  match self with
  | TextFragment text => Ok ("text(" +:+ PyRepr.of_str text +:+ ")")
  | ArgumentFragment ref options =>
      match Ref_repr ref with
      | Ok shown =>
          if (length options =? 0)%nat then Ok ("arg(" +:+ shown +:+ ")")
          else Ok ("arg(" +:+ shown +:+ ", " +:+ PyRepr.repr runtime (VDict options) +:+ ")")
      | Error e => Error e
      end
  end.

(** The [repr] of each fragment, in order. *)
Fixpoint Fragments_repr (fragments : list Fragment) : Result (list string) :=
  match fragments with
  | [] => Ok []
  | fragment :: rest =>
      match Fragment_repr fragment with
      | Error e => Error e
      | Ok shown =>
          match Fragments_repr rest with
          | Ok more => Ok (shown :: more)
          | Error e => Error e
          end
      end
  end.

(** [MessageFormatter.__repr__(self)]: ['MessageFormatter%r' %
    (self.fragments,)], the fragments shown as the tuple they are kept
    in. *)
Definition MessageFormatter_repr (self : MessageFormatter) : Result string :=
  match Fragments_repr (fragments self) with
  | Ok [shown] => Ok ("MessageFormatter(" +:+ shown +:+ ",)")
  | Ok shown => Ok ("MessageFormatter(" +:+ PyStr.join ", " shown +:+ ")")
  | Error e => Error e
  end.

(** What the handler of the inner [try] of [translate] raises for the
    error [e]: the text of its [I18nException] shows the formatter, so
    when [repr(formatter)] raises, that error is raised instead. *)
Definition formatting_error (formatter : MessageFormatter) (args : list PyValue)
    (kwargs : Dict) (e : PyExc) : PyExc :=
  match MessageFormatter_repr formatter with
  | Ok _ => I18nException (ErrorFormattingWith formatter args kwargs) (Some e)
  | Error e' => e'
  end.

(** [I18NMessage(key)]. *)
Definition message (key : string) : I18NMessage := MkI18NMessage key None [] [].

Definition empty_message : I18NMessage := message "pdark.i18n.list.empty".
Definition comma_message : I18NMessage := message "pdark.i18n.list.comma".
Definition and_message : I18NMessage := message "pdark.i18n.list.and".
Definition or_message : I18NMessage := message "pdark.i18n.list.or".
Definition int_message : I18NMessage := message "pdark.i18n.number.int".
Definition float_message : I18NMessage := message "pdark.i18n.number.float".

(** [ListFormatter.get_tail_joiner(self)]. *)
Definition get_tail_joiner (options : Dict) : Result I18NMessage :=
  match dict_get options "type" with
  | Some value =>
      match eq_str value "or" with
      | Ok true => Ok or_message
      | Ok false => Ok and_message
      | Error e => Error e
      end
  | None => Ok and_message
  end.

(** The methods that call back into the service are written over the
    two calls they make: [translate] is [self.ts.translate] and [format]
    is the [format] method of a formatter that dispatch has created. *)
Section Methods.
Variable translate : PyValue -> option string -> Py string.
Variable format : DetailFormatter -> PyValue -> Py PyValue.

(** [I18nMessageFormatter.format(self, inst)]. *)
Definition I18nMessageFormatter_format (locale : option string) (inst : PyValue)
    : Py PyValue :=
  text ← translate inst locale;
  ret (VStr text).

(** The local function [process(item)] of [ListFormatter.format]. *)
Definition process (locale : option string) (item : PyValue) : Py PyValue :=
  let options := [] in
  formatter ← create_formatter locale item options;
  format formatter item.

(** [ListFormatter.format(self, inst)]. *)
Definition ListFormatter_format (locale : option string) (options : Dict)
    (inst : PyValue) : Py PyValue :=
  items ← lift (PySeq.iterate inst);
  if (length items =? 0)%nat then
    text ← translate (VMessage empty_message) locale;
    ret (VStr text)
  else
    as_strings ← for_each (process locale) items;
    if (length items =? 1)%nat then lift (PySeq.index as_strings 0)
    else
      tail ← lift (PySeq.index as_strings (-1));
      let head := PySeq.all_but_last as_strings in
      head ← (if (1 <? length head)%nat then
                joiner ← translate (VMessage comma_message) locale;
                joined ← lift (PySeq.join joiner head);
                ret (VStr joined)
              else lift (PySeq.index head 0));
      tail_joiner ← lift (get_tail_joiner options);
      joiner ← translate (VMessage tail_joiner) locale;
      joined ← lift (PySeq.join joiner [head; tail]);
      ret (VStr joined).

(** [NumberFormatter.get_plural_message(self, tag)]. *)
Definition get_plural_message (locale : option string) (plural_message_base : PyValue)
    (tag : string) : Py string :=
  key ← lift (add_str plural_message_base ".one");
  let message1 := message key in
  try_except_I18nException (translate (VMessage message1) locale)
    (fun e =>
       if String.eqb tag "other" then raise e
       else
         key ← lift (add_str plural_message_base ".other");
         let message2 := message key in
         translate (VMessage message2) locale).

(** [NumberFormatter.format(self, inst)]. *)
Definition NumberFormatter_format (locale : option string) (plural_message_base : PyValue)
    (inst : PyValue) : Py PyValue :=
  let message := if isinstance_int inst then int_message else float_message in
  spec ← translate (VMessage message) locale;
  match plural_message_base with
  | VNone =>
      text ← lift (percent spec inst);
      ret (VStr text)
  | _ =>
      is_zero ← lift (eq_int inst 0);
      text ← (if is_zero : bool then get_plural_message locale plural_message_base "zero"
              else
                is_one ← lift (eq_int inst 1);
                if is_one : bool then get_plural_message locale plural_message_base "one"
                else
                  is_two ← lift (eq_int inst 2);
                  if is_two : bool then get_plural_message locale plural_message_base "two"
                  else get_plural_message locale plural_message_base "other");
      base ← lift (percent spec inst);
      ret (VStr (base +:+ " " +:+ text))
  end.

(** [formatter.format(inst)] for each class of formatter. *)
Definition DetailFormatter_format (formatter : DetailFormatter) (inst : PyValue)
    : Py PyValue :=
  match formatter with
  | StringFormatter => ret inst
  | I18nMessageFormatter locale => I18nMessageFormatter_format locale inst
  | ListFormatter locale options => ListFormatter_format locale options inst
  | NumberFormatter locale plural => NumberFormatter_format locale plural inst
  | ExtensionFormatter format_inst =>
      text ← lift (format_inst inst);
      ret (VStr text)
  end.

(** ** Rendering of a compiled formatter, and [translate] *)

(** [buffer.write(text)]: a [StringIO] takes a [str]. *)
Definition buffer_write (buffer : string) (text : PyValue) : Result string :=
  match text with
  | VStr s => Ok (buffer +:+ s)
  | _ => Error (Builtin TypeError "string argument expected")
  end.

(** [fragment.append_to(buffer, locale, args, kwargs)]; the new content
    of the buffer is returned. *)
Definition append_to (fragment : Fragment) (buffer : string) (locale : option string)
    (args : list PyValue) (kwargs : Dict) : Py string :=
  match fragment with
  | TextFragment text => ret (buffer +:+ text)
  | ArgumentFragment ref options =>
      value ← lift (Ref_get ref args kwargs);
      formatter ← create_formatter locale value options;
      text ← format formatter value;
      lift (buffer_write buffer text)
  end.

Fixpoint append_all (fragments : list Fragment) (buffer : string) (locale : option string)
    (args : list PyValue) (kwargs : Dict) : Py string :=
  match fragments with
  | [] => ret buffer
  | fragment :: rest =>
      buffer ← append_to fragment buffer locale args kwargs;
      append_all rest buffer locale args kwargs
  end.

(** [MessageFormatter.format(self, locale, args, kwargs)]. *)
Definition MessageFormatter_format (self : MessageFormatter) (locale : option string)
    (args : list PyValue) (kwargs : Dict) : Py string :=
  let buffer := EmptyString in
  append_all (fragments self) buffer locale args kwargs.

(** The inner part of [TranslationService.translate], once the locale is
    settled. *)
Definition translate_at (i18n_message : PyValue) (locale : option string) : Py string :=
  formatter ← lookup_message i18n_message locale;
  match formatter with
  | None => raise (I18nException (MissingFormatterFor i18n_message locale) None)
  | Some formatter =>
      match i18n_message with
      | VMessage m =>
          let args := I18NMessage_args m in
          let kwargs := I18NMessage_kwargs m in
          try_except (MessageFormatter_format formatter locale args kwargs)
            (fun e => raise (formatting_error formatter args kwargs e))
      | _ => raise (no_attribute "args")
      end
  end.

(** The locale a call to [translate] works with: the argument, else the
    one of the request, else the default of the service. *)
Definition effective_locale (ts : TranslationService) (m : I18NMessage)
    (locale : option string) : option string :=
  match locale with
  | Some _ => locale
  | None =>
      match I18NMessage_locale m with
      | Some l => Some l
      | None => default_locale ts
      end
  end.

(** [TranslationService.translate(self, i18n_message, locale=None)]. *)
Definition TranslationService_translate (i18n_message : PyValue) (locale : option string)
    : Py string :=
  ts ← get_service;
  match locale, i18n_message with
  | None, VMessage m =>
      let locale := I18NMessage_locale m in
      let locale := match locale with None => default_locale ts | Some _ => locale end in
      try_except (translate_at i18n_message locale)
        (fun e => raise (I18nException (ErrorTranslating i18n_message locale) (Some e)))
  | None, _ =>
      raise (I18nException (ErrorTranslating i18n_message locale)
               (Some (no_attribute "locale")))
  | Some _, _ =>
      try_except (translate_at i18n_message locale)
        (fun e => raise (I18nException (ErrorTranslating i18n_message locale) (Some e)))
  end.

End Methods.

(** The recursion of [translate] through the formatters, bounded by
    [fuel]. *)
Fixpoint translate_fuel (fuel : nat) (i18n_message : PyValue) (locale : option string)
    : Py string :=
  match fuel with
  | O => out_of_fuel
  | S n => TranslationService_translate (format_fuel n) i18n_message locale
  end
with format_fuel (fuel : nat) (formatter : DetailFormatter) (inst : PyValue) : Py PyValue :=
  match fuel with
  | O => out_of_fuel
  | S n => DetailFormatter_format (translate_fuel n) (format_fuel n) formatter inst
  end.

(** How deep the recursion goes for a value: a formatter of a list
    formats the items, a formatter of a request translates it, and
    translating a request formats its arguments. *)
Fixpoint format_depth (inst : PyValue) : nat :=
  match inst with
  | VList items | VTuple items => 2 + list_max (map format_depth items)
  | VMessage m => 1 + translate_depth m
  | _ => 2
  end
with translate_depth (m : I18NMessage) : nat :=
  match m with
  | MkI18NMessage _ _ args kwargs =>
      1 + Nat.max (list_max (map format_depth args))
                  (list_max (map (fun kv => match kv with (_, x) => format_depth x end) kwargs))
  end.

(** [ts.translate(i18n_message, locale)] and [formatter.format(inst)],
    with the service they run on and the service they leave. *)
Definition translate (ts : TranslationService) (i18n_message : I18NMessage)
    (locale : option string) : Outcome string * TranslationService :=
  translate_fuel (translate_depth i18n_message) (VMessage i18n_message) locale ts.

Definition format (ts : TranslationService) (formatter : DetailFormatter)
    (inst : PyValue) : Outcome PyValue * TranslationService :=
  format_fuel (format_depth inst) formatter inst ts.

(** [formatter.format(locale, args, kwargs)] for the arguments of the
    request [i18n_message], as [translate] calls it. *)
Definition render (ts : TranslationService) (formatter : MessageFormatter)
    (i18n_message : I18NMessage) (locale : option string)
    : Outcome string * TranslationService :=
  MessageFormatter_format (format_fuel (pred (translate_depth i18n_message))) formatter
    locale (I18NMessage_args i18n_message) (I18NMessage_kwargs i18n_message) ts.

End Engine.

(** ** Pattern parser (class [MessageParser]) and registration *)

(** [MessageParser.parse0(self, fragments, message)], one part at a time.
    The error for a part that is neither a string nor a dictionary is
    built with ['Unsupported part: %r' % part]. *)
Definition parse_part (part : PyValue) : Result Fragment :=
  match part with
  | VStr text => Ok (TextFragment text)
  | VDict entries =>
      match dict_get entries "arg" with
      | None => Error (Builtin KeyError "'arg'")
      | Some arg =>
          let options := dict_del entries "arg" in
          let ref := match arg with
                     | VInt index => IndexRef index
                     | VBool b => IndexRef (if b then 1 else 0)
                     | _ => NameRef arg
                     end in
          Ok (ArgumentFragment ref options)
      end
  | _ =>
      match single_operand part with
      | Ok shown => Error (I18nException (UnsupportedPart shown) None)
      | Error e => Error e
      end
  end.

Fixpoint parse0 (parts : list PyValue) : Result (list Fragment) :=
  match parts with
  | [] => Ok []
  | part :: rest =>
      match parse_part part with
      | Error e => Error e
      | Ok fragment =>
          match parse0 rest with
          | Ok fragments => Ok (fragment :: fragments)
          | Error e => Error e
          end
      end
  end.

(** [MessageParser.parse(self, message)]. *)
Definition parse (message : PyValue) : Result MessageFormatter :=
  match message with
  | VStr text => MessageFormatter_init (FragmentList [TextFragment text])
  | _ =>
      let parsed :=
        match PySeq.iterate message with
        | Ok parts => parse0 parts
        | Error _ => Error (Builtin TypeError "object is not iterable")
        end in
      match parsed with
      | Ok fragments => MessageFormatter_init (FragmentList fragments)
      | Error e => Error (I18nException (ErrorParsing message) (Some e))
      end
  end.

(** [SimpleMessageProvider.register_message(self, key, locale, pattern)];
    [pattern_cache] is a [defaultdict(dict)], so reading the entry of
    [locale] creates it. *)
Definition register_message (key : string) (locale : string) (pattern : PyValue)
    : Py unit :=
  fun ts =>
    let keys := default ∅ (pattern_cache ts !! locale) in
    let ts1 := set_pattern_cache ts (<[locale := keys]> (pattern_cache ts)) in
    match parse pattern with
    | Ok formatter =>
        (Return tt, set_pattern_cache ts1 (<[locale := <[key := formatter]> keys]> (pattern_cache ts1)))
    | Error e => (Raise e, ts1)
    end.

(** [DefaultFormatterFactory.__init__]: the built-in factories, in the
    order they are tried. *)
Definition builtin_delegates : list Delegate :=
  [StringFormatterFactory; I18nMessageFormatterFactory; ListFormatterFactory;
   NumberFormatterFactory].

(** [TranslationService(default_locale)] with a [SimpleMessageProvider]
    that uses [strategy]; the default strategy is
    [FailOnMissingTextsStrategy].  [default_locale] is the locale the
    constructor has determined. *)
Definition new_service (default_locale : option string) (strategy : MissingTextStrategy)
    : TranslationService :=
  mkTranslationService default_locale strategy ∅ builtin_delegates ∅ [].

(** A sequence of registrations applied to a service; registrations
    that fail leave the catalog as it is. *)
Fixpoint register_messages (entries : list (string * string * PyValue))
    (ts : TranslationService) : TranslationService :=
  match entries with
  | [] => ts
  | (key, locale, pattern) :: rest =>
      register_messages rest (snd (register_message key locale pattern ts))
  end.

(** ** Invariants of a service *)

(** Every entry of the dispatch cache was found by the scan of the
    factory list, for some value of the cached type. *)
Definition dispatch_consistent (ts : TranslationService) : Prop :=
  forall t d, cache ts !! t = Some d ->
    exists v, type v = t /\ first_match (delegates ts) v = Some d.

(** The built-in factories come first in the factory list. *)
Definition builtins_first (ts : TranslationService) : Prop :=
  exists extensions, delegates ts = builtin_delegates ++ extensions.

Definition well_formed (ts : TranslationService) : Prop :=
  builtins_first ts /\ dispatch_consistent ts.

(** What [translate] leaves alone. *)
Definition same_configuration (ts0 ts : TranslationService) : Prop :=
  default_locale ts = default_locale ts0
  /\ missing_text_strategy ts = missing_text_strategy ts0
  /\ pattern_cache ts = pattern_cache ts0
  /\ delegates ts = delegates ts0.

Definition configured_as (ts0 : TranslationService) (ts : TranslationService) : Prop :=
  same_configuration ts0 ts /\ dispatch_consistent ts.

(** The formatter suits the value: it was created by a factory that
    accepts values of this type. *)
Definition suits (formatter : DetailFormatter) (inst : PyValue) : bool :=
  match formatter with
  | StringFormatter => isinstance_str inst
  | I18nMessageFormatter _ => isinstance_I18NMessage inst
  | ListFormatter _ _ => isinstance_list_tuple inst
  | NumberFormatter _ _ => isinstance_int_float inst
  | ExtensionFormatter _ => true
  end.

(** The entry the catalog holds for [key] along the fallback chain of
    [locale]. *)
Fixpoint catalog_find (pc : gmap string (gmap string MessageFormatter)) (key : string)
    (fallback_locales : list string) : option (string * MessageFormatter) :=
  match fallback_locales with
  | [] => None
  | lc :: rest =>
      match pc !! lc ≫= (fun keys => keys !! key) with
      | Some formatter => Some (lc, formatter)
      | None => catalog_find pc key rest
      end
  end.

Definition catalog_entry (ts : TranslationService) (key : string) (locale : option string)
    : option (string * MessageFormatter) :=
  catalog_find (pattern_cache ts) key
    (LocaleFallbackStrategy.apply (default_locale ts) locale).

(** [key] is registered as the plain text [text] for a formatter that
    works at [locale] (the default locale of the service when [locale]
    is [None]). *)
Definition registered (ts : TranslationService) (locale : option string)
    (key text : string) : Prop :=
  exists lc,
    catalog_entry ts key (effective_locale ts (message key) locale)
    = Some (lc, mkMessageFormatter [TextFragment text]).

(** ** Definitions for the properties *)

(** The fuel [translate] needs for a value. *)
Definition value_depth (v : PyValue) : nat :=
  match v with
  | VMessage m => translate_depth m
  | _ => 1%nat
  end.

(** The factories the service starts with. *)
Definition is_builtin (d : Delegate) : bool :=
  match d with Extension _ => false | _ => true end.

(** The service with [records] added to its log. *)
Definition logged (ts : TranslationService) (records : list LogRecord)
    : TranslationService :=
  set_log ts (log ts ++ records).


(** Dispatch and formatting of one item, as [process(item)] does it. *)
Definition dispatch_item (runtime : Runtime) (locale : option string) (item : PyValue)
    : Py PyValue :=
  process (format_fuel runtime (format_depth item)) locale item.

(** The text of a list, in the words of the specification. *)
Definition list_text (empty comma joiner : string) (texts : list string) : string :=
  match texts with
  | [] => empty
  | [only] => only
  | _ => PyStr.join comma (removelast texts) +:+ joiner +:+ List.last texts EmptyString
  end.

(** Formatter Dispatch for the built-in types, in the words of the
    specification: a string is given to the string formatter, a request
    to the message formatter, a list or tuple to the list formatter and
    an [int], [bool] or [float] to the number formatter. *)
Definition builtin_factory (inst : PyValue) : option Delegate :=
  match inst with
  | VStr _ => Some StringFormatterFactory
  | VMessage _ => Some I18nMessageFormatterFactory
  | VList _ | VTuple _ => Some ListFormatterFactory
  | VBool _ | VInt _ | VFloat _ => Some NumberFormatterFactory
  | VNone | VDict _ | VObject _ _ => None
  end.

(** The formatter these factories create for the ambient locale when
    the fragment has no options. *)
Definition builtin_formatter (locale : option string) (inst : PyValue)
    : option DetailFormatter :=
  match inst with
  | VStr _ => Some StringFormatter
  | VMessage _ => Some (I18nMessageFormatter locale)
  | VList _ | VTuple _ => Some (ListFormatter locale [])
  | VBool _ | VInt _ | VFloat _ => Some (NumberFormatter locale VNone)
  | VNone | VDict _ | VObject _ _ => None
  end.

(** The service once dispatch has seen [inst]: the factory of its type
    is memoized, unless the memo already has an entry for the type. *)
Definition memoized (ts : TranslationService) (inst : PyValue) : TranslationService :=
  match cache ts !! type inst, builtin_factory inst with
  | None, Some delegate => set_cache ts (<[type inst := delegate]> (cache ts))
  | _, _ => ts
  end.

(** The items of a list are rendered one after the other, from the
    service [ts] to the service [ts']: each item is given to the
    formatter of its type, which returns the text at the same position
    of [texts]. *)
Fixpoint items_rendered (runtime : Runtime) (locale : option string)
    (ts : TranslationService) (items : list PyValue) (texts : list string)
    (ts' : TranslationService) : Prop :=
  match items, texts with
  | [], [] => ts' = ts
  | item :: items, text :: texts =>
      match builtin_formatter locale item with
      | Some formatter =>
          let result := format runtime (memoized ts item) formatter item in
          fst result = Return (VStr text)
          /\ items_rendered runtime locale (snd result) items texts ts'
      | None => False
      end
  | _, _ => False
  end.

(** The joiner before the last item: the [or] text when the option
    [type] is ['or'], the [and] text otherwise. *)
Definition tail_joiner_text (options : Dict) (and_text or_text : string) : string :=
  match dict_get options "type" with
  | Some (VStr s) => if String.eqb s "or" then or_text else and_text
  | _ => and_text
  end.



(** A factory whose answer depends on the type of the value only, as
    the answers of the built-in factories do. *)
Definition type_determined (d : Delegate) : Prop :=
  forall v v', type v = type v' -> can_handle d v = can_handle d v'.

(** The memo never differs from the scan: on a well-formed service,
    the factory memoized for the type of a value is the one the scan of
    the factory list finds for the value. *)
Definition memo_agrees_with_scan : Prop :=
  forall ts inst d,
    well_formed ts ->
    cache ts !! type inst = Some d ->
    first_match (delegates ts) inst = Some d.

(** ** A program logic for [Py] *)

(** [c] terminates from every service that satisfies [P], keeps [P],
    and returns values that satisfy [Q]. *)
Definition triple {A} (P : TranslationService -> Prop) (c : Py A) (Q : A -> Prop) : Prop :=
  forall ts, P ts ->
    match c ts with
    | (Return a, ts') => Q a /\ P ts'
    | (Raise _, ts') => P ts'
    | (OutOfFuel, _) => False
    end.

(** Whenever [c1] does not run out of fuel, [c2] does the same. *)
Definition refines {A} (c1 c2 : Py A) : Prop :=
  forall ts, fst (c1 ts) <> OutOfFuel -> c2 ts = c1 ts.

(** ** Services to evaluate the engine on *)

(** A runtime that refuses what [PyNum] does not model; it serves to
    evaluate the engine on concrete requests. *)
Definition minimal_runtime : Runtime :=
  mkRuntime (fun _ => "<float>")
    (fun _ _ => Error (Builtin NotImplementedError "conversion outside the modelled subset")).

(** ** The service of [tests/test_basics.py] *)

Module TestBasics.

Definition arg (name : string) : PyValue := VDict [("arg", VStr name)].

Definition entries : list (string * string * PyValue) :=
  [("test_basics.color", "en", VStr "colour");
   ("test_basics.color", "en_US", VStr "color");
   ("test_basics.hello", "en", VList [VStr "Hello, "; arg "name"; VStr "."]);
   ("test_basics.hello", "it", VList [VStr "Ciao, "; arg "name"; VStr "."]);
   ("pdark.i18n.list.and", "en", VStr " and ");
   ("pdark.i18n.list.and", "de_DE", VStr " und ");
   ("pdark.i18n.list.or", "en", VStr " or ");
   ("pdark.i18n.list.or", "de_DE", VStr " oder ");
   ("pdark.i18n.list.comma", "en", VStr ", ");
   ("pdark.i18n.list.empty", "en", VStr "");
   ("test_basics.and_list", "en", VList [arg "items"]);
   ("test_basics.or_list", "en", VList [VDict [("arg", VStr "items"); ("type", VStr "or")]]);
   ("test_basics.number", "en", VList [arg "n"]);
   ("pdark.i18n.number.int", "en", VStr "%d");
   ("pdark.i18n.number.float", "en", VStr "%.2f");
   ("test_basics.plural.one", "en", VStr "house");
   ("test_basics.plural.other", "en", VStr "houses");
   ("test_basics.plural", "en",
    VList [VDict [("arg", VStr "n"); ("plural", VStr "test_basics.plural")]])].

(** [setUp]: a service with default locale [en_US] and the messages of
    the test. *)
Definition service : TranslationService :=
  register_messages entries (new_service (Some "en_US") FailOnMissingTextsStrategy).

(** The same catalog behind the strategy that logs missing texts. *)
Definition lenient_service : TranslationService :=
  register_messages entries (new_service (Some "en_US") LogMissingTextStrategy).

(** The requests the decorated functions of the test build. *)
Definition color : I18NMessage := MkI18NMessage "test_basics.color" None [] [].
Definition hello (name : PyValue) : I18NMessage :=
  MkI18NMessage "test_basics.hello" None [name] [("name", name)].
Definition and_list (items : list PyValue) : I18NMessage :=
  MkI18NMessage "test_basics.and_list" None items [("items", VTuple items)].
Definition or_list (items : list PyValue) : I18NMessage :=
  MkI18NMessage "test_basics.or_list" None items [("items", VTuple items)].
Definition number (n : PyValue) : I18NMessage :=
  MkI18NMessage "test_basics.number" None [n] [("n", n)].
Definition plural (n : PyValue) : I18NMessage :=
  MkI18NMessage "test_basics.plural" None [n] [("n", n)].

End TestBasics.

(** A service with two extension factories for one class. *)
Module Thermometer.

(** Two extension factories for readings of a thermometer: the first
    accepts the reading "hot" only, the second every reading. *)
Definition is_reading (inst : PyValue) : bool :=
  match inst with
  | VObject cls _ => String.eqb cls "Reading"
  | _ => false
  end.

Definition shown_as (inst : PyValue) : string :=
  match inst with
  | VObject _ shown => shown
  | _ => EmptyString
  end.

Definition alarm : ExtensionFactory :=
  mkExtensionFactory
    (fun inst => is_reading inst && String.eqb (shown_as inst) "hot")
    (fun _ _ => Ok (fun _ => Ok "ALARM")).

Definition plain : ExtensionFactory :=
  mkExtensionFactory is_reading (fun _ _ => Ok (fun inst => Ok (shown_as inst))).

Definition hot : PyValue := VObject "Reading" "hot".
Definition cold : PyValue := VObject "Reading" "cold".

Definition show (reading : PyValue) : I18NMessage :=
  MkI18NMessage "thermometer.show" None [reading] [("reading", reading)].

Definition service : TranslationService :=
  register [Extension alarm; Extension plain]
    (register_messages [("thermometer.show", "en", VList [TestBasics.arg "reading"])]
       (new_service (Some "en") FailOnMissingTextsStrategy)).

(** The service after it has shown a cold reading. *)
Definition used_service : TranslationService :=
  snd (translate minimal_runtime service (show cold) None).

End Thermometer.

(** A service whose pattern refers to an argument by a tuple of two
    names: [repr] of its formatter raises. *)
Module TupleName.

Definition service : TranslationService :=
  register_messages
    [("greeting", "en", VList [VStr "x"; VDict [("arg", VTuple [VStr "a"; VStr "b"])]])]
    (new_service (Some "en") FailOnMissingTextsStrategy).

Definition greeting : I18NMessage := MkI18NMessage "greeting" None [] [].

End TupleName.

(** ** Definitions for the further properties *)

(** A part of a pattern the parser accepts: a string, or a dictionary
    with the key ['arg']. *)
Definition supported_part (part : PyValue) : bool :=
  match part with
  | VStr _ => true
  | VDict entries =>
      match dict_get entries "arg" with
      | Some _ => true
      | None => false
      end
  | _ => false
  end.

(** The error a part raises that the parser does not support: a
    dictionary lacks the key ['arg']; for any other value the parser
    raises its own error, whose text shows the part, unless the part is
    a tuple, which the [%] operator takes for its operands. *)
Definition part_error (part : PyValue) : PyExc :=
  match part with
  | VDict _ => Builtin KeyError "'arg'"
  | VTuple [] => Builtin TypeError "not enough arguments for format string"
  | VTuple [item] => I18nException (UnsupportedPart item) None
  | VTuple (_ :: _ :: _) =>
      Builtin TypeError "not all arguments converted during string formatting"
  | _ => I18nException (UnsupportedPart part) None
  end.

(** A value that is no pattern at all: it cannot be iterated. *)
Definition not_iterable (pattern : PyValue) : bool :=
  match pattern with
  | VNone | VBool _ | VInt _ | VFloat _ | VMessage _ => true
  | _ => false
  end.

(** A fragment stands for a part of the pattern: a text fragment for a
    string with that text, an argument fragment for a dictionary. *)
Definition fragment_for (part : PyValue) (fragment : Fragment) : Prop :=
  match fragment with
  | TextFragment text => part = VStr text
  | ArgumentFragment _ options =>
      exists entries, part = VDict entries /\ options = dict_del entries "arg"
  end.

(** Two calls of [translate] agree: they leave the same service and
    return the same text, or raise the error of [translate] for the same
    cause at the same locale, each for its own request. *)
Definition same_translation (m1 m2 : I18NMessage) (l : option string)
    (r1 r2 : Outcome string * TranslationService) : Prop :=
  snd r1 = snd r2
  /\ match fst r1, fst r2 with
     | Return text1, Return text2 => text1 = text2
     | Raise e1, Raise e2 =>
         exists cause,
           e1 = I18nException (ErrorTranslating (VMessage m1) l) (Some cause)
           /\ e2 = I18nException (ErrorTranslating (VMessage m2) l) (Some cause)
     | OutOfFuel, OutOfFuel => True
     | _, _ => False
     end.

(** The outcome of a computation that has no effect on the service. *)
Definition outcome_of {A} (r : Result A) : Outcome A :=
  match r with
  | Ok a => Return a
  | Error e => Raise e
  end.

(** [ts'] is [ts] after some translations: the configuration is the
    same, every entry of the dispatch cache is still there, and the log
    has only grown. *)
Definition grown_from (ts ts' : TranslationService) : Prop :=
  same_configuration ts ts'
  /\ (forall t d, cache ts !! t = Some d -> cache ts' !! t = Some d)
  /\ (exists more, log ts' = log ts ++ more).

(** [c] leaves a service grown from the one it started on. *)
Definition grows {A} (c : Py A) : Prop :=
  forall ts, grown_from ts (snd (c ts)).

(** Two services that differ in what was memoized and logged only, and
    whose factories decide by the type of a value. *)
Definition same_dispatch (ts ts' : TranslationService) : Prop :=
  same_configuration ts ts'
  /\ dispatch_consistent ts /\ dispatch_consistent ts'
  /\ (forall d, In d (delegates ts) -> type_determined d).

(** [c] has the same outcome on two such services, and keeps them so. *)
Definition memo_independent {A} (c : Py A) : Prop :=
  forall ts ts', same_dispatch ts ts' ->
    fst (c ts) = fst (c ts') /\ same_dispatch (snd (c ts)) (snd (c ts')).

(** The result of writing to a buffer that already holds [prefix]. *)
Definition prefixed {S} (prefix : string) (r : Outcome string * S) : Outcome string * S :=
  match r with
  | (Return text, s) => (Return (prefix +:+ text), s)
  | other => other
  end.

(** ** Dates ([pdark/i18n/babel.py])

    A date is an instance of [datetime.date] or of its subclass
    [datetime.datetime].  [format_date] is the function of the Babel
    library: it takes the date, the format and the locale, and returns
    the text or raises. *)

Module Babel.

Section WithBabel.
Variable format_date : PyValue -> PyValue -> option string -> Result string.

(** [class BabelDateFormatter]: [self.locale] and [self.format_]. *)
Record BabelDateFormatter : Type := mkBabelDateFormatter {
  BabelDateFormatter_locale : option string;
  BabelDateFormatter_format_ : PyValue }.

(** [BabelDateFormatter.__init__(self, style, pattern, locale)]. *)
Definition BabelDateFormatter_init (style pattern : PyValue) (locale : option string)
    : BabelDateFormatter :=
  mkBabelDateFormatter locale
    (match pattern with
     | VNone => style
     | _ => pattern
     end).

(** [BabelDateFormatter.format(self, inst)]. *)
Definition BabelDateFormatter_format (self : BabelDateFormatter) (inst : PyValue)
    : Result string :=
  format_date inst (BabelDateFormatter_format_ self) (BabelDateFormatter_locale self).

(** [isinstance(inst, datetime.date)]. *)
Definition isinstance_date (inst : PyValue) : bool :=
  match inst with
  | VObject cls _ => member cls ["datetime.date"; "datetime.datetime"]
  | _ => false
  end.

(** [DateFormatterFactory.can_handle(self, inst)]. *)
Definition DateFormatterFactory_can_handle (inst : PyValue) : bool :=
  isinstance_date inst.

(** [DateFormatterFactory.create_formatter(self, locale, style='medium',
    pattern=None)], called with the options as keyword arguments. *)
Definition DateFormatterFactory_create_formatter (locale : option string) (options : Dict)
    : Result BabelDateFormatter :=
  if forallb (fun k => member k ["style"; "pattern"]) (dict_keys options)
  then
    let style := default (VStr "medium") (dict_get options "style") in
    let pattern := default VNone (dict_get options "pattern") in
    Ok (BabelDateFormatter_init style pattern locale)
  else Error unexpected_keyword.

(** [class DateFormatterFactory] as a factory of the service. *)
Definition DateFormatterFactory : ExtensionFactory :=
  mkExtensionFactory DateFormatterFactory_can_handle
    (fun locale options =>
       match DateFormatterFactory_create_formatter locale options with
       | Ok formatter => Ok (BabelDateFormatter_format formatter)
       | Error e => Error e
       end).

(** [setup(ts)]. *)
Definition setup (ts : TranslationService) : TranslationService :=
  register [Extension DateFormatterFactory] ts.

(** The format a fragment asks for: its pattern, else its style, else
    ['medium']. *)
Definition requested_format (options : Dict) : PyValue :=
  match dict_get options "pattern" with
  | Some VNone | None =>
      match dict_get options "style" with
      | Some style => style
      | None => VStr "medium"
      end
  | Some pattern => pattern
  end.

End WithBabel.

(** A stand-in for Babel that shows what it was asked for; it serves to
    evaluate the date formatter on concrete requests. *)
Definition echo_format_date (inst format_ : PyValue) (locale : option string)
    : Result string :=
  match inst, format_, locale with
  | VObject _ shown, VStr f, Some l => Ok (shown +:+ "|" +:+ f +:+ "|" +:+ l)
  | _, _, _ => Error (Builtin ValueError "not a date, a format and a locale")
  end.

Definition date : PyValue := VObject "datetime.date" "2016-12-26".

Definition date_long (d : PyValue) : I18NMessage :=
  MkI18NMessage "test_date_formatting.date_long" None [d] [("date", d)].

(** The service of [test_date_formatting.py], with the pattern of
    [date_long]. *)
Definition service : TranslationService :=
  register_messages
    [("test_date_formatting.date_long", "en",
      VList [VStr "Long date format: ";
             VDict [("arg", VStr "date"); ("style", VStr "long")]])]
    (setup echo_format_date (new_service (Some "en") FailOnMissingTextsStrategy)).

End Babel.

(** ** Rules of the program logic *)

Section Logic.

Context {A : Type}.

Lemma refines_refl (c : Py A) : refines c c.
Proof. intros ts _. reflexivity. Qed.

Lemma triple_ret P (a : A) (Q : A -> Prop) : Q a -> triple P (mret a) Q.
Proof. intros Ha ts HP. simpl. auto. Qed.

Lemma triple_raise P e (Q : A -> Prop) : triple P (raise e) Q.
Proof. intros ts HP. simpl. auto. Qed.

Lemma triple_lift P (r : Result A) (Q : A -> Prop) :
  (forall a, r = Ok a -> Q a) -> triple P (lift r) Q.
Proof. intros H ts HP. destruct r; simpl; auto. Qed.

Lemma triple_conseq P (c : Py A) (Q Q' : A -> Prop) :
  triple P c Q -> (forall a, Q a -> Q' a) -> triple P c Q'.
Proof.
  intros Hc HQ ts HP. specialize (Hc ts HP).
  destruct (c ts) as [[a| |] ts']; intuition.
Qed.

Lemma triple_try_except P (c : Py A) handler (Q : A -> Prop) :
  triple P c Q -> (forall e, triple P (handler e) Q) ->
  triple P (try_except c handler) Q.
Proof.
  intros Hc Hh ts HP. unfold try_except. specialize (Hc ts HP).
  destruct (c ts) as [[a|e|] ts']; auto. apply Hh; auto.
Qed.

Lemma triple_try_except_I18nException P (c : Py A) handler (Q : A -> Prop) :
  triple P c Q -> (forall e, triple P (handler e) Q) ->
  triple P (try_except_I18nException c handler) Q.
Proof.
  intros Hc Hh ts HP. unfold try_except_I18nException. specialize (Hc ts HP).
  destruct (c ts) as [[a|e|] ts']; auto.
  destruct (is_I18nException e); auto. apply Hh; auto.
Qed.

Lemma refines_try_except (c1 c2 : Py A) h1 h2 :
  refines c1 c2 -> (forall e, refines (h1 e) (h2 e)) ->
  refines (try_except c1 h1) (try_except c2 h2).
Proof.
  intros Hc Hh ts. unfold try_except. specialize (Hc ts).
  destruct (c1 ts) as [[a|e|] ts'] eqn:E1; simpl in *; intros Hne;
    rewrite Hc by congruence; auto.
  apply Hh. exact Hne.
Qed.

Lemma refines_try_except_I18nException (c1 c2 : Py A) h1 h2 :
  refines c1 c2 -> (forall e, refines (h1 e) (h2 e)) ->
  refines (try_except_I18nException c1 h1) (try_except_I18nException c2 h2).
Proof.
  intros Hc Hh ts. unfold try_except_I18nException. specialize (Hc ts).
  destruct (c1 ts) as [[a|e|] ts'] eqn:E1; simpl in *; intros Hne;
    rewrite Hc by congruence; auto.
  destruct (is_I18nException e); auto. apply Hh. exact Hne.
Qed.

End Logic.

Lemma triple_bind {A B} P (c : Py A) (k : A -> Py B) (Q : A -> Prop) (R : B -> Prop) :
  triple P c Q -> (forall a, Q a -> triple P (k a) R) -> triple P (c ≫= k) R.
Proof.
  intros Hc Hk ts HP. unfold mbind, Py_bind, bind. specialize (Hc ts HP).
  destruct (c ts) as [[a|e|] ts']; auto.
  destruct Hc as [Ha HP']. apply Hk; auto.
Qed.

Lemma refines_bind {A B} (c1 c2 : Py A) (k1 k2 : A -> Py B) :
  refines c1 c2 -> (forall a, refines (k1 a) (k2 a)) ->
  refines (c1 ≫= k1) (c2 ≫= k2).
Proof.
  intros Hc Hk ts. unfold mbind, Py_bind, bind. specialize (Hc ts).
  destruct (c1 ts) as [[a|e|] ts'] eqn:E1; simpl in *; intros Hne;
    rewrite Hc by congruence; auto.
  apply Hk. exact Hne.
Qed.

Lemma triple_get_service (P : TranslationService -> Prop) :
  triple P get_service P.
Proof. intros ts HP. simpl. auto. Qed.

Lemma triple_for_each {A B} P (f : A -> Py B) (items : list A) (Q : B -> Prop) :
  (forall item, In item items -> triple P (f item) Q) ->
  triple P (for_each f items) (Forall Q).
Proof.
  induction items as [|item rest IH]; intros Hf; simpl.
  - apply triple_ret. constructor.
  - eapply triple_bind; [apply Hf; left; reflexivity|].
    intros b Hb. eapply triple_bind; [apply IH; intros; apply Hf; right; assumption|].
    intros bs Hbs. apply triple_ret. constructor; assumption.
Qed.

Lemma refines_for_each {A B} (f1 f2 : A -> Py B) (items : list A) :
  (forall item, In item items -> refines (f1 item) (f2 item)) ->
  refines (for_each f1 items) (for_each f2 items).
Proof.
  induction items as [|item rest IH]; intros Hf; simpl.
  - apply refines_refl.
  - apply refines_bind; [apply Hf; left; reflexivity|].
    intros b. apply refines_bind; [apply IH; intros; apply Hf; right; assumption|].
    intros bs. apply refines_refl.
Qed.

(** ** More fuel changes nothing *)

Ltac refines_step :=
  match goal with
  | |- refines ?c ?c => apply refines_refl
  | |- refines (_ ≫= _) (_ ≫= _) => apply refines_bind; [|intros ?]
  | |- refines (try_except _ _) (try_except _ _) =>
      apply refines_try_except; [|intros ?]
  | |- refines (try_except_I18nException _ _) (try_except_I18nException _ _) =>
      apply refines_try_except_I18nException; [|intros ?]
  | |- refines (for_each _ _) (for_each _ _) => apply refines_for_each; intros ? ?
  | |- refines (match ?x with _ => _ end) _ => destruct x
  | H : forall _ _, refines _ _ |- refines _ _ => apply H
  end.

Section FuelRefinement.
Context (runtime : Runtime).
Variables translate1 translate2 : PyValue -> option string -> Py string.
Variables format1 format2 : DetailFormatter -> PyValue -> Py PyValue.
Hypothesis translate_refines : forall v l, refines (translate1 v l) (translate2 v l).
Hypothesis format_refines : forall f v, refines (format1 f v) (format2 f v).

Lemma refines_append_all fragments : forall buffer locale args kwargs,
  refines (append_all runtime format1 fragments buffer locale args kwargs)
          (append_all runtime format2 fragments buffer locale args kwargs).
Proof.
  induction fragments as [|fragment rest IH]; intros; simpl.
  - apply refines_refl.
  - apply refines_bind; [|intros ?; apply IH].
    unfold append_to. repeat refines_step.
Qed.

Lemma refines_TranslationService_translate v l :
  refines (TranslationService_translate runtime format1 v l)
          (TranslationService_translate runtime format2 v l).
Proof.
  unfold TranslationService_translate, translate_at, MessageFormatter_format.
  repeat (refines_step || apply refines_append_all).
Qed.

Lemma refines_get_plural_message l base tag :
  refines (get_plural_message translate1 l base tag)
          (get_plural_message translate2 l base tag).
Proof. unfold get_plural_message. repeat refines_step. Qed.

Lemma refines_DetailFormatter_format f v :
  refines (DetailFormatter_format runtime translate1 format1 f v)
          (DetailFormatter_format runtime translate2 format2 f v).
Proof.
  unfold DetailFormatter_format, I18nMessageFormatter_format, ListFormatter_format,
    NumberFormatter_format, process.
  repeat (refines_step || apply refines_get_plural_message).
Qed.

End FuelRefinement.

Lemma fuel_step runtime n :
  (forall v l, refines (translate_fuel runtime n v l) (translate_fuel runtime (S n) v l))
  /\ (forall f v, refines (format_fuel runtime n f v) (format_fuel runtime (S n) f v)).
Proof.
  induction n as [|n [IHt IHf]].
  - split; intros; intros ts H; simpl in H; congruence.
  - split; intros.
    + change (refines (TranslationService_translate runtime (format_fuel runtime n) v l)
                (TranslationService_translate runtime (format_fuel runtime (S n)) v l)).
      apply refines_TranslationService_translate; assumption.
    + change (refines
                (DetailFormatter_format runtime (translate_fuel runtime n)
                   (format_fuel runtime n) f v)
                (DetailFormatter_format runtime (translate_fuel runtime (S n))
                   (format_fuel runtime (S n)) f v)).
      apply refines_DetailFormatter_format; assumption.
Qed.

Lemma translate_fuel_mono runtime n m v l ts :
  (n <= m)%nat -> fst (translate_fuel runtime n v l ts) <> OutOfFuel ->
  translate_fuel runtime m v l ts = translate_fuel runtime n v l ts.
Proof.
  induction 1 as [|m Hle IH]; intros Hne; [reflexivity|].
  rewrite <- (IH Hne). apply (proj1 (fuel_step runtime m)). rewrite (IH Hne). exact Hne.
Qed.

Lemma format_fuel_mono runtime n m f v ts :
  (n <= m)%nat -> fst (format_fuel runtime n f v ts) <> OutOfFuel ->
  format_fuel runtime m f v ts = format_fuel runtime n f v ts.
Proof.
  induction 1 as [|m Hle IH]; intros Hne; [reflexivity|].
  rewrite <- (IH Hne). apply (proj2 (fuel_step runtime m)). rewrite (IH Hne). exact Hne.
Qed.

(** ** Dispatch keeps the cache consistent *)

Lemma first_match_can_handle delegates inst d :
  first_match delegates inst = Some d -> can_handle d inst = true.
Proof.
  induction delegates as [|d' rest IH]; simpl; [discriminate|].
  destruct (can_handle d' inst) eqn:E; [intros [= <-]; exact E | exact IH].
Qed.

Lemma first_match_app delegates more inst d :
  first_match delegates inst = Some d -> first_match (delegates ++ more) inst = Some d.
Proof.
  induction delegates as [|d' rest IH]; simpl; [discriminate|].
  destruct (can_handle d' inst); auto.
Qed.

Lemma can_handle_builtin_type d v v' :
  is_builtin d = true -> type v = type v' -> can_handle d v = can_handle d v'.
Proof.
  destruct d; simpl; try discriminate; intros _;
    destruct v, v'; simpl; intros H; try reflexivity; discriminate.
Qed.

Lemma created_formatter_suits d v v' locale options formatter :
  can_handle d v' = true -> type v' = type v ->
  delegate_create_formatter d locale options = Ok formatter ->
  suits formatter v = true.
Proof.
  intros Hcan Hty Hcreate.
  destruct d; simpl in Hcreate;
    try match type of Hcan with
        | can_handle ?d _ = true =>
            rewrite (can_handle_builtin_type d v' v eq_refl Hty) in Hcan
        end.
  - destruct options; inversion Hcreate; subst; exact Hcan.
  - destruct options; inversion Hcreate; subst; exact Hcan.
  - destruct (existsb _ _); inversion Hcreate; subst; exact Hcan.
  - destruct (forallb _ _); inversion Hcreate; subst; exact Hcan.
  - destruct (ext_create_formatter f locale options); inversion Hcreate; reflexivity.
Qed.

Lemma configured_as_refl ts : dispatch_consistent ts -> configured_as ts ts.
Proof. intros H. repeat split; auto. Qed.

Lemma configured_as_set_log ts0 ts l :
  configured_as ts0 ts -> configured_as ts0 (set_log ts l).
Proof. intros [Hc Hd]. split; [exact Hc | exact Hd]. Qed.

Lemma configured_as_cache_store ts0 ts inst d :
  configured_as ts0 ts -> first_match (delegates ts) inst = Some d ->
  configured_as ts0 (set_cache ts (<[type inst := d]> (cache ts))).
Proof.
  intros [Hc Hd] Hfm. split; [exact Hc|].
  intros t d'. simpl. rewrite lookup_insert. case_decide as Heq.
  - intros [= <-]. exists inst. split; [exact Heq | exact Hfm].
  - apply Hd.
Qed.

Lemma triple_log_record ts0 r :
  triple (configured_as ts0) (log_record r) (fun _ => True).
Proof. intros ts HP. simpl. split; [exact I | apply configured_as_set_log, HP]. Qed.

Lemma triple_create_formatter ts0 locale inst options :
  triple (configured_as ts0) (create_formatter locale inst options)
    (fun formatter => suits formatter inst = true).
Proof.
  intros ts HP. unfold create_formatter, mbind, Py_bind, bind, get_service.
  destruct (cache ts !! type inst) as [d|] eqn:Ecache.
  - destruct HP as [Hc Hd]. destruct (Hd _ _ Ecache) as (v & Hty & Hfm).
    apply first_match_can_handle in Hfm.
    destruct (delegate_create_formatter d locale options) as [formatter|e] eqn:Ecreate;
      simpl; [|split; assumption].
    split; [|split; assumption].
    eapply created_formatter_suits; eassumption.
  - destruct (first_match (delegates ts) inst) as [d|] eqn:Efm; simpl; [|exact HP].
    pose proof (configured_as_cache_store _ _ _ _ HP Efm) as HP'.
    pose proof (first_match_can_handle _ _ _ Efm) as Hcan.
    destruct (delegate_create_formatter d locale options) as [formatter|e] eqn:Ecreate;
      simpl; [|exact HP'].
    split; [|exact HP'].
    eapply created_formatter_suits; [exact Hcan | reflexivity | exact Ecreate].
Qed.

Lemma triple_lookup_single_locale ts0 key lc :
  triple (configured_as ts0) (lookup_single_locale key lc) (fun _ => True).
Proof.
  intros ts HP. unfold lookup_single_locale, mbind, Py_bind, bind, get_service.
  destruct (pattern_cache ts !! lc) as [keys|]; simpl; [|auto].
  destruct (keys !! key); simpl; auto using configured_as_set_log.
Qed.

Lemma triple_lookup_chain ts0 key chain :
  triple (configured_as ts0) (lookup_chain key chain) (fun _ => True).
Proof.
  induction chain as [|lc rest IH]; simpl; [apply triple_ret; exact I|].
  eapply triple_bind; [apply triple_lookup_single_locale|].
  intros [formatter|] _; [apply triple_ret; exact I | exact IH].
Qed.

Lemma triple_lookup_message runtime ts0 v locale :
  triple (configured_as ts0) (lookup_message runtime v locale) (fun _ => True).
Proof.
  unfold lookup_message.
  eapply triple_bind; [apply triple_get_service|]. intros ts _.
  destruct v; try apply triple_raise.
  eapply triple_bind; [apply triple_log_record|]. intros _ _.
  eapply triple_bind; [apply triple_lookup_chain|]. intros [formatter|] _.
  - apply triple_ret; exact I.
  - unfold MissingTextStrategy_apply.
    destruct (missing_text_strategy ts); [apply triple_raise|].
    eapply triple_bind; [apply triple_log_record|]. intros _ _.
    eapply triple_bind; [apply (triple_lift _ _ (fun _ => True)); auto|].
    intros; apply triple_ret; exact I.
Qed.

(** ** Enough fuel: the recursion ends *)

Lemma list_max_In {A} (f : A -> nat) (l : list A) (x : A) :
  In x l -> (f x <= list_max (map f l))%nat.
Proof.
  induction l as [|y l IH]; simpl; [tauto|].
  intros [->|H]; [lia | specialize (IH H); lia].
Qed.

Lemma index_In {A} (l : list A) i a : PySeq.index l i = Ok a -> In a l.
Proof.
  unfold PySeq.index.
  destruct (_ && _); [|discriminate].
  destruct (nth_error l _) eqn:E; [|discriminate].
  intros [= <-]. eapply nth_error_In; eassumption.
Qed.

Lemma dict_get_In (d : Dict) k v : dict_get d k = Some v -> exists k', In (k', v) d.
Proof.
  induction d as [|[k' v'] d IH]; simpl; [discriminate|].
  destruct (String.eqb k' k).
  - intros [= <-]. exists k'. left; reflexivity.
  - intros H. destruct (IH H) as [k'' Hin]. exists k''. right; exact Hin.
Qed.

Lemma Ref_get_depth runtime ref m v :
  Ref_get runtime ref (I18NMessage_args m) (I18NMessage_kwargs m) = Ok v ->
  (S (format_depth v) <= translate_depth m)%nat.
Proof.
  destruct m as [k l args kwargs]. simpl.
  destruct ref as [index|name]; simpl.
  - intros H. apply index_In in H.
    pose proof (list_max_In format_depth args v H). lia.
  - destruct (hashable name); [|discriminate].
    destruct name; try discriminate.
    destruct (dict_get kwargs s) eqn:E; [|discriminate].
    intros [= <-]. destruct (dict_get_In _ _ _ E) as [k' Hin].
    pose proof (list_max_In (fun kv : string * PyValue => let (_, x) := kv in format_depth x)
                  kwargs (k', p) Hin) as Hle.
    simpl in Hle. lia.
Qed.

Lemma get_tail_joiner_message options tail_joiner :
  get_tail_joiner options = Ok tail_joiner ->
  tail_joiner = or_message \/ tail_joiner = and_message.
Proof.
  unfold get_tail_joiner.
  destruct (dict_get options "type") as [value|]; [|intros [= <-]; auto].
  destruct (eq_str value "or") as [[|]|]; intros [= <-]; auto.
Qed.

Ltac triple_step :=
  match goal with
  | |- triple _ (mret _) _ => apply triple_ret; try exact I
  | |- triple _ (ret _) _ => apply triple_ret; try exact I
  | |- triple _ (raise _) _ => apply triple_raise
  | |- triple _ (lift _) (fun _ => True) => apply triple_lift; intros; exact I
  | |- triple _ (get_service ≫= _) _ =>
      eapply triple_bind; [apply triple_get_service|]; intros ? ?; cbv beta in *
  | |- triple _ (lift ?r ≫= _) _ =>
      eapply triple_bind; [apply (triple_lift _ r (fun a => r = Ok a)); auto|]; intros ? ?;
      cbv beta in *
  | |- triple _ (create_formatter _ _ _ ≫= _) _ =>
      eapply triple_bind; [apply triple_create_formatter|]; intros ? ?; cbv beta in *
  | |- triple _ (lookup_message _ _ _ ≫= _) _ =>
      eapply triple_bind; [apply triple_lookup_message|]; intros ? ?; cbv beta in *
  | |- triple _ (try_except _ _) _ => apply triple_try_except; [|intros ?]
  | |- triple _ (try_except_I18nException _ _) _ =>
      apply triple_try_except_I18nException; [|intros ?]
  end.

Section Termination.
Context (runtime : Runtime) (ts0 : TranslationService) (n : nat).
Variable translate_n : PyValue -> option string -> Py string.
Variable format_n : DetailFormatter -> PyValue -> Py PyValue.
Hypothesis translate_ends : forall v l,
  (value_depth v <= n)%nat -> triple (configured_as ts0) (translate_n v l) (fun _ => True).
Hypothesis format_ends : forall f v,
  suits f v = true -> (format_depth v <= n)%nat ->
  triple (configured_as ts0) (format_n f v) (fun _ => True).

Lemma triple_append_all fragments : forall buffer locale m,
  (translate_depth m <= S n)%nat ->
  triple (configured_as ts0)
    (append_all runtime format_n fragments buffer locale
       (I18NMessage_args m) (I18NMessage_kwargs m)) (fun _ => True).
Proof.
  induction fragments as [|fragment rest IH]; intros buffer locale m Hm; simpl.
  - triple_step.
  - eapply triple_bind; [|intros ? _; apply IH; exact Hm].
    instantiate (1 := fun _ => True).
    destruct fragment as [text|ref options]; simpl; [triple_step|].
    triple_step. triple_step.
    eapply triple_bind; [apply format_ends; [assumption|]|intros ? _; triple_step].
    match goal with H : Ref_get _ _ _ _ = Ok _ |- _ => apply Ref_get_depth in H end. lia.
Qed.

Lemma triple_TranslationService_translate v l :
  (value_depth v <= S n)%nat ->
  triple (configured_as ts0) (TranslationService_translate runtime format_n v l)
    (fun _ => True).
Proof.
  intros Hv. unfold TranslationService_translate.
  triple_step.
  assert (Hat : forall l', triple (configured_as ts0) (translate_at runtime format_n v l')
                             (fun _ => True)).
  { intros l'. unfold translate_at. triple_step.
    match goal with |- triple _ (match ?x with _ => _ end) _ => destruct x end;
      [|triple_step].
    destruct v; try (triple_step; fail).
    triple_step; [|triple_step].
    unfold MessageFormatter_format. apply triple_append_all. exact Hv. }
  destruct l; [triple_step; [apply Hat | triple_step]|].
  destruct v; try (triple_step; fail).
  triple_step; [apply Hat | triple_step].
Qed.

Lemma triple_translate_internal key l :
  (1 <= n)%nat ->
  triple (configured_as ts0) (translate_n (VMessage (message key)) l) (fun _ => True).
Proof. intros Hn. apply translate_ends. simpl. lia. Qed.

Lemma triple_get_plural_message l base tag :
  (1 <= n)%nat ->
  triple (configured_as ts0) (get_plural_message translate_n l base tag) (fun _ => True).
Proof.
  intros Hn. unfold get_plural_message.
  triple_step. triple_step; [apply triple_translate_internal; exact Hn|].
  destruct (String.eqb tag "other"); [triple_step|].
  triple_step. apply triple_translate_internal; exact Hn.
Qed.

Lemma triple_DetailFormatter_format f v :
  suits f v = true -> (format_depth v <= S n)%nat ->
  triple (configured_as ts0) (DetailFormatter_format runtime translate_n format_n f v)
    (fun _ => True).
Proof.
  intros Hs Hv.
  assert (Hn : (1 <= n)%nat).
  { destruct v as [| | | | | | | |[k0 l0 args0 kwargs0]|]; simpl in Hv; lia. }
  destruct f as [|l|l options|l plural|format_inst]; simpl in *.
  - triple_step.
  - destruct v; try discriminate. unfold I18nMessageFormatter_format.
    eapply triple_bind; [apply translate_ends; simpl in *; lia|].
    intros; triple_step.
  - unfold ListFormatter_format. triple_step.
    assert (Hdepth : forall item, In item a -> (format_depth item <= n)%nat).
    { destruct v; try discriminate; simpl in *;
        match goal with H : Ok _ = Ok _ |- _ => inversion H; subst end;
        intros item Hin; pose proof (list_max_In format_depth _ _ Hin); lia. }
    destruct (length a =? 0)%nat.
    { eapply triple_bind; [apply triple_translate_internal; exact Hn|].
      intros; triple_step. }
    eapply triple_bind; [apply triple_for_each with (Q := fun _ => True)|].
    { intros item Hin. unfold process. triple_step. apply format_ends; auto. }
    intros as_strings _.
    destruct (length a =? 1)%nat; [triple_step|].
    triple_step.
    eapply triple_bind with (Q := fun _ => True).
    { destruct (1 <? length _)%nat; [|triple_step].
      eapply triple_bind; [apply triple_translate_internal; exact Hn|]. intros ? _.
      triple_step. triple_step. }
    intros head _. triple_step.
    eapply triple_bind; [apply translate_ends|intros ? _; triple_step; triple_step].
    match goal with H : get_tail_joiner _ = Ok _ |- _ => apply get_tail_joiner_message in H end.
    match goal with H : _ \/ _ |- _ => destruct H as [->| ->] end; simpl; lia.
  - unfold NumberFormatter_format.
    eapply triple_bind; [apply translate_ends; destruct (isinstance_int v); simpl; lia|].
    intros spec _.
    destruct plural; try (triple_step; triple_step; fail);
      (triple_step;
       eapply triple_bind with (Q := fun _ => True);
       [|intros ? _; triple_step; triple_step];
       repeat match goal with
         | |- triple _ (if ?b then _ else _) _ =>
             destruct b; [apply triple_get_plural_message; exact Hn|]
         | |- triple _ (get_plural_message _ _ _ _) _ =>
             apply triple_get_plural_message; exact Hn
         | |- _ => triple_step
         end).
  - triple_step. triple_step.
Qed.

End Termination.

Lemma translate_depth_pos m : (1 <= translate_depth m)%nat.
Proof. destruct m; simpl; lia. Qed.

Lemma format_depth_pos v : (2 <= format_depth v)%nat.
Proof.
  destruct v; simpl; try lia.
  pose proof (translate_depth_pos m). lia.
Qed.

Lemma fuel_suffices runtime ts0 n :
  (forall v l, (value_depth v <= n)%nat ->
     triple (configured_as ts0) (translate_fuel runtime n v l) (fun _ => True))
  /\ (forall f v, suits f v = true -> (format_depth v <= n)%nat ->
       triple (configured_as ts0) (format_fuel runtime n f v) (fun _ => True)).
Proof.
  induction n as [|n [IHt IHf]].
  - split.
    + intros v l Hv. destruct v; simpl in Hv; try lia.
      pose proof (translate_depth_pos m). lia.
    + intros f v _ Hv. pose proof (format_depth_pos v). lia.
  - split.
    + intros v l Hv. simpl.
      apply (triple_TranslationService_translate runtime ts0 n); assumption.
    + intros f v Hs Hv. simpl.
      apply (triple_DetailFormatter_format runtime ts0 n); assumption.
Qed.

(** [translate] ends, and leaves a service that is configured as before
    and has a consistent dispatch cache. *)
Lemma translate_terminates runtime ts m l :
  dispatch_consistent ts ->
  fst (translate runtime ts m l) <> OutOfFuel
  /\ configured_as ts (snd (translate runtime ts m l)).
Proof.
  intros Hd. unfold translate.
  pose proof (proj1 (fuel_suffices runtime ts (translate_depth m)) (VMessage m) l
                (Nat.le_refl _) ts (configured_as_refl ts Hd)) as H.
  destruct (translate_fuel _ _ _ _ _) as [[a|e|] ts']; simpl; intuition congruence.
Qed.

Lemma format_terminates runtime ts f v :
  dispatch_consistent ts -> suits f v = true ->
  fst (format runtime ts f v) <> OutOfFuel
  /\ configured_as ts (snd (format runtime ts f v)).
Proof.
  intros Hd Hs. unfold format.
  pose proof (proj2 (fuel_suffices runtime ts (format_depth v)) f v Hs
                (Nat.le_refl _) ts (configured_as_refl ts Hd)) as H.
  destruct (format_fuel _ _ _ _ _) as [[a|e|] ts']; simpl; intuition congruence.
Qed.

Lemma refines_translate_fuel runtime n k v l :
  (n <= k)%nat -> refines (translate_fuel runtime n v l) (translate_fuel runtime k v l).
Proof. intros Hle ts Hne. apply translate_fuel_mono; assumption. Qed.

Lemma refines_format_fuel runtime n k f v :
  (n <= k)%nat -> refines (format_fuel runtime n f v) (format_fuel runtime k f v).
Proof. intros Hle ts Hne. apply format_fuel_mono; assumption. Qed.

(** ** The catalog *)

Lemma logged_logged ts r1 r2 : logged (logged ts r1) r2 = logged ts (r1 ++ r2).
Proof. unfold logged, set_log. simpl. rewrite <- app_assoc. reflexivity. Qed.

Lemma lookup_chain_find key chain : forall ts,
  lookup_chain key chain ts
  = match catalog_find (pattern_cache ts) key chain with
    | Some (lc, formatter) => (Return (Some formatter), logged ts [FoundKey key lc])
    | None => (Return None, ts)
    end.
Proof.
  induction chain as [|lc rest IH]; intros ts; simpl; [reflexivity|].
  unfold mbind at 1. unfold Py_bind, bind, lookup_single_locale.
  unfold mbind at 1. unfold Py_bind, bind, get_service.
  destruct (pattern_cache ts !! lc) as [keys|]; simpl; [|apply IH].
  destruct (keys !! key) as [formatter|]; simpl; [reflexivity | apply IH].
Qed.

Lemma lookup_message_found runtime ts m locale lc formatter :
  catalog_entry ts (I18NMessage_key m) locale = Some (lc, formatter) ->
  lookup_message runtime (VMessage m) locale ts
  = (Return (Some formatter),
     logged ts [LookingFor (I18NMessage_key m)
                  (LocaleFallbackStrategy.apply (default_locale ts) locale);
                FoundKey (I18NMessage_key m) lc]).
Proof.
  unfold catalog_entry, lookup_message. intros Hfind.
  unfold mbind, Py_bind, bind, get_service, log_record.
  rewrite lookup_chain_find. simpl pattern_cache. rewrite Hfind.
  unfold ret. f_equal. apply logged_logged.
Qed.

Lemma lookup_message_missing runtime ts m locale :
  catalog_entry ts (I18NMessage_key m) locale = None ->
  lookup_message runtime (VMessage m) locale ts
  = MissingTextStrategy_apply runtime (missing_text_strategy ts) m locale
      (logged ts [LookingFor (I18NMessage_key m)
                    (LocaleFallbackStrategy.apply (default_locale ts) locale)]).
Proof.
  unfold catalog_entry, lookup_message. intros Hfind.
  unfold mbind, Py_bind, bind, get_service, log_record.
  rewrite lookup_chain_find. simpl pattern_cache. rewrite Hfind. reflexivity.
Qed.

(** [translate] at the locale it settles on. *)
Lemma translate_fuel_unfold runtime n m l ts :
  translate_fuel runtime (S n) (VMessage m) l ts
  = try_except
      (translate_at runtime (format_fuel runtime n) (VMessage m) (effective_locale ts m l))
      (fun e => raise (I18nException
                         (ErrorTranslating (VMessage m) (effective_locale ts m l)) (Some e)))
      ts.
Proof.
  simpl. unfold TranslationService_translate, effective_locale.
  unfold mbind, Py_bind, bind, get_service.
  destruct l; [reflexivity|].
  destruct (I18NMessage_locale m); reflexivity.
Qed.

(** A request whose catalog entry is plain text translates to that text. *)
Lemma translate_fuel_text runtime n m l ts lc text :
  catalog_entry ts (I18NMessage_key m) (effective_locale ts m l)
  = Some (lc, mkMessageFormatter [TextFragment text]) ->
  translate_fuel runtime (S n) (VMessage m) l ts
  = (Return text,
     logged ts [LookingFor (I18NMessage_key m)
                  (LocaleFallbackStrategy.apply (default_locale ts) (effective_locale ts m l));
                FoundKey (I18NMessage_key m) lc]).
Proof.
  intros Hentry. rewrite translate_fuel_unfold.
  unfold try_except, translate_at. unfold mbind, Py_bind, bind.
  rewrite (lookup_message_found _ _ _ _ _ _ Hentry). reflexivity.
Qed.

(** ** Running a computation step by step *)

Lemma bind_return {A B} (c : Py A) (k : A -> Py B) ts a ts' :
  c ts = (Return a, ts') -> (c ≫= k) ts = k a ts'.
Proof. intros H. unfold mbind, Py_bind, bind. rewrite H. reflexivity. Qed.

Lemma bind_raise {A B} (c : Py A) (k : A -> Py B) ts e ts' :
  c ts = (Raise e, ts') -> (c ≫= k) ts = (Raise e, ts').
Proof. intros H. unfold mbind, Py_bind, bind. rewrite H. reflexivity. Qed.

Lemma lift_ok {A} (r : Result A) a ts : r = Ok a -> lift r ts = (Return a, ts).
Proof. intros ->. reflexivity. Qed.

Lemma append_empty (s : string) : s +:+ EmptyString = s.
Proof.
  induction s as [|c s IH]; [reflexivity|].
  change (String c (s +:+ EmptyString) = String c s). rewrite IH. reflexivity.
Qed.

Lemma same_configuration_refl ts : same_configuration ts ts.
Proof. repeat split. Qed.

Lemma same_configuration_trans ts1 ts2 ts3 :
  same_configuration ts1 ts2 -> same_configuration ts2 ts3 -> same_configuration ts1 ts3.
Proof. unfold same_configuration. intuition congruence. Qed.

Lemma same_configuration_logged ts records : same_configuration ts (logged ts records).
Proof. repeat split. Qed.

Lemma registered_same_configuration ts ts' locale key text :
  same_configuration ts ts' -> registered ts locale key text ->
  registered ts' locale key text.
Proof.
  intros (Hl & _ & Hp & _) [lc H]. exists lc.
  unfold catalog_entry, effective_locale in *. rewrite Hl, Hp. exact H.
Qed.

(** The messages of the formatters, once registered as plain text,
    translate to that text and only add to the log. *)
Lemma translate_registered runtime ts locale key text n :
  registered ts locale key text ->
  exists records,
    translate_fuel runtime (S n) (VMessage (message key)) locale ts
    = (Return text, logged ts records).
Proof.
  intros [lc H]. eexists. apply (translate_fuel_text runtime n (message key)). exact H.
Qed.


(** [NumberFormatter.format] without a plural option: the registered
    spec applied to the value. *)
Lemma number_format_plain runtime ts locale inst spec n :
  registered ts locale
    (I18NMessage_key (if isinstance_int inst then int_message else float_message)) spec ->
  exists records,
    format_fuel runtime (S (S n)) (NumberFormatter locale VNone) inst ts
    = (match percent runtime spec inst with
       | Ok text => Return (VStr text)
       | Error e => Raise e
       end, logged ts records).
Proof.
  intros Hreg. simpl format_fuel. unfold NumberFormatter_format.
  assert (Hmsg : (if isinstance_int inst then int_message else float_message)
                 = message (I18NMessage_key
                              (if isinstance_int inst then int_message else float_message)))
    by (destruct (isinstance_int inst); reflexivity).
  rewrite Hmsg.
  destruct (translate_registered runtime ts locale _ spec n Hreg) as [records Htr].
  exists records. rewrite (bind_return _ _ _ _ _ Htr).
  destruct (percent runtime spec inst); reflexivity.
Qed.

Lemma try_except_return {A} (c : Py A) handler ts a ts' :
  c ts = (Return a, ts') -> try_except c handler ts = (Return a, ts').
Proof. intros H. unfold try_except. rewrite H. reflexivity. Qed.

(** An argument fragment appends the text its formatter returns. *)
Lemma append_to_argument runtime format_n ref options buffer locale args kwargs
    ts value formatter ts1 text ts2 :
  Ref_get runtime ref args kwargs = Ok value ->
  create_formatter locale value options ts = (Return formatter, ts1) ->
  format_n formatter value ts1 = (Return (VStr text), ts2) ->
  append_to runtime format_n (ArgumentFragment ref options) buffer locale args kwargs ts
  = (Return (buffer +:+ text), ts2).
Proof.
  intros Href Hcreate Hformat. unfold append_to.
  rewrite (bind_return _ _ _ _ _ (lift_ok _ _ ts Href)).
  rewrite (bind_return _ _ _ _ _ Hcreate).
  rewrite (bind_return _ _ _ _ _ Hformat). reflexivity.
Qed.

Lemma format_single_fragment runtime format_n fragment locale args kwargs ts text ts' :
  append_to runtime format_n fragment EmptyString locale args kwargs ts = (Return text, ts') ->
  MessageFormatter_format runtime format_n (mkMessageFormatter [fragment]) locale args kwargs ts
  = (Return text, ts').
Proof.
  intros H. unfold MessageFormatter_format. simpl.
  rewrite (bind_return _ _ _ _ _ H). reflexivity.
Qed.

Lemma new_service_consistent default_locale strategy :
  dispatch_consistent (new_service default_locale strategy).
Proof. intros t d. simpl. rewrite lookup_empty. discriminate. Qed.

Lemma register_message_consistent key locale pattern ts :
  dispatch_consistent ts ->
  dispatch_consistent (snd (register_message key locale pattern ts)).
Proof.
  intros Hd. unfold register_message.
  destruct (parse pattern); simpl; exact Hd.
Qed.

Lemma register_messages_consistent entries : forall ts,
  dispatch_consistent ts -> dispatch_consistent (register_messages entries ts).
Proof.
  induction entries as [|[[key locale] pattern] rest IH]; intros ts Hd; simpl; [exact Hd|].
  apply IH, register_message_consistent, Hd.
Qed.

(** Well-formed services: a new service is well formed, and
    registration of messages, registration of factories and [translate]
    keep a service well formed. *)
Lemma new_service_well_formed default_locale strategy :
  well_formed (new_service default_locale strategy).
Proof.
  split; [exists []; reflexivity | apply new_service_consistent].
Qed.

Lemma register_well_formed more ts : well_formed ts -> well_formed (register more ts).
Proof.
  intros [[extensions Hdelegates] Hd]. split.
  - exists (extensions ++ more).
    change (delegates (register more ts)) with (delegates ts ++ more).
    rewrite Hdelegates, <- app_assoc. reflexivity.
  - intros t d Hcache. destruct (Hd t d Hcache) as (v & Hty & Hfm).
    exists v. split; [exact Hty | apply first_match_app, Hfm].
Qed.

Lemma register_message_well_formed key locale pattern ts :
  well_formed ts -> well_formed (snd (register_message key locale pattern ts)).
Proof.
  intros [Hb Hd]. split; [|apply register_message_consistent, Hd].
  unfold register_message. destruct (parse pattern); exact Hb.
Qed.

Lemma translate_well_formed runtime ts m l :
  well_formed ts -> well_formed (snd (translate runtime ts m l)).
Proof.
  intros [[extensions Hdelegates] Hd].
  destruct (translate_terminates runtime ts m l Hd) as [_ [(_ & _ & _ & Hsame) Hd']].
  split; [|exact Hd']. exists extensions. rewrite Hsame. exact Hdelegates.
Qed.

Lemma test_service_consistent : dispatch_consistent TestBasics.service.
Proof. apply register_messages_consistent, new_service_consistent. Qed.

Lemma lenient_service_consistent : dispatch_consistent TestBasics.lenient_service.
Proof. apply register_messages_consistent, new_service_consistent. Qed.

(** ** Properties of the locale fallback chain *)

Section FallbackChain.

Import PyStr FallbackSpec.

Lemma cut_points_no_separator c s :
  rindex c s = None -> cut_points c s = [].
Proof.
  induction s as [|a s IH]; simpl; [reflexivity|].
  destruct (rindex c s); [discriminate|].
  destruct (Ascii.eqb a c); [discriminate|].
  intros _. rewrite IH; reflexivity.
Qed.

Lemma cut_points_last_separator c s i :
  rindex c s = Some i ->
  cut_points c s = cut_points c (prefix i s) ++ [prefix i s].
Proof.
  revert i; induction s as [|a s IH]; intros i; simpl; [discriminate|].
  destruct (rindex c s) as [j|] eqn:E.
  - intros [= <-]. simpl. rewrite (IH j eq_refl) at 1.
    rewrite map_app, app_assoc. reflexivity.
  - destruct (Ascii.eqb a c) eqn:Ea; [|discriminate].
    intros [= <-]. simpl.
    rewrite (cut_points_no_separator _ _ E). reflexivity.
Qed.

Lemma split_locale_truncations l : forall result,
  LocaleFallbackStrategy.split_locale result (Some l) = result ++ truncations l.
Proof.
  remember (String.length l) as n eqn:Hn. revert l Hn.
  induction n as [n IH] using lt_wf_ind. intros l Hn result.
  simp split_locale.
  destruct (Z_lt_dec (rfind "_" l) 0) as [Hneg|Hpos]; simpl.
  - unfold truncations, rfind in *.
    destruct (rindex "_" l) eqn:E; [lia|].
    rewrite (cut_points_no_separator _ _ E). reflexivity.
  - unfold rfind in *.
    destruct (rindex "_" l) as [i|] eqn:E; [|lia].
    rewrite Nat2Z.id.
    pose proof (rindex_lt _ _ _ E) as Hi.
    rewrite (IH (String.length (prefix i l))) by
      (rewrite ?prefix_length; lia || reflexivity).
    unfold truncations at 2.
    rewrite (cut_points_last_separator _ _ _ E), rev_app_distr. simpl.
    rewrite <- app_assoc. reflexivity.
Qed.

(** The cut points of [s] are the prefixes of [s] that a [c] follows. *)
Lemma cut_points_spec c s t :
  In t (cut_points c s) <-> exists rest, s = t +:+ String c rest.
Proof.
  revert t; induction s as [|a s IH]; intros t; simpl.
  - split; [tauto|]. intros [rest H]. destruct t; discriminate H.
  - rewrite in_app_iff, in_map_iff. split.
    + intros [H|(t' & <- & Hin)].
      * destruct (Ascii.eqb a c) eqn:E; [|destruct H].
        destruct H as [<-|[]]. apply Ascii.eqb_eq in E. subst a.
        exists s. reflexivity.
      * apply IH in Hin. destruct Hin as [rest ->]. exists rest. reflexivity.
    + intros [rest H]. destruct t as [|a' t'].
      * left. injection H as -> _. rewrite Ascii.eqb_refl. left. reflexivity.
      * right. injection H as -> H. exists t'. split; [reflexivity|].
        apply IH. exists rest. exact H.
Qed.

End FallbackChain.

(** C4: for all default and requested locale strings the fallback chain
  is the requested locale and its successive ['_']-truncations, longest
  first, followed by the same for the default locale; nothing is
  removed as a duplicate. *)
Theorem fallback_chain_exact (default requested : string) :
LocaleFallbackStrategy.apply (Some default) (Some requested)
= FallbackSpec.chain default requested.
Proof.
unfold LocaleFallbackStrategy.apply, FallbackSpec.chain.
rewrite !split_locale_truncations. reflexivity.
Qed.

(** ** Equality of requests *)

(** C7: the comparison [m1 == m2] of two requests does not return a
    boolean: the call of [__eq__] with the right operand is refused with
    a [TypeError], whatever the two requests are. *)
Theorem message_equality_raises (m1 m2 : I18NMessage) :
  I18NMessage_eq m1 [VMessage m2]
  = Error (Builtin TypeError "__eq__() takes 1 positional argument but 2 were given").
Proof. reflexivity. Qed.

(** ** Missing texts *)

(** C2: with the strategy that logs missing texts, translating a
    request whose key has no entry along the fallback chain logs the
    warning and then raises: building the substitute formatter fails
    with a [TypeError], which [translate] wraps. *)
Theorem log_strategy_missing_text_raises runtime ts m l :
  missing_text_strategy ts = LogMissingTextStrategy ->
  catalog_entry ts (I18NMessage_key m) (effective_locale ts m l) = None ->
  translate runtime ts m l
  = (Raise (I18nException
              (ErrorTranslating (VMessage m) (effective_locale ts m l))
              (Some (Builtin TypeError "'TextFragment' object is not iterable"))),
     logged ts [LookingFor (I18NMessage_key m)
                  (LocaleFallbackStrategy.apply (default_locale ts)
                     (effective_locale ts m l));
                MissingTextWarning (I18NMessage_key m)]).
Proof.
  intros Hstrategy Hmissing. unfold translate.
  destruct (translate_depth m) as [|n] eqn:Hdepth;
    [pose proof (translate_depth_pos m); lia|].
  rewrite translate_fuel_unfold.
  unfold try_except, translate_at. unfold mbind, Py_bind, bind.
  rewrite (lookup_message_missing _ _ _ _ Hmissing), Hstrategy.
  unfold MissingTextStrategy_apply, mbind, Py_bind, bind, log_record. simpl.
  unfold raise. f_equal. apply logged_logged.
Qed.

Lemma log_strategy_missing_text_witness :
  translate minimal_runtime TestBasics.lenient_service (message "test_basics.unknown") None
  = (Raise (I18nException
              (ErrorTranslating (VMessage (message "test_basics.unknown")) (Some "en_US"))
              (Some (Builtin TypeError "'TextFragment' object is not iterable"))),
     logged TestBasics.lenient_service
       [LookingFor "test_basics.unknown" ["en_US"; "en"; "en_US"; "en"];
        MissingTextWarning "test_basics.unknown"]).
Proof.
  apply (log_strategy_missing_text_raises minimal_runtime TestBasics.lenient_service
           (message "test_basics.unknown") None); reflexivity.
Defined.

(** ** The boundary of [translate] *)

(** C5: [translate] ends, and what it does is fixed by the lookup and
    the rendering.  It returns the text the rendering returns.  Every
    failure is raised again as one kind of error, the [I18nException]
    built by its outer handler, which carries the request, the locale
    the call worked with, and the error that occurred as its cause: the
    error the lookup raised; the no-formatter error; or what the inner
    handler raised for the error of the rendering, which is the
    formatting error with the error of the rendering as its own cause,
    or the error of [repr] of the formatter when the text of the
    formatting error cannot be built.  No other error leaves
    [translate]. *)
Theorem translate_raises_only_translation_error runtime ts m l :
  dispatch_consistent ts ->
  let locale := effective_locale ts m l in
  let args := I18NMessage_args m in
  let kwargs := I18NMessage_kwargs m in
  let error cause := I18nException (ErrorTranslating (VMessage m) locale) (Some cause) in
  fst (translate runtime ts m l) <> OutOfFuel
  /\ translate runtime ts m l
     = match lookup_message runtime (VMessage m) locale ts with
       | (Return (Some formatter), ts1) =>
           match render runtime ts1 formatter m locale with
           | (Return text, ts2) => (Return text, ts2)
           | (Raise e, ts2) =>
               (Raise (error (match MessageFormatter_repr runtime formatter with
                              | Ok _ =>
                                  I18nException (ErrorFormattingWith formatter args kwargs)
                                    (Some e)
                              | Error e' => e'
                              end)), ts2)
           | (OutOfFuel, ts2) => (OutOfFuel, ts2)
           end
       | (Return None, ts1) =>
           (Raise (error (I18nException (MissingFormatterFor (VMessage m) locale) None)), ts1)
       | (Raise e, ts1) => (Raise (error e), ts1)
       | (OutOfFuel, ts1) => (OutOfFuel, ts1)
       end.
Proof.
  intros Hd locale args kwargs error. split; [apply translate_terminates, Hd|].
  unfold translate, render.
  destruct (translate_depth m) as [|n] eqn:Hdepth;
    [pose proof (translate_depth_pos m); lia|].
  rewrite translate_fuel_unfold. fold locale. unfold try_except at 1. unfold translate_at.
  unfold mbind at 1. unfold Py_bind, bind.
  destruct (lookup_message runtime (VMessage m) locale ts) as [[[formatter|]|e|] ts1];
    try reflexivity.
  unfold try_except. simpl pred. fold args kwargs.
  destruct (MessageFormatter_format _ _ _ _ _ _ _) as [[text|e|] ts2]; reflexivity.
Qed.

Lemma translate_raises_only_translation_error_witness :
  let date := VObject "datetime.date" "datetime.date(2017, 1, 2)" in
  fst (translate minimal_runtime TestBasics.service (TestBasics.hello date) (Some "it"))
  = Raise (I18nException
             (ErrorTranslating (VMessage (TestBasics.hello date)) (Some "it"))
             (Some (I18nException
                      (ErrorFormattingWith
                         (mkMessageFormatter
                            [TextFragment "Ciao, "; ArgumentFragment (NameRef (VStr "name")) [];
                             TextFragment "."])
                         [date] [("name", date)])
                      (Some (I18nException
                               (NoFactoryCanHandle (class_t "datetime.date") date) None))))).
Proof.
  intros date.
  destruct (translate_raises_only_translation_error minimal_runtime TestBasics.service
              (TestBasics.hello date) (Some "it")
              (register_messages_consistent _ _ (new_service_consistent _ _)))
    as [_ Hrun].
  set (result := translate minimal_runtime TestBasics.service (TestBasics.hello date)
                   (Some "it")) in *.
  clearbody result. vm_compute in Hrun. rewrite Hrun. reflexivity.
Defined.

(** ** Numbers *)

Lemma read_decimal_decimal (n : Z) : PyNum.read_decimal (PyNum.decimal n) = Some n.
Proof.
  unfold PyNum.read_decimal, PyNum.decimal. rewrite NilZero.isi.
  - simpl. rewrite DecimalZ.of_to. reflexivity.
  - destruct n; simpl; try discriminate.
    intros [= H]. revert H. apply DecimalPos.Unsigned.to_uint_nonnil.
  - destruct n; simpl; try discriminate.
    intros [= H]. revert H. apply DecimalPos.Unsigned.to_uint_nonnil.
Qed.

(** C8: with [number.int] registered as ['%d'] and [number.float] as
    ['%.2f'], and no plural option, an integer renders as its decimal
    digits with its sign, exactly at any size (the text reads back as
    the integer; 0, -1234 and 123456789012345678901234567890 among
    them), and a float renders rounded to two decimals: 0.0 as "0.00",
    3.1415 as "3.14", 3.145 as "3.15". *)
Theorem number_rendering runtime ts locale :
  registered ts locale "pdark.i18n.number.int" "%d" ->
  registered ts locale "pdark.i18n.number.float" "%.2f" ->
  let render inst := fst (format runtime ts (NumberFormatter locale VNone) inst) in
  (forall n, render (VInt n) = Return (VStr (PyNum.decimal n))
             /\ PyNum.read_decimal (PyNum.decimal n) = Some n)
  /\ render (VInt 0) = Return (VStr "0")
  /\ render (VInt (-1234)) = Return (VStr "-1234")
  /\ render (VInt 123456789012345678901234567890)
     = Return (VStr "123456789012345678901234567890")
  /\ render (VFloat (PyNum.literal 0 1)) = Return (VStr "0.00")
  /\ render (VFloat (PyNum.literal 31415 4)) = Return (VStr "3.14")
  /\ render (VFloat (PyNum.literal 3145 3)) = Return (VStr "3.15").
Proof.
  intros Hint Hfloat render.
  assert (Hi : forall n, render (VInt n) = Return (VStr (PyNum.decimal n))).
  { intros n. unfold render, format. simpl format_depth.
    destruct (number_format_plain runtime ts locale (VInt n) "%d" 0 Hint) as [records ->].
    simpl. rewrite append_empty. reflexivity. }
  assert (Hf : forall x, render (VFloat x)
                         = Return (VStr (PyNum.format_f false 2 x))).
  { intros x. unfold render, format. simpl format_depth.
    destruct (number_format_plain runtime ts locale (VFloat x) "%.2f" 0 Hfloat)
      as [records ->].
    simpl. rewrite append_empty. reflexivity. }
  split; [intros n; split; [apply Hi | apply read_decimal_decimal]|].
  rewrite !Hi, !Hf. repeat split; vm_compute; reflexivity.
Qed.

Lemma number_rendering_witness :
  fst (format minimal_runtime TestBasics.service (NumberFormatter (Some "en") VNone)
         (VFloat (PyNum.literal 3145 3)))
  = Return (VStr "3.15").
Proof.
  apply (number_rendering minimal_runtime TestBasics.service (Some "en"));
    exists "en"; reflexivity.
Defined.

(** ** Booleans *)

Lemma first_match_builtin_bool extensions v :
  type v = bool_t ->
  first_match (builtin_delegates ++ extensions) v = Some NumberFormatterFactory.
Proof. destruct v; try discriminate. reflexivity. Qed.

(** Dispatch of a boolean on a well-formed service. *)
Lemma create_formatter_bool ts locale (b : bool) :
  well_formed ts ->
  exists ts',
    create_formatter locale (VBool b) [] ts = (Return (NumberFormatter locale VNone), ts')
    /\ same_configuration ts ts'.
Proof.
  intros [[extensions Hdelegates] Hd].
  unfold create_formatter, mbind, Py_bind, bind, get_service.
  change (type (VBool b)) with bool_t.
  destruct (cache ts !! bool_t) as [d|] eqn:Ecache.
  - destruct (Hd _ _ Ecache) as (v & Hty & Hfm).
    rewrite Hdelegates, (first_match_builtin_bool _ _ Hty) in Hfm.
    injection Hfm as <-. exists ts. split; [reflexivity | apply same_configuration_refl].
  - rewrite Hdelegates, (first_match_builtin_bool _ (VBool b) eq_refl).
    eexists. split; [reflexivity|]. repeat split.
Qed.

(** C10: on a well-formed service, dispatch gives a boolean argument to
    the number formatter; with [number.int] registered as ['%d'], a
    request whose pattern is a reference to a boolean argument, without
    options, translates to "1" for [True] and to "0" for [False]. *)
Theorem boolean_argument_renders_as_number runtime ts m l ref lc (b : bool) :
  well_formed ts ->
  catalog_entry ts (I18NMessage_key m) (effective_locale ts m l)
  = Some (lc, mkMessageFormatter [ArgumentFragment ref []]) ->
  Ref_get runtime ref (I18NMessage_args m) (I18NMessage_kwargs m) = Ok (VBool b) ->
  registered ts (effective_locale ts m l) "pdark.i18n.number.int" "%d" ->
  fst (create_formatter (effective_locale ts m l) (VBool b) [] ts)
  = Return (NumberFormatter (effective_locale ts m l) VNone)
  /\ fst (translate runtime ts m l) = Return (if b then "1" else "0").
Proof.
  intros Hwf Hentry Href Hreg. split.
  { destruct (create_formatter_bool ts (effective_locale ts m l) b Hwf) as (ts' & -> & _).
    reflexivity. }
  unfold translate.
  pose proof (Ref_get_depth _ _ _ _ Href) as Hdepth. simpl format_depth in Hdepth.
  destruct (translate_depth m) as [|[|[|n]]]; try lia.
  rewrite translate_fuel_unfold. unfold try_except, translate_at.
  rewrite (bind_return _ _ _ _ _ (lookup_message_found runtime _ _ _ _ _ Hentry)).
  set (ts1 := logged ts _).
  assert (Hwf1 : well_formed ts1) by exact Hwf.
  destruct (create_formatter_bool ts1 (effective_locale ts m l) b Hwf1)
    as (ts2 & Hcreate & Hcfg).
  assert (Hreg2 : registered ts2 (effective_locale ts m l) "pdark.i18n.number.int" "%d").
  { eapply registered_same_configuration; [|exact Hreg].
    eapply same_configuration_trans; [apply same_configuration_logged | exact Hcfg]. }
  destruct (number_format_plain runtime ts2 (effective_locale ts m l) (VBool b) "%d" n Hreg2)
    as [records Hformat].
  assert (Htext : percent runtime "%d" (VBool b) = Ok (if b then "1" else "0"))
    by (destruct b; reflexivity).
  rewrite Htext in Hformat.
  rewrite (try_except_return _ _ _ _ _
             (format_single_fragment _ _ _ _ _ _ _ _ _
                (append_to_argument _ _ _ _ _ _ _ _ _ _ _ _ _ _ Href Hcreate Hformat))).
  reflexivity.
Qed.

Lemma boolean_argument_renders_as_number_witness :
  fst (create_formatter (Some "en_US") (VBool true) [] TestBasics.service)
  = Return (NumberFormatter (Some "en_US") VNone)
  /\ fst (translate minimal_runtime TestBasics.service (TestBasics.number (VBool true)) None)
     = Return "1".
Proof.
  apply (boolean_argument_renders_as_number minimal_runtime TestBasics.service
           (TestBasics.number (VBool true)) None (NameRef (VStr "n")) "en" true).
  - split; [exists []; reflexivity|].
    apply register_messages_consistent, new_service_consistent.
  - reflexivity.
  - reflexivity.
  - exists "en". reflexivity.
Defined.

(** ** Plurals *)





(** ** Lists *)

Lemma strings_map_VStr texts : PySeq.strings (map VStr texts) = Ok texts.
Proof. induction texts as [|t rest IH]; simpl; [reflexivity | rewrite IH; reflexivity]. Qed.

Lemma join_map_VStr sep texts : PySeq.join sep (map VStr texts) = Ok (PyStr.join sep texts).
Proof. unfold PySeq.join. rewrite strings_map_VStr. reflexivity. Qed.

Lemma index_last {A} (l : list A) (d : A) :
  l <> [] -> PySeq.index l (-1) = Ok (List.last l d).
Proof.
  intros Hne. unfold PySeq.index.
  assert (Hlen : (0 < length l)%nat) by (destruct l; [congruence | simpl; lia]).
  replace (-1 <? 0) with true by reflexivity.
  replace ((0 <=? -1 + Z.of_nat (length l)) && (-1 + Z.of_nat (length l) <? Z.of_nat (length l)))
    with true by (symmetry; apply andb_true_intro; split; [apply Z.leb_le | apply Z.ltb_lt]; lia).
  replace (Z.to_nat (-1 + Z.of_nat (length l))) with (length l - 1)%nat by lia.
  clear Hlen. induction l as [|a [|b l] IH]; [congruence | reflexivity |].
  specialize (IH ltac:(discriminate)). simpl in *.
  rewrite Nat.sub_0_r in IH. exact IH.
Qed.

Lemma last_map {A B} (f : A -> B) (l : list A) (d : A) :
  List.last (map f l) (f d) = f (List.last l d).
Proof.
  induction l as [|a [|b l] IH]; [reflexivity | reflexivity | exact IH].
Qed.

Lemma removelast_map {A B} (f : A -> B) (l : list A) :
  removelast (map f l) = map f (removelast l).
Proof.
  induction l as [|a [|b l] IH]; [reflexivity | reflexivity |].
  change (f a :: removelast (map f (b :: l)) = f a :: map f (removelast (b :: l))).
  rewrite IH. reflexivity.
Qed.

Lemma get_tail_joiner_text options and_text or_text :
  (forall m, dict_get options "type" <> Some (VMessage m)) ->
  exists tail_joiner,
    get_tail_joiner options = Ok tail_joiner
    /\ ((tail_joiner = or_message /\ tail_joiner_text options and_text or_text = or_text)
        \/ (tail_joiner = and_message
            /\ tail_joiner_text options and_text or_text = and_text)).
Proof.
  intros Hno. unfold get_tail_joiner, tail_joiner_text.
  destruct (dict_get options "type") as [value|]; [|eauto].
  destruct value; simpl; eauto.
  - destruct (String.eqb s "or"); eauto.
  - exfalso. eapply Hno. reflexivity.
Qed.

Lemma triple_dispatch_item runtime ts0 locale item :
  triple (configured_as ts0) (dispatch_item runtime locale item) (fun _ => True).
Proof.
  unfold dispatch_item, process. triple_step.
  apply (proj2 (fuel_suffices runtime ts0 (format_depth item))); auto.
Qed.

(** With enough fuel the items are processed as [dispatch_item] does. *)
Lemma for_each_process runtime n locale items ts values ts1 :
  (forall item, In item items -> (format_depth item <= n)%nat) ->
  for_each (dispatch_item runtime locale) items ts = (Return values, ts1) ->
  for_each (process (format_fuel runtime n) locale) items ts = (Return values, ts1).
Proof.
  intros Hdepth Hrun. rewrite <- Hrun.
  apply (refines_for_each (dispatch_item runtime locale)).
  - intros item Hin. unfold dispatch_item, process.
    apply refines_bind; [apply refines_refl|]. intros formatter.
    apply refines_format_fuel, Hdepth, Hin.
  - rewrite Hrun. discriminate.
Qed.

Lemma for_each_length {A B} (f : A -> Py B) (items : list A) : forall ts values ts',
  for_each f items ts = (Return values, ts') -> length values = length items.
Proof.
  induction items as [|item rest IH]; intros ts values ts'; simpl.
  - intros [= <- _]. reflexivity.
  - unfold mbind, Py_bind, bind.
    destruct (f item ts) as [[b|e|] ts1]; try discriminate.
    destruct (for_each f rest ts1) as [[bs|e|] ts2] eqn:Erest; try discriminate.
    intros [= <- _]. simpl. f_equal. eapply IH. exact Erest.
Qed.

Lemma for_each_configured runtime ts locale items values ts1 :
  dispatch_consistent ts ->
  for_each (dispatch_item runtime locale) items ts = (Return values, ts1) ->
  configured_as ts ts1.
Proof.
  intros Hd Hrun.
  pose proof (triple_for_each (configured_as ts) (dispatch_item runtime locale) items
                (fun _ => True) (fun item _ => triple_dispatch_item runtime ts locale item)
                ts (configured_as_refl ts Hd)) as H.
  rewrite Hrun in H. apply H.
Qed.

(** The text of a list whose items [process] has turned into [texts]. *)
Lemma list_text_of_processed_items runtime ts locale options inst items texts ts1
    empty_text comma_text and_text or_text :
  dispatch_consistent ts ->
  inst = VList items \/ inst = VTuple items ->
  (forall m, dict_get options "type" <> Some (VMessage m)) ->
  registered ts locale "pdark.i18n.list.empty" empty_text ->
  registered ts locale "pdark.i18n.list.comma" comma_text ->
  registered ts locale "pdark.i18n.list.and" and_text ->
  registered ts locale "pdark.i18n.list.or" or_text ->
  for_each (dispatch_item runtime locale) items ts = (Return (map VStr texts), ts1) ->
  fst (format runtime ts (ListFormatter locale options) inst)
  = Return (VStr (list_text empty_text comma_text
                    (tail_joiner_text options and_text or_text) texts)).
Proof.
  intros Hd Hinst Hno Hempty Hcomma Hand Hor Hitems.
  assert (Hiter : PySeq.iterate inst = Ok items)
    by (destruct Hinst as [-> | ->]; reflexivity).
  assert (Hdepth : format_depth inst = S (S (list_max (map format_depth items))))
    by (destruct Hinst as [-> | ->]; reflexivity).
  pose proof (for_each_length _ _ _ _ _ Hitems) as Hlen. rewrite length_map in Hlen.
  pose proof (for_each_configured _ _ _ _ _ _ Hd Hitems) as [Hcfg _].
  unfold format. rewrite Hdepth.
  remember (list_max (map format_depth items)) as k eqn:Hk.
  change (format_fuel runtime (S (S k)) (ListFormatter locale options) inst ts)
    with (ListFormatter_format (translate_fuel runtime (S k)) (format_fuel runtime (S k))
            locale options inst ts).
  unfold ListFormatter_format.
  rewrite (bind_return _ _ _ _ _ (lift_ok _ _ ts Hiter)).
  destruct texts as [|t1 [|t2 rest]].
  - destruct items; [|discriminate]. simpl.
    destruct (translate_registered runtime ts locale _ _ k Hempty) as [records Htr].
    change (VMessage empty_message) with (VMessage (message "pdark.i18n.list.empty")).
    rewrite (bind_return _ _ _ _ _ Htr). reflexivity.
  - assert (Hrun : for_each (process (format_fuel runtime (S k)) locale) items ts
                   = (Return (map VStr [t1]), ts1)).
    { apply for_each_process; [|exact Hitems].
      intros item Hin. pose proof (list_max_In format_depth items item Hin). lia. }
    replace (length items =? 0)%nat with false by (rewrite <- Hlen; reflexivity).
    replace (length items =? 1)%nat with true by (rewrite <- Hlen; reflexivity).
    rewrite (bind_return _ _ _ _ _ Hrun). reflexivity.
  - assert (Hrun : for_each (process (format_fuel runtime (S k)) locale) items ts
                   = (Return (map VStr (t1 :: t2 :: rest)), ts1)).
    { apply for_each_process; [|exact Hitems].
      intros item Hin. pose proof (list_max_In format_depth items item Hin). lia. }
    replace (length items =? 0)%nat with false by (rewrite <- Hlen; reflexivity).
    replace (length items =? 1)%nat with false by (rewrite <- Hlen; reflexivity).
    rewrite (bind_return _ _ _ _ _ Hrun).
    set (texts := t1 :: t2 :: rest) in *.
    assert (Hlast : PySeq.index (map VStr texts) (-1)
                    = Ok (VStr (List.last texts EmptyString))).
    { rewrite (index_last _ (VStr EmptyString)) by discriminate.
      rewrite (last_map VStr). reflexivity. }
    rewrite (bind_return _ _ _ _ _ (lift_ok _ _ ts1 Hlast)).
    unfold PySeq.all_but_last. rewrite removelast_map.
    assert (Hhead : exists ts2,
      (if (1 <? length (map VStr (removelast texts)))%nat
       then
         translate_fuel runtime (S k) (VMessage comma_message) locale
         ≫= fun joiner =>
           lift (PySeq.join joiner (map VStr (removelast texts)))
           ≫= fun joined => ret (VStr joined)
       else lift (PySeq.index (map VStr (removelast texts)) 0)) ts1
      = (Return (VStr (PyStr.join comma_text (removelast texts))), ts2)
      /\ same_configuration ts ts2).
    { destruct (1 <? length (map VStr (removelast texts)))%nat eqn:Elen.
      - destruct (translate_registered runtime ts1 locale _ _ k
                    (registered_same_configuration _ _ _ _ _ Hcfg Hcomma))
          as [records Htr].
        change (VMessage comma_message) with (VMessage (message "pdark.i18n.list.comma")).
        exists (logged ts1 records). split.
        + rewrite (bind_return _ _ _ _ _ Htr).
          rewrite (bind_return _ _ _ _ _
                     (lift_ok _ _ _ (join_map_VStr comma_text (removelast texts)))).
          reflexivity.
        + eapply same_configuration_trans; [exact Hcfg | apply same_configuration_logged].
      - exists ts1. split; [|exact Hcfg].
        subst texts. destruct rest as [|t3 rest]; [reflexivity|].
        apply Nat.ltb_ge in Elen. rewrite length_map in Elen.
        change (removelast (t1 :: t2 :: t3 :: rest))
          with (t1 :: t2 :: removelast (t3 :: rest)) in Elen.
        simpl in Elen. lia. }
    destruct Hhead as (ts2 & Hhead & Hcfg2).
    rewrite (bind_return _ _ _ _ _ Hhead).
    destruct (get_tail_joiner_text options and_text or_text Hno)
      as (tail_joiner & Htail & Hcases).
    rewrite (bind_return _ _ _ _ _ (lift_ok _ _ ts2 Htail)).
    assert (Hjoiner : exists records,
      translate_fuel runtime (S k) (VMessage tail_joiner) locale ts2
      = (Return (tail_joiner_text options and_text or_text), logged ts2 records)).
    { destruct Hcases as [[-> ->] | [-> ->]].
      - apply (translate_registered runtime ts2 locale "pdark.i18n.list.or").
        eapply registered_same_configuration; eassumption.
      - apply (translate_registered runtime ts2 locale "pdark.i18n.list.and").
        eapply registered_same_configuration; eassumption. }
    destruct Hjoiner as [records Hjoiner].
    rewrite (bind_return _ _ _ _ _ Hjoiner). reflexivity.
Qed.

(** ** Nested requests *)

Lemma translate_at_with_locale runtime format_n m p l ts :
  translate_at runtime format_n (VMessage (with_locale m p)) l ts
  = translate_at runtime format_n (VMessage m) l ts.
Proof.
  destruct m as [k l0 a kw]. unfold with_locale, translate_at, lookup_message. simpl.
  unfold mbind, Py_bind, bind, get_service, log_record.
  destruct (lookup_chain k _ _) as [[[formatter|]|e|] ts1]; try reflexivity.
  destruct (missing_text_strategy ts); reflexivity.
Qed.

Lemma with_locale_depth m p : translate_depth (with_locale m p) = translate_depth m.
Proof. destruct m; reflexivity. Qed.


(** ** Memoized dispatch *)

Lemma first_match_type_determined delegates v v' :
  (forall d, In d delegates -> type_determined d) -> type v = type v' ->
  first_match delegates v = first_match delegates v'.
Proof.
  intros Hall Hty. induction delegates as [|d rest IH]; simpl; [reflexivity|].
  rewrite (Hall d (or_introl eq_refl) v v' Hty).
  destruct (can_handle d v'); [reflexivity|].
  apply IH. intros d' Hin. apply Hall. right. exact Hin.
Qed.

(** C9, as the code has it: a memoized factory is used for every later
    value of exactly that type, also after more factories were
    registered; a type that is not memoized is resolved by the scan of
    the factory list, built-in factories first and extensions in the
    order of registration, and then memoized; and the memoized factory
    is the one the scan finds whenever the factories decide by the type
    of the value alone. *)
Theorem dispatch_memoization ts locale inst options :
  (forall d, cache ts !! type inst = Some d ->
     create_formatter locale inst options ts
     = lift (delegate_create_formatter d locale options) ts)
  /\ (forall d more, cache ts !! type inst = Some d ->
      create_formatter locale inst options (register more ts)
      = lift (delegate_create_formatter d locale options) (register more ts))
  /\ (cache ts !! type inst = None ->
      create_formatter locale inst options ts
      = match first_match (delegates ts) inst with
        | Some d =>
            lift (delegate_create_formatter d locale options)
              (set_cache ts (<[type inst := d]> (cache ts)))
        | None => (Raise (I18nException (NoFactoryCanHandle (type inst) inst) None), ts)
        end)
  /\ (forall default strategy more,
      delegates (register more (new_service default strategy)) = builtin_delegates ++ more)
  /\ (dispatch_consistent ts ->
      (forall d, In d (delegates ts) -> type_determined d) ->
      forall d, cache ts !! type inst = Some d ->
        first_match (delegates ts) inst = Some d).
Proof.
  repeat split.
  - intros d Hcache. unfold create_formatter, mbind, Py_bind, bind, get_service.
    rewrite Hcache. reflexivity.
  - intros d more Hcache. unfold create_formatter, mbind, Py_bind, bind, get_service.
    change (cache (register more ts)) with (cache ts). rewrite Hcache. reflexivity.
  - intros Hcache. unfold create_formatter, mbind, Py_bind, bind, get_service.
    rewrite Hcache. destruct (first_match (delegates ts) inst); reflexivity.
  - intros Hd Hall d Hcache. destruct (Hd _ _ Hcache) as (v & Hty & Hfm).
    rewrite <- Hfm. apply first_match_type_determined; [exact Hall | congruence].
Qed.

(** After a cold reading was shown, the memo sends the hot reading to
    the plain factory, while the scan of the factory list finds the
    alarm factory for it: the request that reads "ALARM" on the fresh
    service reads "hot" on the used one. *)
Lemma memo_agrees_with_scan_counterexample :
  ~ memo_agrees_with_scan
  /\ fst (translate minimal_runtime Thermometer.service
            (Thermometer.show Thermometer.hot) None) = Return "ALARM"
  /\ fst (translate minimal_runtime Thermometer.used_service
            (Thermometer.show Thermometer.hot) None) = Return "hot".
Proof.
  split; [|split; vm_compute; reflexivity].
  intros H.
  assert (Hwf : well_formed Thermometer.used_service).
  { split.
    - exists [Extension Thermometer.alarm; Extension Thermometer.plain].
      vm_compute. reflexivity.
    - apply (translate_terminates minimal_runtime Thermometer.service
               (Thermometer.show Thermometer.cold) None).
      intros t d. vm_compute. discriminate. }
  specialize (H Thermometer.used_service Thermometer.hot
                (Extension Thermometer.plain) Hwf ltac:(vm_compute; reflexivity)).
  vm_compute in H. injection H as H.
  apply (f_equal (fun f => f Thermometer.cold)) in H. vm_compute in H. discriminate H.
Qed.

Lemma dispatch_memoization_witness :
  first_match (delegates TestBasics.service) (VInt 7) = Some NumberFormatterFactory.
Proof.
  set (ts := snd (create_formatter None (VInt 1) [] TestBasics.service)).
  change (first_match (delegates ts) (VInt 7) = Some NumberFormatterFactory).
  apply (dispatch_memoization ts None (VInt 7) []).
  - apply (triple_create_formatter TestBasics.service None (VInt 1) [] TestBasics.service).
    apply configured_as_refl, register_messages_consistent, new_service_consistent.
  - intros d Hin v v' Hty.
    repeat (destruct Hin as [<-|Hin]; [apply can_handle_builtin_type; [reflexivity | exact Hty]|]).
    destruct Hin.
  - vm_compute. reflexivity.
Defined.

(** * Further properties of the engine *)

(** ** Registration and lookup *)

Lemma lookup_single_locale_run key lc ts :
  fst (lookup_single_locale key lc ts)
  = Return (pattern_cache ts !! lc ≫= fun keys => keys !! key).
Proof.
  unfold lookup_single_locale, mbind at 1. unfold Py_bind, bind, get_service.
  destruct (pattern_cache ts !! lc) as [keys|]; [|reflexivity].
  simpl. destruct (keys !! key); reflexivity.
Qed.

Lemma register_message_pattern_cache key locale pattern ts formatter :
  parse pattern = Ok formatter ->
  pattern_cache (snd (register_message key locale pattern ts))
  = <[locale := <[key := formatter]> (default ∅ (pattern_cache ts !! locale))]>
      (pattern_cache ts).
Proof.
  intros Hparse. unfold register_message. rewrite Hparse.
  simpl. apply insert_insert_eq.
Qed.

(** X1: after a registration that parses, the catalog holds the new
    formatter under the registered key and locale, in place of an
    earlier one, and every other key and locale reads as before. *)
Theorem register_message_lookup key locale pattern ts formatter k lc :
  parse pattern = Ok formatter ->
  fst (lookup_single_locale k lc (snd (register_message key locale pattern ts)))
  = if decide (k = key /\ lc = locale) then Return (Some formatter)
    else fst (lookup_single_locale k lc ts).
Proof.
  intros Hparse. rewrite !lookup_single_locale_run.
  rewrite (register_message_pattern_cache _ _ _ _ _ Hparse).
  destruct (decide (lc = locale)) as [->|Hlc].
  - rewrite lookup_insert_eq. simpl.
    destruct (decide (k = key)) as [->|Hk].
    + rewrite lookup_insert_eq. rewrite decide_True by auto. reflexivity.
    + rewrite lookup_insert_ne by congruence. rewrite decide_False by tauto.
      destruct (pattern_cache ts !! locale); reflexivity.
  - rewrite lookup_insert_ne by congruence. rewrite decide_False by tauto. reflexivity.
Qed.

Lemma register_message_lookup_witness :
  fst (lookup_single_locale "greeting" "en"
         (snd (register_message "greeting" "en" (VStr "hello") TestBasics.service)))
  = Return (Some (mkMessageFormatter [TextFragment "hello"])).
Proof.
  rewrite (register_message_lookup "greeting" "en" (VStr "hello") TestBasics.service
             (mkMessageFormatter [TextFragment "hello"]) "greeting" "en" eq_refl).
  reflexivity.
Defined.

(** X2: a registration whose pattern does not parse raises the error of
    the parser and leaves every lookup in the catalog as it was. *)
Theorem register_message_failure key locale pattern ts e :
  parse pattern = Error e ->
  fst (register_message key locale pattern ts) = Raise e
  /\ forall k lc,
      fst (lookup_single_locale k lc (snd (register_message key locale pattern ts)))
      = fst (lookup_single_locale k lc ts).
Proof.
  intros Hparse. unfold register_message. rewrite Hparse. split; [reflexivity|].
  intros k lc. rewrite !lookup_single_locale_run. simpl.
  destruct (decide (lc = locale)) as [->|Hlc].
  - rewrite lookup_insert_eq. destruct (pattern_cache ts !! locale); [reflexivity|].
    simpl. rewrite lookup_empty. reflexivity.
  - rewrite lookup_insert_ne by congruence. reflexivity.
Qed.

Lemma register_message_failure_witness :
  fst (register_message "greeting" "en" (VList [VInt 3]) TestBasics.service)
  = Raise (I18nException (ErrorParsing (VList [VInt 3]))
             (Some (I18nException (UnsupportedPart (VInt 3)) None)))
  /\ forall k lc,
      fst (lookup_single_locale k lc
             (snd (register_message "greeting" "en" (VList [VInt 3]) TestBasics.service)))
      = fst (lookup_single_locale k lc TestBasics.service).
Proof.
  apply (register_message_failure "greeting" "en" (VList [VInt 3]) TestBasics.service).
  reflexivity.
Defined.

Lemma fallback_chain_head default requested :
  exists rest, LocaleFallbackStrategy.apply default (Some requested) = requested :: rest.
Proof.
  unfold LocaleFallbackStrategy.apply. rewrite split_locale_truncations.
  destruct default as [d|].
  - rewrite split_locale_truncations. eexists. reflexivity.
  - simp split_locale. eexists. reflexivity.
Qed.

(** X3: a pattern registered as a plain string is returned verbatim,
    without interpolation, by every translation of a request with that
    key that works at the registered locale, whatever arguments the
    request carries. *)
Theorem register_translate_round_trip runtime ts key locale text m l :
  I18NMessage_key m = key ->
  effective_locale ts m l = Some locale ->
  fst (translate runtime (snd (register_message key locale (VStr text) ts)) m l)
  = Return text.
Proof.
  intros Hkey Heff.
  set (ts' := snd (register_message key locale (VStr text) ts)).
  assert (Hpc : pattern_cache ts'
                = <[locale := <[key := mkMessageFormatter [TextFragment text]]>
                                (default ∅ (pattern_cache ts !! locale))]>
                    (pattern_cache ts))
    by (apply register_message_pattern_cache; reflexivity).
  assert (Heff' : effective_locale ts' m l = Some locale) by exact Heff.
  assert (Hentry : catalog_entry ts' (I18NMessage_key m) (effective_locale ts' m l)
                   = Some (locale, mkMessageFormatter [TextFragment text])).
  { rewrite Heff', Hkey. unfold catalog_entry. rewrite Hpc.
    destruct (fallback_chain_head (default_locale ts') locale) as [rest ->].
    cbn [catalog_find]. rewrite lookup_insert_eq. cbn [mbind option_bind].
    rewrite lookup_insert_eq. reflexivity. }
  unfold translate.
  destruct (translate_depth m) as [|n] eqn:Hdepth;
    [pose proof (translate_depth_pos m); lia|].
  rewrite (translate_fuel_text runtime n m l ts' locale text Hentry). reflexivity.
Qed.

Lemma register_translate_round_trip_witness :
  fst (translate minimal_runtime
         (snd (register_message "test_basics.hello" "it" (VStr "{name}: %d {{0}}")
                 TestBasics.service))
         (TestBasics.hello (VStr "user")) (Some "it"))
  = Return "{name}: %d {{0}}".
Proof.
  apply (register_translate_round_trip minimal_runtime TestBasics.service
           "test_basics.hello" "it" "{name}: %d {{0}}" (TestBasics.hello (VStr "user"))
           (Some "it")); reflexivity.
Defined.

(** ** The parser *)

Lemma parse_part_supported part :
  supported_part part = true ->
  exists fragment, parse_part part = Ok fragment /\ fragment_for part fragment.
Proof.
  destruct part as [| | | |text| | |entries| |]; try discriminate; simpl.
  - intros _. eexists. split; reflexivity.
  - destruct (dict_get entries "arg") as [arg|]; [|discriminate].
    intros _. eexists. split; [reflexivity|]. exists entries. split; reflexivity.
Qed.

Lemma parse_part_unsupported part :
  supported_part part = false -> parse_part part = Error (part_error part).
Proof.
  destruct part as [| | | |text| |items|entries| |]; try discriminate; simpl;
    try reflexivity.
  - intros _. destruct items as [|a [|b rest]]; reflexivity.
  - destruct (dict_get entries "arg"); [discriminate | reflexivity].
Qed.

Lemma parse0_supported parts :
  forallb supported_part parts = true ->
  exists fragments, parse0 parts = Ok fragments /\ Forall2 fragment_for parts fragments.
Proof.
  induction parts as [|part rest IH]; simpl.
  - intros _. exists []. split; [reflexivity | constructor].
  - intros H. apply andb_prop in H as [Hpart Hrest].
    destruct (IH Hrest) as (fragments & Hparse & Hall). rewrite Hparse.
    destruct (parse_part_supported part Hpart) as (fragment & -> & Hfor).
    eexists. split; [reflexivity|]. constructor; assumption.
Qed.

Lemma parse0_unsupported parts :
  forallb supported_part parts = false ->
  exists before part after,
    parts = before ++ part :: after
    /\ forallb supported_part before = true
    /\ supported_part part = false
    /\ parse0 parts = Error (part_error part).
Proof.
  induction parts as [|part rest IH]; simpl; [discriminate|].
  destruct (supported_part part) eqn:Hpart; simpl.
  - intros Hrest. destruct (IH Hrest) as (before & bad & after & -> & Hbefore & Hbad & Hparse).
    exists (part :: before), bad, after. simpl. rewrite Hpart, Hbefore, Hparse.
    destruct (parse_part_supported part Hpart) as (fragment & -> & _). auto.
  - intros _. exists [], part, rest. rewrite (parse_part_unsupported part Hpart). auto.
Qed.

(** X4: the parser accepts a list or tuple of parts exactly when every
    part is a string or a dictionary with the key ['arg']; it then
    builds one fragment for each part, in order, a text fragment with
    the text of a string and an argument fragment with the remaining
    entries of a dictionary as options.  Any other list or tuple is
    refused with the error of the parser, which carries the pattern, and
    whose cause is the error of the first part that is not supported. *)
Theorem parse_list pattern parts :
  pattern = VList parts \/ pattern = VTuple parts ->
  (forallb supported_part parts = true ->
   exists fragments,
     parse pattern = Ok (mkMessageFormatter fragments)
     /\ Forall2 fragment_for parts fragments)
  /\ (forallb supported_part parts = false ->
      exists before part after,
        parts = before ++ part :: after
        /\ forallb supported_part before = true
        /\ supported_part part = false
        /\ parse pattern
           = Error (I18nException (ErrorParsing pattern) (Some (part_error part)))).
Proof.
  intros Hpattern.
  assert (Hparse : parse pattern
                   = match parse0 parts with
                     | Ok fragments => Ok (mkMessageFormatter fragments)
                     | Error e => Error (I18nException (ErrorParsing pattern) (Some e))
                     end)
    by (destruct Hpattern as [-> | ->]; reflexivity).
  rewrite Hparse. split; intros H.
  - destruct (parse0_supported parts H) as (fragments & -> & Hall).
    exists fragments. split; [reflexivity | exact Hall].
  - destruct (parse0_unsupported parts H)
      as (before & part & after & Hparts & Hbefore & Hpart & ->).
    exists before, part, after. auto.
Qed.

Lemma parse_list_witness :
  exists before part after,
    [VStr "Hello, "; VTuple [VStr "name"; VStr "type"]; VInt 3]
    = before ++ part :: after
    /\ forallb supported_part before = true
    /\ supported_part part = false
    /\ parse (VList [VStr "Hello, "; VTuple [VStr "name"; VStr "type"]; VInt 3])
       = Error (I18nException
                  (ErrorParsing
                     (VList [VStr "Hello, "; VTuple [VStr "name"; VStr "type"]; VInt 3]))
                  (Some (part_error part))).
Proof.
  apply (parse_list
           (VList [VStr "Hello, "; VTuple [VStr "name"; VStr "type"]; VInt 3])
           [VStr "Hello, "; VTuple [VStr "name"; VStr "type"]; VInt 3]).
  - left. reflexivity.
  - reflexivity.
Defined.

(** X5: what the parser does with a pattern that is neither a list nor
    a tuple.  A string is one text fragment and is not iterated.  A
    dictionary is iterated as its keys, so it parses to one text
    fragment for each key, in order, and its values are ignored.
    [None], a number or a request cannot be iterated: the parser raises
    its own error, which carries the pattern and has the [TypeError] as
    its cause. *)
Theorem parse_other_patterns pattern :
  match pattern with
  | VStr text => parse pattern = Ok (mkMessageFormatter [TextFragment text])
  | VDict entries =>
      parse pattern = Ok (mkMessageFormatter (map TextFragment (dict_keys entries)))
  | _ =>
      not_iterable pattern = true ->
      parse pattern
      = Error (I18nException (ErrorParsing pattern)
                 (Some (Builtin TypeError "object is not iterable")))
  end.
Proof.
  destruct pattern as [| | | |text| | |entries| |]; try discriminate;
    try (intros _; reflexivity); [reflexivity|].
  change (parse (VDict entries))
    with (match parse0 (map VStr (dict_keys entries)) with
          | Ok fragments => MessageFormatter_init (FragmentList fragments)
          | Error e => Error (I18nException (ErrorParsing (VDict entries)) (Some e))
          end).
  assert (H : parse0 (map VStr (dict_keys entries))
              = Ok (map TextFragment (dict_keys entries))).
  { induction (dict_keys entries) as [|key rest IH]; [reflexivity|].
    simpl. rewrite IH. reflexivity. }
  rewrite H. reflexivity.
Qed.

Lemma parse_other_patterns_witness :
  parse (VInt 3)
  = Error (I18nException (ErrorParsing (VInt 3))
             (Some (Builtin TypeError "object is not iterable"))).
Proof. apply (parse_other_patterns (VInt 3)). reflexivity. Defined.

(** ** Missing texts and locales *)

(** X6: with the strategy that fails on missing texts, translating a
    request whose key has no entry along the fallback chain raises the
    error of [translate] with the missing-text error as its cause, and
    logs only the search. *)
Theorem fail_strategy_missing_text_raises runtime ts m l :
  missing_text_strategy ts = FailOnMissingTextsStrategy ->
  catalog_entry ts (I18NMessage_key m) (effective_locale ts m l) = None ->
  translate runtime ts m l
  = (Raise (I18nException
              (ErrorTranslating (VMessage m) (effective_locale ts m l))
              (Some (I18nException (MissingTextFor (I18NMessage_key m)) None))),
     logged ts [LookingFor (I18NMessage_key m)
                  (LocaleFallbackStrategy.apply (default_locale ts)
                     (effective_locale ts m l))]).
Proof.
  intros Hstrategy Hmissing. unfold translate.
  destruct (translate_depth m) as [|n] eqn:Hdepth;
    [pose proof (translate_depth_pos m); lia|].
  rewrite translate_fuel_unfold.
  unfold try_except, translate_at. unfold mbind, Py_bind, bind.
  rewrite (lookup_message_missing _ _ _ _ Hmissing), Hstrategy. reflexivity.
Qed.

Lemma fail_strategy_missing_text_witness :
  translate minimal_runtime TestBasics.service (message "test_basics.unknown") (Some "de_CH")
  = (Raise (I18nException
              (ErrorTranslating (VMessage (message "test_basics.unknown")) (Some "de_CH"))
              (Some (I18nException (MissingTextFor "test_basics.unknown") None))),
     logged TestBasics.service
       [LookingFor "test_basics.unknown" ["de_CH"; "de"; "en_US"; "en"]]).
Proof.
  apply (fail_strategy_missing_text_raises minimal_runtime TestBasics.service
           (message "test_basics.unknown") (Some "de_CH")); reflexivity.
Defined.

(** X7: a service without a default locale searches no locale at all
    for a request that has no preferred locale and is translated without
    a locale: whatever the catalog holds, the call takes the missing-text
    path. *)
Theorem no_locale_finds_nothing runtime ts m :
  default_locale ts = None ->
  I18NMessage_locale m = None ->
  missing_text_strategy ts = FailOnMissingTextsStrategy ->
  translate runtime ts m None
  = (Raise (I18nException (ErrorTranslating (VMessage m) None)
              (Some (I18nException (MissingTextFor (I18NMessage_key m)) None))),
     logged ts [LookingFor (I18NMessage_key m) []]).
Proof.
  intros Hdefault Hlocale Hstrategy.
  assert (Heff : effective_locale ts m None = None)
    by (unfold effective_locale; rewrite Hlocale; exact Hdefault).
  assert (Hchain : LocaleFallbackStrategy.apply (default_locale ts) None = [])
    by (rewrite Hdefault; reflexivity).
  assert (Hmissing : catalog_entry ts (I18NMessage_key m) (effective_locale ts m None) = None)
    by (unfold catalog_entry; rewrite Heff, Hchain; reflexivity).
  unfold translate.
  destruct (translate_depth m) as [|n] eqn:Hdepth;
    [pose proof (translate_depth_pos m); lia|].
  rewrite translate_fuel_unfold.
  unfold try_except, translate_at. unfold mbind, Py_bind, bind.
  rewrite (lookup_message_missing _ _ _ _ Hmissing), Hstrategy, Heff, Hchain. reflexivity.
Qed.

Lemma no_locale_finds_nothing_witness :
  translate minimal_runtime
    (register_messages TestBasics.entries (new_service None FailOnMissingTextsStrategy))
    TestBasics.color None
  = (Raise (I18nException (ErrorTranslating (VMessage TestBasics.color) None)
              (Some (I18nException (MissingTextFor "test_basics.color") None))),
     logged (register_messages TestBasics.entries
               (new_service None FailOnMissingTextsStrategy))
       [LookingFor "test_basics.color" []]).
Proof.
  apply (no_locale_finds_nothing minimal_runtime
           (register_messages TestBasics.entries
              (new_service None FailOnMissingTextsStrategy)) TestBasics.color);
    reflexivity.
Defined.

Lemma translate_with_locale_agrees runtime ts m p l :
  effective_locale ts (with_locale m p) l
  = effective_locale ts m (effective_locale ts (with_locale m p) l) ->
  same_translation (with_locale m p) m (effective_locale ts (with_locale m p) l)
    (translate runtime ts (with_locale m p) l)
    (translate runtime ts m (effective_locale ts (with_locale m p) l)).
Proof.
  intros Heff. unfold translate. rewrite with_locale_depth.
  destruct (translate_depth m) as [|n] eqn:Hdepth;
    [pose proof (translate_depth_pos m); lia|].
  rewrite !translate_fuel_unfold. rewrite <- Heff.
  unfold try_except. rewrite translate_at_with_locale.
  destruct (translate_at _ _ _ _ ts) as [[text|e|] ts1];
    unfold same_translation; cbv [fst snd raise]; split; eauto.
Qed.

(** X8: the locale passed to [translate] takes precedence over the
    locale a request prefers, and the preferred locale is used when no
    locale is passed: translating [m.with_locale(p)] at [l] is
    translating [m] at [l], and translating [m.with_locale(p)] without a
    locale is translating [m] at [p]. *)
Theorem translate_locale_precedence runtime ts m (p l : string) (q : option string) :
  same_translation (with_locale m q) m (Some l)
    (translate runtime ts (with_locale m q) (Some l))
    (translate runtime ts m (Some l))
  /\ same_translation (with_locale m (Some p)) m (Some p)
       (translate runtime ts (with_locale m (Some p)) None)
       (translate runtime ts m (Some p)).
Proof.
  split.
  - apply (translate_with_locale_agrees runtime ts m q (Some l)). reflexivity.
  - pose proof (translate_with_locale_agrees runtime ts m (Some p) None) as H.
    destruct m as [k l0 a kw]. apply H. reflexivity.
Qed.



(** ** The fallback chain *)

(** X10: a locale is searched exactly when it is the requested locale,
    the default locale, or a prefix of one of them that an underscore
    follows. *)
Theorem fallback_chain_members (default requested candidate : string) :
  In candidate (LocaleFallbackStrategy.apply (Some default) (Some requested))
  <-> candidate = requested
      \/ (exists rest, requested = candidate +:+ String "_" rest)
      \/ candidate = default
      \/ (exists rest, default = candidate +:+ String "_" rest).
Proof.
  unfold LocaleFallbackStrategy.apply. rewrite !split_locale_truncations.
  rewrite !in_app_iff. unfold FallbackSpec.truncations. simpl In.
  rewrite <- !in_rev, !cut_points_spec.
  intuition (subst; auto).
Qed.

(** ** Dispatch of the built-in types *)

Lemma builtin_type_determined d : In d builtin_delegates -> type_determined d.
Proof.
  intros Hin v v' Hty.
  repeat (destruct Hin as [<-|Hin];
          [apply can_handle_builtin_type; [reflexivity | exact Hty]|]).
  destruct Hin.
Qed.

(** The factory a well-formed service uses for a value that a built-in
    factory accepts. *)
Lemma create_formatter_builtin ts locale inst options d :
  well_formed ts ->
  first_match builtin_delegates inst = Some d ->
  exists ts',
    create_formatter locale inst options ts
    = (outcome_of (delegate_create_formatter d locale options), ts')
    /\ same_configuration ts ts'.
Proof.
  intros [[extensions Hdelegates] Hd] Hbuiltin.
  pose proof (first_match_app _ extensions _ _ Hbuiltin) as Hscan.
  rewrite <- Hdelegates in Hscan.
  unfold create_formatter, mbind, Py_bind, bind, get_service.
  destruct (cache ts !! type inst) as [d'|] eqn:Ecache.
  - destruct (Hd _ _ Ecache) as (v & Hty & Hfm).
    assert (Hv : first_match builtin_delegates v = Some d).
    { rewrite <- Hbuiltin.
      apply first_match_type_determined; [apply builtin_type_determined | exact Hty]. }
    apply (first_match_app _ extensions) in Hv. rewrite <- Hdelegates, Hfm in Hv.
    injection Hv as ->. exists ts. split; [|apply same_configuration_refl].
    destruct (delegate_create_formatter d locale options); reflexivity.
  - rewrite Hscan. exists (set_cache ts (<[type inst := d]> (cache ts))).
    split; [|repeat split].
    destruct (delegate_create_formatter d locale options); reflexivity.
Qed.

(** X11: extensions cannot take over the built-in types.  On a
    well-formed service, whatever factories have been registered and
    whatever was translated before, a string goes to the string
    formatter, a request to the message formatter, a list or tuple to
    the list formatter and an [int], [bool] or [float] to the number
    formatter, each created for the ambient locale. *)
Theorem builtin_types_dispatch ts locale inst :
  well_formed ts ->
  (isinstance_str inst = true ->
   fst (create_formatter locale inst [] ts) = Return StringFormatter)
  /\ (isinstance_I18NMessage inst = true ->
      fst (create_formatter locale inst [] ts) = Return (I18nMessageFormatter locale))
  /\ (isinstance_list_tuple inst = true ->
      forall options,
        existsb (fun k => member k ["self"; "locale"; "ts"]) (dict_keys options) = false ->
        fst (create_formatter locale inst options ts)
        = Return (ListFormatter locale options))
  /\ (isinstance_int_float inst = true ->
      forall plural,
        fst (create_formatter locale inst [("plural", plural)] ts)
        = Return (NumberFormatter locale plural)).
Proof.
  intros Hwf. repeat split.
  - intros H. destruct inst; try discriminate.
    destruct (create_formatter_builtin ts locale (VStr s) [] StringFormatterFactory
                Hwf eq_refl) as (ts' & -> & _). reflexivity.
  - intros H. destruct inst; try discriminate.
    destruct (create_formatter_builtin ts locale (VMessage m) []
                I18nMessageFormatterFactory Hwf eq_refl) as (ts' & -> & _). reflexivity.
  - intros H options Hoptions.
    assert (Hscan : first_match builtin_delegates inst = Some ListFormatterFactory)
      by (destruct inst; try discriminate; reflexivity).
    destruct (create_formatter_builtin ts locale inst options ListFormatterFactory
                Hwf Hscan) as (ts' & -> & _).
    unfold delegate_create_formatter. rewrite Hoptions. reflexivity.
  - intros H plural.
    assert (Hscan : first_match builtin_delegates inst = Some NumberFormatterFactory)
      by (destruct inst; try discriminate; reflexivity).
    destruct (create_formatter_builtin ts locale inst [("plural", plural)]
                NumberFormatterFactory Hwf Hscan) as (ts' & -> & _).
    reflexivity.
Qed.

Lemma builtin_types_dispatch_witness :
  fst (create_formatter (Some "en") (VTuple [VStr "a"]) [("type", VStr "or")]
         Thermometer.used_service)
  = Return (ListFormatter (Some "en") [("type", VStr "or")]).
Proof.
  assert (Hwf : well_formed Thermometer.used_service).
  { apply translate_well_formed, register_well_formed, register_message_well_formed,
      new_service_well_formed. }
  apply (proj1 (proj2 (proj2 (builtin_types_dispatch Thermometer.used_service (Some "en")
                                (VTuple [VStr "a"]) Hwf))) eq_refl).
  reflexivity.
Defined.

(** X12: the string and the message formatter take no options.  On a
    well-formed service, a fragment that passes any option for an
    argument that is a string or a request fails with a [TypeError]. *)
Theorem options_refused_for_text ts locale inst option options :
  well_formed ts ->
  isinstance_str inst = true \/ isinstance_I18NMessage inst = true ->
  fst (create_formatter locale inst (option :: options) ts) = Raise unexpected_keyword.
Proof.
  intros Hwf [H|H]; destruct inst; try discriminate.
  - destruct (create_formatter_builtin ts locale (VStr s) (option :: options)
                StringFormatterFactory Hwf eq_refl) as (ts' & -> & _). reflexivity.
  - destruct (create_formatter_builtin ts locale (VMessage m) (option :: options)
                I18nMessageFormatterFactory Hwf eq_refl) as (ts' & -> & _). reflexivity.
Qed.

Lemma options_refused_for_text_witness :
  fst (create_formatter (Some "en") (VStr "a") [("type", VStr "or")] TestBasics.service)
  = Raise unexpected_keyword.
Proof.
  apply (options_refused_for_text TestBasics.service (Some "en") (VStr "a")
           ("type", VStr "or") []).
  - split; [exists []; reflexivity|].
    apply register_messages_consistent, new_service_consistent.
  - left. reflexivity.
Defined.

(** X13: a service without extensions has no formatter for a value
    that is not a string, a request, a list, a tuple or a number:
    dispatch raises the no-factory error, which names the type and the
    value, and the service stays as it is. *)
Theorem no_factory_for_other_types ts locale inst options :
  delegates ts = builtin_delegates ->
  dispatch_consistent ts ->
  first_match builtin_delegates inst = None ->
  create_formatter locale inst options ts
  = (Raise (I18nException (NoFactoryCanHandle (type inst) inst) None), ts).
Proof.
  intros Hdelegates Hd Hscan.
  unfold create_formatter, mbind, Py_bind, bind, get_service.
  destruct (cache ts !! type inst) as [d|] eqn:Ecache.
  - destruct (Hd _ _ Ecache) as (v & Hty & Hfm). rewrite Hdelegates in Hfm.
    rewrite (first_match_type_determined builtin_delegates v inst
               builtin_type_determined Hty), Hscan in Hfm. discriminate.
  - rewrite Hdelegates, Hscan. reflexivity.
Qed.

Lemma no_factory_for_other_types_witness :
  create_formatter (Some "en") VNone [] TestBasics.service
  = (Raise (I18nException (NoFactoryCanHandle NoneType VNone) None), TestBasics.service).
Proof.
  apply (no_factory_for_other_types TestBasics.service (Some "en") VNone []).
  - reflexivity.
  - apply register_messages_consistent, new_service_consistent.
  - reflexivity.
Defined.

(** ** What [translate] leaves alone *)

Lemma grown_from_refl ts : grown_from ts ts.
Proof.
  split; [apply same_configuration_refl|]. split; [auto|].
  exists []. symmetry. apply app_nil_r.
Qed.

Lemma grown_from_trans ts1 ts2 ts3 :
  grown_from ts1 ts2 -> grown_from ts2 ts3 -> grown_from ts1 ts3.
Proof.
  intros (Hc1 & Hk1 & more1 & Hl1) (Hc2 & Hk2 & more2 & Hl2).
  split; [eapply same_configuration_trans; eassumption|]. split; [auto|].
  exists (more1 ++ more2). rewrite Hl2, Hl1, app_assoc. reflexivity.
Qed.

Lemma grows_ret {A} (a : A) : grows (mret a).
Proof. intros ts. apply grown_from_refl. Qed.

Lemma grows_raise {A} e : grows (@raise A e).
Proof. intros ts. apply grown_from_refl. Qed.

Lemma grows_out_of_fuel {A} : grows (@out_of_fuel A).
Proof. intros ts. apply grown_from_refl. Qed.

Lemma grows_lift {A} (r : Result A) : grows (lift r).
Proof. intros ts. destruct r; apply grown_from_refl. Qed.

Lemma grows_get_service : grows get_service.
Proof. intros ts. apply grown_from_refl. Qed.

Lemma grows_log_record r : grows (log_record r).
Proof.
  intros ts. split; [repeat split|]. split; [auto|]. exists [r]. reflexivity.
Qed.

Lemma grows_bind {A B} (c : Py A) (k : A -> Py B) :
  grows c -> (forall a, grows (k a)) -> grows (c ≫= k).
Proof.
  intros Hc Hk ts. specialize (Hc ts). unfold mbind, Py_bind, bind.
  destruct (c ts) as [[a|e|] ts1]; simpl in *; try exact Hc.
  eapply grown_from_trans; [exact Hc | apply Hk].
Qed.

Lemma grows_try_except {A} (c : Py A) handler :
  grows c -> (forall e, grows (handler e)) -> grows (try_except c handler).
Proof.
  intros Hc Hh ts. specialize (Hc ts). unfold try_except.
  destruct (c ts) as [[a|e|] ts1]; simpl in *; try exact Hc.
  eapply grown_from_trans; [exact Hc | apply Hh].
Qed.

Lemma grows_try_except_I18nException {A} (c : Py A) handler :
  grows c -> (forall e, grows (handler e)) -> grows (try_except_I18nException c handler).
Proof.
  intros Hc Hh ts. specialize (Hc ts). unfold try_except_I18nException.
  destruct (c ts) as [[a|e|] ts1]; simpl in *; try exact Hc.
  destruct (is_I18nException e); [|exact Hc].
  eapply grown_from_trans; [exact Hc | apply Hh].
Qed.

Lemma grows_for_each {A B} (f : A -> Py B) (items : list A) :
  (forall item, grows (f item)) -> grows (for_each f items).
Proof.
  intros Hf. induction items as [|item rest IH]; simpl.
  - apply grows_ret.
  - apply grows_bind; [apply Hf|]. intros b.
    apply grows_bind; [exact IH|]. intros bs. apply grows_ret.
Qed.

Lemma grows_create_formatter locale inst options :
  grows (create_formatter locale inst options).
Proof.
  intros ts. unfold create_formatter, mbind, Py_bind, bind, get_service.
  destruct (cache ts !! type inst) as [d|] eqn:Ecache.
  - destruct (delegate_create_formatter d locale options); apply grown_from_refl.
  - destruct (first_match (delegates ts) inst) as [d|]; [|apply grown_from_refl].
    assert (H : grown_from ts (set_cache ts (<[type inst := d]> (cache ts)))).
    { split; [repeat split|]. split.
      - intros t d0 Ht. simpl. rewrite lookup_insert_ne; [exact Ht | congruence].
      - exists []. symmetry. apply app_nil_r. }
    simpl. destruct (delegate_create_formatter d locale options); exact H.
Qed.

Ltac grows_step :=
  match goal with
  | |- grows (mret _) => apply grows_ret
  | |- grows (ret _) => apply (grows_ret _)
  | |- grows (raise _) => apply grows_raise
  | |- grows (lift _) => apply grows_lift
  | |- grows out_of_fuel => apply grows_out_of_fuel
  | |- grows get_service => apply grows_get_service
  | |- grows (log_record _) => apply grows_log_record
  | |- grows (create_formatter _ _ _) => apply grows_create_formatter
  | |- grows (_ ≫= _) => apply grows_bind; [|intros ?]
  | |- grows (try_except _ _) => apply grows_try_except; [|intros ?]
  | |- grows (try_except_I18nException _ _) =>
      apply grows_try_except_I18nException; [|intros ?]
  | |- grows (for_each _ _) => apply grows_for_each; intros ?
  | |- grows (match ?x with _ => _ end) => destruct x
  | H : forall _ _, grows _ |- grows _ => apply H
  end.

Lemma grows_lookup_chain key chain : grows (lookup_chain key chain).
Proof.
  induction chain as [|lc rest IH]; simpl; [apply grows_ret|].
  apply grows_bind; [|intros [formatter|]; [apply grows_ret | exact IH]].
  unfold lookup_single_locale. repeat grows_step.
Qed.

Lemma grows_lookup_message runtime v locale : grows (lookup_message runtime v locale).
Proof.
  unfold lookup_message, MissingTextStrategy_apply.
  repeat (grows_step || apply grows_lookup_chain).
Qed.

Section Growth.
Context (runtime : Runtime).
Variable translate_n : PyValue -> option string -> Py string.
Variable format_n : DetailFormatter -> PyValue -> Py PyValue.
Hypothesis translate_grows : forall v l, grows (translate_n v l).
Hypothesis format_grows : forall f v, grows (format_n f v).

Lemma grows_append_all fragments : forall buffer locale args kwargs,
  grows (append_all runtime format_n fragments buffer locale args kwargs).
Proof.
  induction fragments as [|fragment rest IH]; intros; simpl.
  - apply (grows_ret _).
  - apply grows_bind; [|intros ?; apply IH].
    unfold append_to. repeat grows_step.
Qed.

Lemma grows_TranslationService_translate v l :
  grows (TranslationService_translate runtime format_n v l).
Proof.
  unfold TranslationService_translate, translate_at, MessageFormatter_format.
  repeat (grows_step || apply grows_append_all || apply grows_lookup_message).
Qed.

Lemma grows_get_plural_message l base tag :
  grows (get_plural_message translate_n l base tag).
Proof. unfold get_plural_message. repeat grows_step. Qed.

Lemma grows_DetailFormatter_format f v :
  grows (DetailFormatter_format runtime translate_n format_n f v).
Proof.
  unfold DetailFormatter_format, I18nMessageFormatter_format, ListFormatter_format,
    NumberFormatter_format, process.
  repeat (grows_step || apply grows_get_plural_message).
Qed.

End Growth.

Lemma grows_fuel runtime n :
  (forall v l, grows (translate_fuel runtime n v l))
  /\ (forall f v, grows (format_fuel runtime n f v)).
Proof.
  induction n as [|n [IHt IHf]].
  - split; intros; apply grows_out_of_fuel.
  - split; intros; simpl.
    + apply grows_TranslationService_translate; assumption.
    + apply grows_DetailFormatter_format; assumption.
Qed.

(** X14: whatever the request and however it ends, [translate] leaves
    the default locale, the missing-text strategy, the catalog and the
    list of factories as they were, keeps every entry of the dispatch
    cache, and only appends to the log. *)
Theorem translate_only_grows runtime ts m l :
  grown_from ts (snd (translate runtime ts m l)).
Proof. unfold translate. apply (proj1 (grows_fuel runtime _)). Qed.

(** ** The memo is transparent when factories decide by type *)

Lemma same_dispatch_refl ts :
  dispatch_consistent ts -> (forall d, In d (delegates ts) -> type_determined d) ->
  same_dispatch ts ts.
Proof. intros Hd Hall. split; [apply same_configuration_refl|]. auto. Qed.

Lemma same_dispatch_step ts ts' ts1 ts1' :
  same_dispatch ts ts' -> configured_as ts ts1 -> configured_as ts' ts1' ->
  same_dispatch ts1 ts1'.
Proof.
  intros (Hc & Hd & Hd' & Hall) [Hc1 Hd1] [Hc1' Hd1'].
  unfold same_dispatch, same_configuration in *.
  destruct Hc as (? & ? & ? & ?), Hc1 as (? & ? & ? & Hdel), Hc1' as (? & ? & ? & ?).
  repeat split; try congruence; try assumption.
  intros d Hin. apply Hall. rewrite <- Hdel. exact Hin.
Qed.

Lemma memo_independent_ret {A} (a : A) : memo_independent (mret a).
Proof. intros ts ts' H. split; [reflexivity | exact H]. Qed.

Lemma memo_independent_raise {A} e : memo_independent (@raise A e).
Proof. intros ts ts' H. split; [reflexivity | exact H]. Qed.

Lemma memo_independent_out_of_fuel {A} : memo_independent (@out_of_fuel A).
Proof. intros ts ts' H. split; [reflexivity | exact H]. Qed.

Lemma memo_independent_lift {A} (r : Result A) : memo_independent (lift r).
Proof. intros ts ts' H. destruct r; (split; [reflexivity | exact H]). Qed.

Lemma memo_independent_log_record r : memo_independent (log_record r).
Proof. intros ts ts' H. split; [reflexivity | exact H]. Qed.

Lemma memo_independent_bind {A B} (c : Py A) (k : A -> Py B) :
  memo_independent c -> (forall a, memo_independent (k a)) -> memo_independent (c ≫= k).
Proof.
  intros Hc Hk ts ts' H. destruct (Hc ts ts' H) as [Hfst Hsnd].
  unfold mbind, Py_bind, bind.
  destruct (c ts) as [[a|e|] ts1], (c ts') as [[a'|e'|] ts1']; simpl in *;
    try discriminate; try (split; [congruence | exact Hsnd]).
  injection Hfst as <-. apply Hk, Hsnd.
Qed.

Lemma memo_independent_try_except {A} (c : Py A) handler :
  memo_independent c -> (forall e, memo_independent (handler e)) ->
  memo_independent (try_except c handler).
Proof.
  intros Hc Hh ts ts' H. destruct (Hc ts ts' H) as [Hfst Hsnd].
  unfold try_except.
  destruct (c ts) as [[a|e|] ts1], (c ts') as [[a'|e'|] ts1']; simpl in *;
    try discriminate; try (split; [congruence | exact Hsnd]).
  injection Hfst as <-. apply Hh, Hsnd.
Qed.

Lemma memo_independent_try_except_I18nException {A} (c : Py A) handler :
  memo_independent c -> (forall e, memo_independent (handler e)) ->
  memo_independent (try_except_I18nException c handler).
Proof.
  intros Hc Hh ts ts' H. destruct (Hc ts ts' H) as [Hfst Hsnd].
  unfold try_except_I18nException.
  destruct (c ts) as [[a|e|] ts1], (c ts') as [[a'|e'|] ts1']; simpl in *;
    try discriminate; try (split; [congruence | exact Hsnd]).
  injection Hfst as <-.
  destruct (is_I18nException e); [apply Hh, Hsnd | split; [reflexivity | exact Hsnd]].
Qed.

Lemma memo_independent_for_each {A B} (f : A -> Py B) (items : list A) :
  (forall item, memo_independent (f item)) -> memo_independent (for_each f items).
Proof.
  intros Hf. induction items as [|item rest IH]; simpl.
  - apply memo_independent_ret.
  - apply memo_independent_bind; [apply Hf|]. intros b.
    apply memo_independent_bind; [exact IH|]. intros bs. apply memo_independent_ret.
Qed.

(** A computation that reads the service, and uses of it only what is
    configured. *)
Lemma memo_independent_service {A} (k : TranslationService -> Py A) :
  (forall ts ts', same_configuration ts ts' -> k ts = k ts') ->
  (forall ts0, memo_independent (k ts0)) ->
  memo_independent (get_service ≫= k).
Proof.
  intros Hk Hm ts ts' H. unfold mbind, Py_bind, bind, get_service.
  rewrite (Hk ts ts' (proj1 H)). apply Hm, H.
Qed.

(** With factories that decide by type, dispatch is the scan of the
    factory list, whatever has been memoized. *)
Lemma create_formatter_scan ts locale inst options :
  dispatch_consistent ts -> (forall d, In d (delegates ts) -> type_determined d) ->
  fst (create_formatter locale inst options ts)
  = match first_match (delegates ts) inst with
    | Some d => outcome_of (delegate_create_formatter d locale options)
    | None => Raise (I18nException (NoFactoryCanHandle (type inst) inst) None)
    end
  /\ configured_as ts (snd (create_formatter locale inst options ts)).
Proof.
  intros Hd Hall. split.
  - unfold create_formatter, mbind, Py_bind, bind, get_service.
    destruct (cache ts !! type inst) as [d|] eqn:Ecache.
    + destruct (Hd _ _ Ecache) as (v & Hty & Hfm).
      rewrite <- (first_match_type_determined (delegates ts) v inst Hall Hty), Hfm.
      destruct (delegate_create_formatter d locale options); reflexivity.
    + destruct (first_match (delegates ts) inst) as [d|]; [|reflexivity].
      simpl. destruct (delegate_create_formatter d locale options); reflexivity.
  - pose proof (triple_create_formatter ts locale inst options ts
                  (configured_as_refl ts Hd)) as H.
    destruct (create_formatter locale inst options ts) as [[a|e|] ts1];
      simpl; intuition.
Qed.

Lemma memo_independent_create_formatter locale inst options :
  memo_independent (create_formatter locale inst options).
Proof.
  intros ts ts' H. pose proof H as (Hc & Hd & Hd' & Hall).
  assert (Hdel : delegates ts' = delegates ts) by apply Hc.
  assert (Hall' : forall d, In d (delegates ts') -> type_determined d)
    by (rewrite Hdel; exact Hall).
  destruct (create_formatter_scan ts locale inst options Hd Hall) as [-> H1].
  destruct (create_formatter_scan ts' locale inst options Hd' Hall') as [-> H1'].
  split; [rewrite Hdel; reflexivity|].
  eapply same_dispatch_step; eassumption.
Qed.

Ltac memo_step :=
  match goal with
  | |- memo_independent (mret _) => apply memo_independent_ret
  | |- memo_independent (ret _) => apply (memo_independent_ret _)
  | |- memo_independent (raise _) => apply memo_independent_raise
  | |- memo_independent (lift _) => apply memo_independent_lift
  | |- memo_independent out_of_fuel => apply memo_independent_out_of_fuel
  | |- memo_independent (log_record _) => apply memo_independent_log_record
  | |- memo_independent (create_formatter _ _ _) => apply memo_independent_create_formatter
  | |- memo_independent (get_service ≫= _) =>
      apply memo_independent_service;
      [ let H := fresh in let Hl := fresh in let Hs := fresh in let Hp := fresh in
        intros ? ? H; destruct H as (Hl & Hs & Hp & _);
        cbv beta; rewrite ?Hl, ?Hs, ?Hp; reflexivity
      | intros ? ]
  | |- memo_independent (_ ≫= _) => apply memo_independent_bind; [|intros ?]
  | |- memo_independent (try_except _ _) => apply memo_independent_try_except; [|intros ?]
  | |- memo_independent (try_except_I18nException _ _) =>
      apply memo_independent_try_except_I18nException; [|intros ?]
  | |- memo_independent (for_each _ _) => apply memo_independent_for_each; intros ?
  | |- memo_independent (match ?x with _ => _ end) => destruct x
  | H : forall _ _, memo_independent _ |- memo_independent _ => apply H
  end.

Lemma memo_independent_lookup_chain key chain : memo_independent (lookup_chain key chain).
Proof.
  induction chain as [|lc rest IH]; simpl; [apply (memo_independent_ret _)|].
  apply memo_independent_bind; [|intros [formatter|]; [apply (memo_independent_ret _) | exact IH]].
  unfold lookup_single_locale. repeat memo_step.
Qed.

Lemma memo_independent_lookup_message runtime v locale :
  memo_independent (lookup_message runtime v locale).
Proof.
  unfold lookup_message, MissingTextStrategy_apply.
  repeat (memo_step || apply memo_independent_lookup_chain).
Qed.

Section MemoIndependence.
Context (runtime : Runtime).
Variable translate_n : PyValue -> option string -> Py string.
Variable format_n : DetailFormatter -> PyValue -> Py PyValue.
Hypothesis translate_independent : forall v l, memo_independent (translate_n v l).
Hypothesis format_independent : forall f v, memo_independent (format_n f v).

Lemma memo_independent_append_all fragments : forall buffer locale args kwargs,
  memo_independent (append_all runtime format_n fragments buffer locale args kwargs).
Proof.
  induction fragments as [|fragment rest IH]; intros; simpl.
  - apply (memo_independent_ret _).
  - apply memo_independent_bind; [|intros ?; apply IH].
    unfold append_to. repeat memo_step.
Qed.

Lemma memo_independent_TranslationService_translate v l :
  memo_independent (TranslationService_translate runtime format_n v l).
Proof.
  unfold TranslationService_translate, translate_at, MessageFormatter_format.
  repeat (memo_step || apply memo_independent_append_all
          || apply memo_independent_lookup_message).
Qed.

Lemma memo_independent_get_plural_message l base tag :
  memo_independent (get_plural_message translate_n l base tag).
Proof. unfold get_plural_message. repeat memo_step. Qed.

Lemma memo_independent_DetailFormatter_format f v :
  memo_independent (DetailFormatter_format runtime translate_n format_n f v).
Proof.
  unfold DetailFormatter_format, I18nMessageFormatter_format, ListFormatter_format,
    NumberFormatter_format, process.
  repeat (memo_step || apply memo_independent_get_plural_message).
Qed.

End MemoIndependence.

Lemma memo_independent_fuel runtime n :
  (forall v l, memo_independent (translate_fuel runtime n v l))
  /\ (forall f v, memo_independent (format_fuel runtime n f v)).
Proof.
  induction n as [|n [IHt IHf]].
  - split; intros; apply memo_independent_out_of_fuel.
  - split; intros; simpl.
    + apply memo_independent_TranslationService_translate; assumption.
    + apply memo_independent_DetailFormatter_format; assumption.
Qed.

(** X15: when every registered factory decides by the type of a value
    alone, what was translated before has no influence on a translation:
    after any other request was translated, a request has the outcome it
    has on the service as it was. *)
Theorem earlier_translations_do_not_matter runtime ts m1 l1 m2 l2 :
  dispatch_consistent ts ->
  (forall d, In d (delegates ts) -> type_determined d) ->
  fst (translate runtime (snd (translate runtime ts m1 l1)) m2 l2)
  = fst (translate runtime ts m2 l2).
Proof.
  intros Hd Hall.
  destruct (translate_terminates runtime ts m1 l1 Hd) as [_ Hcfg].
  symmetry. unfold translate at 1 3.
  apply (proj1 (memo_independent_fuel runtime _)).
  exact (same_dispatch_step ts ts ts _ (same_dispatch_refl ts Hd Hall)
           (configured_as_refl ts Hd) Hcfg).
Qed.

Lemma earlier_translations_do_not_matter_witness :
  fst (translate minimal_runtime
         (snd (translate minimal_runtime TestBasics.service
                 (TestBasics.hello (VStr "World")) None))
         (TestBasics.number (VInt 7)) None)
  = fst (translate minimal_runtime TestBasics.service (TestBasics.number (VInt 7)) None).
Proof.
  apply (earlier_translations_do_not_matter minimal_runtime TestBasics.service).
  - apply register_messages_consistent, new_service_consistent.
  - intros d Hin v v' Hty.
    repeat (destruct Hin as [<-|Hin]; [apply can_handle_builtin_type; [reflexivity | exact Hty]|]).
    destruct Hin.
Defined.

(** ** Rendering a pattern *)

Lemma string_append_assoc (a b c : string) : (a +:+ b) +:+ c = a +:+ (b +:+ c).
Proof.
  induction a as [|x a IH]; [reflexivity|].
  change (String x ((a +:+ b) +:+ c) = String x (a +:+ (b +:+ c))). rewrite IH. reflexivity.
Qed.

Lemma prefixed_bind {A} (c : Py A) (k1 k2 : A -> Py string) prefix ts :
  (forall a ts1, k1 a ts1 = prefixed prefix (k2 a ts1)) ->
  (c ≫= k1) ts = prefixed prefix ((c ≫= k2) ts).
Proof.
  intros Hk. unfold mbind, Py_bind, bind.
  destruct (c ts) as [[a|e|] ts1]; [apply Hk | reflexivity | reflexivity].
Qed.

(** What a fragment appends does not depend on what the buffer holds. *)
Lemma append_to_prefixed runtime format_n fragment prefix buffer locale args kwargs ts :
  append_to runtime format_n fragment (prefix +:+ buffer) locale args kwargs ts
  = prefixed prefix (append_to runtime format_n fragment buffer locale args kwargs ts).
Proof.
  destruct fragment as [text|ref options]; unfold append_to.
  - unfold mret, Py_ret, ret, prefixed. rewrite string_append_assoc. reflexivity.
  - apply prefixed_bind. intros value ts1.
    apply prefixed_bind. intros formatter ts2.
    apply prefixed_bind. intros text ts3.
    destruct text; try reflexivity.
    unfold buffer_write, lift, prefixed. rewrite string_append_assoc. reflexivity.
Qed.

Lemma append_all_prefixed runtime format_n fragments : forall prefix buffer locale args kwargs ts,
  append_all runtime format_n fragments (prefix +:+ buffer) locale args kwargs ts
  = prefixed prefix (append_all runtime format_n fragments buffer locale args kwargs ts).
Proof.
  induction fragments as [|fragment rest IH]; intros; simpl; [reflexivity|].
  unfold mbind, Py_bind, bind. rewrite append_to_prefixed.
  destruct (append_to _ _ _ buffer _ _ _ _) as [[text|e|] ts1]; simpl;
    [apply IH | reflexivity | reflexivity].
Qed.

Lemma append_all_app runtime format_n fs1 fs2 : forall buffer locale args kwargs ts,
  append_all runtime format_n (fs1 ++ fs2) buffer locale args kwargs ts
  = (append_all runtime format_n fs1 buffer locale args kwargs
     ≫= fun buffer => append_all runtime format_n fs2 buffer locale args kwargs) ts.
Proof.
  induction fs1 as [|fragment rest IH]; intros; simpl; [reflexivity|].
  unfold mbind, Py_bind, bind.
  destruct (append_to _ _ _ _ _ _ _ _) as [[text|e|] ts1]; [apply IH | reflexivity | reflexivity].
Qed.

(** X16: the text of a pattern is the text of its fragments, one after
    the other: when the first fragments render as [text1] and the rest,
    on the service the first leave, as [text2], the pattern renders as
    [text1] followed by [text2]; and when the first fragments raise, the
    pattern raises the same error and the rest is not rendered. *)
Theorem rendering_concatenates runtime format_n fs1 fs2 locale args kwargs ts :
  let first := MessageFormatter_format runtime format_n (mkMessageFormatter fs1)
                 locale args kwargs ts in
  let rest := MessageFormatter_format runtime format_n (mkMessageFormatter fs2)
                locale args kwargs (snd first) in
  MessageFormatter_format runtime format_n (mkMessageFormatter (fs1 ++ fs2))
    locale args kwargs ts
  = match fst first with
    | Return text1 => prefixed text1 rest
    | _ => first
    end.
Proof.
  intros first rest. subst rest first. unfold MessageFormatter_format. simpl fragments.
  rewrite append_all_app. unfold mbind, Py_bind, bind.
  destruct (append_all runtime format_n fs1 "" locale args kwargs ts) as [[text1|e|] ts1];
    simpl; try reflexivity.
  rewrite <- (append_empty text1) at 1. apply append_all_prefixed.
Qed.

(** ** References to arguments *)

Lemma nth_error_nth' {A} (l : list A) (n : nat) (d : A) :
  (n < length l)%nat -> nth_error l n = Some (nth n l d).
Proof.
  revert n. induction l as [|a l IH]; intros [|n] H; simpl in *; try lia; [reflexivity|].
  apply IH. lia.
Qed.

(** X17: a reference by index counts from the start of the positional
    arguments, or from their end when it is negative, and raises an
    [IndexError] when it is out of range; a reference by name reads the
    keyword arguments and raises a [KeyError] for a name that is not
    among them. *)
Theorem reference_lookup runtime (args : list PyValue) (kwargs : Dict) (i : Z) (name : string) :
  let n := Z.of_nat (length args) in
  (0 <= i < n ->
   Ref_get runtime (IndexRef i) args kwargs = Ok (nth (Z.to_nat i) args VNone))
  /\ (- n <= i < 0 ->
      Ref_get runtime (IndexRef i) args kwargs = Ok (nth (Z.to_nat (n + i)) args VNone))
  /\ (i < - n \/ n <= i ->
      Ref_get runtime (IndexRef i) args kwargs = Error (Builtin IndexError "index out of range"))
  /\ Ref_get runtime (NameRef (VStr name)) args kwargs
     = match dict_get kwargs name with
       | Some value => Ok value
       | None => Error (Builtin KeyError (PyRepr.repr runtime (VStr name)))
       end.
Proof.
  intros n. unfold Ref_get, PySeq.index. fold n. split; [|split; [|split]].
  - intros H. destruct (Z.ltb_spec i 0); [lia|].
    destruct (Z.leb_spec 0 i); [|lia]. destruct (Z.ltb_spec i n); [|lia]. simpl.
    rewrite (nth_error_nth' args (Z.to_nat i) VNone) by lia. reflexivity.
  - intros H. destruct (Z.ltb_spec i 0); [|lia].
    destruct (Z.leb_spec 0 (i + n)); [|lia]. destruct (Z.ltb_spec (i + n) n); [|lia]. simpl.
    rewrite (nth_error_nth' args (Z.to_nat (i + n)) VNone) by lia.
    replace (i + n) with (n + i) by lia. reflexivity.
  - intros H. destruct (Z.ltb_spec i 0).
    + destruct (Z.leb_spec 0 (i + n)); [|reflexivity].
      destruct (Z.ltb_spec (i + n) n); [lia | reflexivity].
    + destruct (Z.leb_spec 0 i); [|reflexivity].
      destruct (Z.ltb_spec i n); [lia | reflexivity].
  - simpl. destruct (dict_get kwargs name); reflexivity.
Qed.

Lemma reference_lookup_witness :
  Ref_get minimal_runtime (IndexRef (-1)) [VInt 1; VInt 2; VInt 3] [] = Ok (VInt 3).
Proof.
  apply (reference_lookup minimal_runtime [VInt 1; VInt 2; VInt 3] [] (-1) "n").
  simpl. lia.
Defined.

Lemma append_all_texts runtime format_n texts : forall buffer locale args kwargs ts,
  append_all runtime format_n (map TextFragment texts) buffer locale args kwargs ts
  = (Return (fold_left String.append texts buffer), ts).
Proof.
  induction texts as [|text rest IH]; intros; simpl; [reflexivity|].
  unfold mbind, Py_bind, bind, mret, ret. simpl. apply IH.
Qed.

(** X18: a request whose pattern reaches, after plain text only, a
    reference that cannot be resolved raises the error of [translate];
    its cause is what the inner handler raises for the error of the
    reference: the formatting error, which names the formatter and the
    arguments of the request and has the error of the reference as its
    cause, or, when [repr] of the formatter raises while the text of the
    formatting error is built (a reference whose name is a tuple of no
    or several items), the [TypeError] of [repr], and the error of the
    reference is lost. *)
Theorem failing_reference_raises runtime ts m l lc formatter texts ref options rest e :
  catalog_entry ts (I18NMessage_key m) (effective_locale ts m l) = Some (lc, formatter) ->
  fragments formatter = map TextFragment texts ++ ArgumentFragment ref options :: rest ->
  Ref_get runtime ref (I18NMessage_args m) (I18NMessage_kwargs m) = Error e ->
  fst (translate runtime ts m l)
  = Raise (I18nException
             (ErrorTranslating (VMessage m) (effective_locale ts m l))
             (Some (match MessageFormatter_repr runtime formatter with
                    | Ok _ =>
                        I18nException
                          (ErrorFormattingWith formatter (I18NMessage_args m)
                             (I18NMessage_kwargs m))
                          (Some e)
                    | Error e' => e'
                    end))).
Proof.
  intros Hentry Hfragments Href. unfold translate.
  destruct (translate_depth m) as [|n] eqn:Hdepth;
    [pose proof (translate_depth_pos m); lia|].
  rewrite translate_fuel_unfold. unfold try_except, translate_at.
  rewrite (bind_return _ _ _ _ _ (lookup_message_found runtime _ _ _ _ _ Hentry)).
  unfold MessageFormatter_format, try_except. rewrite Hfragments, append_all_app.
  rewrite (bind_return _ _ _ _ _ (append_all_texts _ _ _ _ _ _ _ _)).
  simpl append_all. unfold append_to.
  unfold mbind at 1 2. unfold Py_bind, bind at 1 2. rewrite Href. reflexivity.
Qed.

Lemma failing_reference_raises_witness :
  fst (translate minimal_runtime TestBasics.service
         (MkI18NMessage "test_basics.hello" None [] []) None)
  = Raise (I18nException
             (ErrorTranslating (VMessage (MkI18NMessage "test_basics.hello" None [] []))
                (Some "en_US"))
             (Some (I18nException
                      (ErrorFormattingWith
                         (mkMessageFormatter
                            [TextFragment "Hello, "; ArgumentFragment (NameRef (VStr "name")) [];
                             TextFragment "."]) [] [])
                      (Some (Builtin KeyError "'name'")))))
  /\ fst (translate minimal_runtime TupleName.service TupleName.greeting None)
     = Raise (I18nException (ErrorTranslating (VMessage TupleName.greeting) (Some "en"))
                (Some (Builtin TypeError
                         "not all arguments converted during string formatting"))).
Proof.
  split.
  - apply (failing_reference_raises minimal_runtime TestBasics.service
             (MkI18NMessage "test_basics.hello" None [] []) None "en"
             (mkMessageFormatter
                [TextFragment "Hello, "; ArgumentFragment (NameRef (VStr "name")) [];
                 TextFragment "."])
             ["Hello, "] (NameRef (VStr "name")) [] [TextFragment "."]
             (Builtin KeyError "'name'")); reflexivity.
  - apply (failing_reference_raises minimal_runtime TupleName.service TupleName.greeting
             None "en"
             (mkMessageFormatter
                [TextFragment "x"; ArgumentFragment (NameRef (VTuple [VStr "a"; VStr "b"])) []])
             ["x"] (NameRef (VTuple [VStr "a"; VStr "b"])) [] []
             (Builtin KeyError "('a', 'b')")); reflexivity.
Defined.

(** ** Showing a formatter *)

Lemma Ref_repr_resolved runtime ref args kwargs value :
  Ref_get runtime ref args kwargs = Ok value ->
  exists shown, Ref_repr runtime ref = Ok shown.
Proof.
  destruct ref as [index|name]; simpl; [eauto|].
  destruct (hashable name); [|discriminate].
  destruct name; try discriminate. simpl. eauto.
Qed.

Lemma Fragments_repr_shown runtime fragments :
  Forall (fun fragment => exists shown, Fragment_repr runtime fragment = Ok shown) fragments ->
  exists shown, Fragments_repr runtime fragments = Ok shown.
Proof.
  induction 1 as [|fragment rest [shown Hshown] _ [more Hmore]]; simpl; [eauto|].
  rewrite Hshown, Hmore. eauto.
Qed.

Lemma Fragment_repr_resolved runtime ref options args kwargs value :
  Ref_get runtime ref args kwargs = Ok value ->
  exists shown, Fragment_repr runtime (ArgumentFragment ref options) = Ok shown.
Proof.
  intros Href. destruct (Ref_repr_resolved _ _ _ _ _ Href) as [shown Hshown].
  simpl. rewrite Hshown. destruct (length options =? 0)%nat; eauto.
Qed.


(** When [repr] shows the formatter, the inner handler raises the
    formatting error. *)
Lemma formatting_error_shown runtime parts args kwargs e :
  Forall (fun fragment => exists shown, Fragment_repr runtime fragment = Ok shown) parts ->
  formatting_error runtime (mkMessageFormatter parts) args kwargs e
  = I18nException (ErrorFormattingWith (mkMessageFormatter parts) args kwargs) (Some e).
Proof.
  intros Hall. destruct (Fragments_repr_shown runtime parts Hall) as [shown Hshown].
  unfold formatting_error, MessageFormatter_repr. simpl fragments. rewrite Hshown.
  destruct shown as [|first [|second rest]]; reflexivity.
Qed.

(** ** Dates *)

Section Dates.
Variable format_date : PyValue -> PyValue -> option string -> Result string.

Lemma date_factory_type_determined :
  type_determined (Extension (Babel.DateFormatterFactory format_date)).
Proof.
  intros v v' Hty. simpl. unfold Babel.DateFormatterFactory_can_handle.
  destruct v, v'; simpl in *; try discriminate; try reflexivity.
  injection Hty as ->. reflexivity.
Qed.

Lemma requested_format_init options locale :
  Babel.BabelDateFormatter_format_
    (Babel.BabelDateFormatter_init
       (default (VStr "medium") (dict_get options "style"))
       (default VNone (dict_get options "pattern")) locale)
  = Babel.requested_format options.
Proof.
  unfold Babel.requested_format, Babel.BabelDateFormatter_init.
  destruct (dict_get options "pattern") as [[]|]; simpl;
    destruct (dict_get options "style"); reflexivity.
Qed.

Lemma date_factory_creates locale options :
  forallb (fun k => member k ["style"; "pattern"]) (dict_keys options) = true ->
  exists format_,
    delegate_create_formatter (Extension (Babel.DateFormatterFactory format_date))
      locale options
    = Ok (ExtensionFormatter format_)
    /\ forall inst, format_ inst = format_date inst (Babel.requested_format options) locale.
Proof.
  simpl delegate_create_formatter.
  unfold Babel.DateFormatterFactory_create_formatter. intros ->.
  eexists. split; [reflexivity|]. intros inst.
  unfold Babel.BabelDateFormatter_format. rewrite requested_format_init. reflexivity.
Qed.

End Dates.

(** X19: the date factory accepts the options [style] and [pattern] and
    no other.  The formatter it creates renders a date with Babel at the
    locale it was created for, in the format of the pattern when the
    fragment has one, else of the style, else ['medium']. *)
Theorem date_format_choice format_date locale options :
  let factory := Extension (Babel.DateFormatterFactory format_date) in
  (forallb (fun k => member k ["style"; "pattern"]) (dict_keys options) = true ->
   exists format_,
     delegate_create_formatter factory locale options = Ok (ExtensionFormatter format_)
     /\ forall inst, format_ inst = format_date inst (Babel.requested_format options) locale)
  /\ (forallb (fun k => member k ["style"; "pattern"]) (dict_keys options) = false ->
      delegate_create_formatter factory locale options = Error unexpected_keyword).
Proof.
  intros factory. subst factory. split; [apply date_factory_creates|].
  simpl delegate_create_formatter.
  unfold Babel.DateFormatterFactory_create_formatter. intros ->. reflexivity.
Qed.

Lemma date_format_choice_witness :
  exists format_,
    delegate_create_formatter (Extension (Babel.DateFormatterFactory Babel.echo_format_date))
      (Some "de_DE") [("pattern", VStr "yyyy-MM-dd")]
    = Ok (ExtensionFormatter format_)
    /\ forall inst,
         format_ inst
         = Babel.echo_format_date inst
             (Babel.requested_format [("pattern", VStr "yyyy-MM-dd")]) (Some "de_DE").
Proof.
  apply (date_format_choice Babel.echo_format_date (Some "de_DE")
           [("pattern", VStr "yyyy-MM-dd")]).
  reflexivity.
Defined.

(** X20: after [setup], on a service whose other extensions do not
    accept dates, a date goes to the date factory, and the built-in
    factories still come first. *)
Theorem setup_dispatches_dates format_date ts inst :
  well_formed ts ->
  Babel.isinstance_date inst = true ->
  (forall d, In d (delegates ts) -> is_builtin d = false -> can_handle d inst = false) ->
  first_match (delegates (Babel.setup format_date ts)) inst
  = Some (Extension (Babel.DateFormatterFactory format_date))
  /\ well_formed (Babel.setup format_date ts).
Proof.
  intros Hwf Hdate Hothers. split; [|apply register_well_formed, Hwf].
  unfold Babel.setup. change (delegates (register ?more ts)) with (delegates ts ++ more).
  induction (delegates ts) as [|d rest IH]; simpl.
  - unfold Babel.DateFormatterFactory_can_handle. rewrite Hdate. reflexivity.
  - assert (Hd : can_handle d inst = false).
    { destruct (is_builtin d) eqn:Hb; [|apply Hothers; [left; reflexivity | exact Hb]].
      destruct inst; try discriminate. destruct d; try discriminate; reflexivity. }
    rewrite Hd. apply IH. intros d' Hin. apply Hothers. right. exact Hin.
Qed.

Lemma setup_dispatches_dates_witness :
  first_match
    (delegates (Babel.setup Babel.echo_format_date
                  (new_service (Some "en") FailOnMissingTextsStrategy))) Babel.date
  = Some (Extension (Babel.DateFormatterFactory Babel.echo_format_date))
  /\ well_formed (Babel.setup Babel.echo_format_date
                    (new_service (Some "en") FailOnMissingTextsStrategy)).
Proof.
  apply (setup_dispatches_dates Babel.echo_format_date
           (new_service (Some "en") FailOnMissingTextsStrategy) Babel.date).
  - apply new_service_well_formed.
  - reflexivity.
  - intros d Hin Hb. simpl in Hin.
    repeat (destruct Hin as [<-|Hin]; [discriminate Hb|]). destruct Hin.
Defined.

(** X21: a date argument is rendered at the locale [translate] works
    with, also when the pattern was found further down the fallback
    chain.  On a service where dates go to the date factory and factories
    decide by type, a pattern of a text and a reference to a date renders
    as the text followed by what Babel returns for the date, the format
    the fragment asks for and that locale; what Babel raises is raised
    as the cause of the formatting error. *)
Theorem date_rendered_at_effective_locale runtime format_date ts m l lc text ref options inst :
  let locale := effective_locale ts m l in
  let formatter := mkMessageFormatter [TextFragment text; ArgumentFragment ref options] in
  dispatch_consistent ts ->
  (forall d, In d (delegates ts) -> type_determined d) ->
  first_match (delegates ts) inst = Some (Extension (Babel.DateFormatterFactory format_date)) ->
  catalog_entry ts (I18NMessage_key m) locale = Some (lc, formatter) ->
  Ref_get runtime ref (I18NMessage_args m) (I18NMessage_kwargs m) = Ok inst ->
  forallb (fun k => member k ["style"; "pattern"]) (dict_keys options) = true ->
  fst (translate runtime ts m l)
  = match format_date inst (Babel.requested_format options) locale with
    | Ok shown => Return (text +:+ shown)
    | Error e =>
        Raise (I18nException (ErrorTranslating (VMessage m) locale)
                 (Some (I18nException
                          (ErrorFormattingWith formatter (I18NMessage_args m)
                             (I18NMessage_kwargs m))
                          (Some e))))
    end.
Proof.
  intros locale formatter Hd Hall Hscan Hentry Href Hoptions. unfold translate.
  pose proof (Ref_get_depth _ _ _ _ Href) as Hdepth.
  pose proof (format_depth_pos inst) as Hpos.
  destruct (translate_depth m) as [|[|n]]; try lia.
  rewrite translate_fuel_unfold. fold locale. unfold try_except at 1. unfold translate_at.
  rewrite (bind_return _ _ _ _ _ (lookup_message_found runtime _ _ _ _ _ Hentry)).
  set (ts1 := logged ts _).
  destruct (create_formatter_scan ts1 locale inst options Hd Hall) as [Hfst _].
  change (delegates ts1) with (delegates ts) in Hfst. rewrite Hscan in Hfst.
  destruct (date_factory_creates format_date locale options Hoptions)
    as (format_ & Hcreate & Hformat).
  rewrite Hcreate in Hfst. simpl outcome_of in Hfst.
  assert (Hrun : create_formatter locale inst options ts1
                 = (Return (ExtensionFormatter format_),
                    snd (create_formatter locale inst options ts1)))
    by (rewrite <- Hfst; apply surjective_pairing).
  set (ts2 := snd (create_formatter locale inst options ts1)) in *.
  unfold MessageFormatter_format, try_except. simpl fragments. simpl append_all.
  unfold append_to.
  unfold mbind at 1 2 3. unfold Py_bind, bind at 1 2 3, mret, Py_ret, ret, lift at 1.
  rewrite Href. cbv beta iota delta [ret]. rewrite (bind_return _ _ _ _ _ Hrun).
  unfold DetailFormatter_format.
  unfold mbind, Py_bind, bind, lift, mret, Py_ret, ret. rewrite Hformat.
  destruct (format_date inst (Babel.requested_format options) locale) as [shown|e];
    [reflexivity|].
  unfold raise, fst. subst formatter.
  rewrite formatting_error_shown; [reflexivity|].
  repeat constructor; [eexists; reflexivity|].
  exact (Fragment_repr_resolved _ _ _ _ _ _ Href).
Qed.

Lemma date_rendered_at_effective_locale_witness :
  fst (translate minimal_runtime Babel.service (Babel.date_long Babel.date) (Some "de_DE"))
  = Return "Long date format: 2016-12-26|long|de_DE".
Proof.
  apply (date_rendered_at_effective_locale minimal_runtime Babel.echo_format_date
           Babel.service (Babel.date_long Babel.date) (Some "de_DE") "en"
           "Long date format: " (NameRef (VStr "date")) [("style", VStr "long")] Babel.date).
  - apply register_messages_consistent. intros t d. simpl. rewrite lookup_empty. discriminate.
  - intros d Hin. simpl in Hin.
    repeat (destruct Hin as [<-|Hin];
            [intros v v' Hty; apply can_handle_builtin_type; [reflexivity | exact Hty]|]).
    destruct Hin as [<-|[]]. apply date_factory_type_determined.
  - reflexivity.
  - reflexivity.
  - reflexivity.
  - reflexivity.
Defined.

(** ** Lists of dispatched items *)

Lemma builtin_factory_scan inst delegate :
  builtin_factory inst = Some delegate ->
  first_match builtin_delegates inst = Some delegate.
Proof. destruct inst; simpl; congruence. Qed.

Lemma builtin_formatter_created locale inst formatter :
  builtin_formatter locale inst = Some formatter ->
  exists delegate,
    builtin_factory inst = Some delegate
    /\ delegate_create_formatter delegate locale [] = Ok formatter
    /\ suits formatter inst = true.
Proof.
  destruct inst; simpl; try discriminate; intros [= <-]; eexists; repeat split.
Qed.

(** Dispatch of a value of a built-in type on a well-formed service. *)
Lemma create_formatter_memoized ts locale inst formatter :
  well_formed ts ->
  builtin_formatter locale inst = Some formatter ->
  create_formatter locale inst [] ts = (Return formatter, memoized ts inst)
  /\ well_formed (memoized ts inst)
  /\ same_configuration ts (memoized ts inst).
Proof.
  intros Hwf Hformatter. pose proof Hwf as [[extensions Hdelegates] Hd].
  destruct (builtin_formatter_created _ _ _ Hformatter) as (d & Hfactory & Hcreate & _).
  pose proof (first_match_app _ extensions _ _ (builtin_factory_scan _ _ Hfactory)) as Hscan.
  rewrite <- Hdelegates in Hscan.
  unfold create_formatter, memoized, mbind, Py_bind, bind, get_service.
  rewrite Hfactory.
  destruct (cache ts !! type inst) as [d'|] eqn:Ecache.
  - destruct (Hd _ _ Ecache) as (v & Hty & Hfm).
    assert (Hv : first_match builtin_delegates v = Some d).
    { rewrite <- (builtin_factory_scan _ _ Hfactory).
      apply first_match_type_determined; [apply builtin_type_determined | exact Hty]. }
    apply (first_match_app _ extensions) in Hv. rewrite <- Hdelegates, Hfm in Hv.
    injection Hv as ->. rewrite Hcreate.
    split; [reflexivity|]. split; [exact Hwf | apply same_configuration_refl].
  - rewrite Hscan. simpl. rewrite Hcreate. split; [reflexivity|]. split; [|repeat split].
    split; [exists extensions; exact Hdelegates|].
    apply (configured_as_cache_store ts ts inst d (configured_as_refl ts Hd) Hscan).
Qed.

Lemma items_rendered_processed runtime locale items : forall ts texts ts1,
  well_formed ts ->
  items_rendered runtime locale ts items texts ts1 ->
  for_each (dispatch_item runtime locale) items ts = (Return (map VStr texts), ts1).
Proof.
  induction items as [|item rest IH]; intros ts [|text texts] ts1 Hwf Hitems;
    simpl in Hitems; try contradiction.
  - subst ts1. reflexivity.
  - destruct (builtin_formatter locale item) as [formatter|] eqn:Hformatter;
      [|contradiction].
    destruct Hitems as [Hfirst Hrest].
    destruct (create_formatter_memoized ts locale item formatter Hwf Hformatter)
      as (Hcreate & Hwf1 & _).
    destruct (builtin_formatter_created _ _ _ Hformatter) as (d & _ & _ & Hsuits).
    destruct (format_terminates runtime (memoized ts item) formatter item (proj2 Hwf1) Hsuits)
      as [_ [(_ & _ & _ & Hsame) Hd2]].
    assert (Hwf2 : well_formed (snd (format runtime (memoized ts item) formatter item))).
    { split; [|exact Hd2]. destruct Hwf1 as [[extensions Hdelegates] _].
      exists extensions. rewrite Hsame. exact Hdelegates. }
    assert (Hitem : dispatch_item runtime locale item ts
                    = (Return (VStr text),
                       snd (format runtime (memoized ts item) formatter item))).
    { unfold dispatch_item, process. rewrite (bind_return _ _ _ _ _ Hcreate).
      change (format_fuel runtime (format_depth item) formatter item (memoized ts item))
        with (format runtime (memoized ts item) formatter item).
      rewrite <- Hfirst. apply surjective_pairing. }
    simpl for_each. rewrite (bind_return _ _ _ _ _ Hitem).
    rewrite (bind_return _ _ _ _ _ (IH _ _ _ Hwf2 Hrest)). reflexivity.
Qed.

(** C6: with the four list messages registered, on a well-formed
    service, a list or tuple renders as the [list.empty] text when it
    has no item, as the text of its item when it has one, and otherwise
    as all items but the last joined with the [list.comma] text, then
    the [list.and] text (the [list.or] text when the option [type] is
    ['or']), then the last item.  The text of an item is what the
    formatter of its type returns for it: dispatch gives a string to the
    string formatter, a request to the message formatter, a nested list
    to the list formatter and a number to the number formatter. *)
Theorem list_rendering runtime ts locale options inst items texts ts1
    empty_text comma_text and_text or_text :
  well_formed ts ->
  inst = VList items \/ inst = VTuple items ->
  (forall m, dict_get options "type" <> Some (VMessage m)) ->
  registered ts locale "pdark.i18n.list.empty" empty_text ->
  registered ts locale "pdark.i18n.list.comma" comma_text ->
  registered ts locale "pdark.i18n.list.and" and_text ->
  registered ts locale "pdark.i18n.list.or" or_text ->
  items_rendered runtime locale ts items texts ts1 ->
  fst (format runtime ts (ListFormatter locale options) inst)
  = Return (VStr (list_text empty_text comma_text
                    (tail_joiner_text options and_text or_text) texts)).
Proof.
  intros Hwf Hinst Hno Hempty Hcomma Hand Hor Hitems.
  apply (list_text_of_processed_items runtime ts locale options inst items texts ts1);
    try assumption; [apply Hwf|].
  apply items_rendered_processed; assumption.
Qed.

Lemma list_rendering_witness :
  fst (format minimal_runtime TestBasics.service (ListFormatter (Some "en") [("type", VStr "or")])
         (VTuple [VStr "a"; VInt 7; VMessage TestBasics.color; VList [VStr "b"; VBool true]]))
  = Return (VStr "a, 7, colour or b and 1").
Proof.
  apply (list_rendering minimal_runtime TestBasics.service (Some "en") [("type", VStr "or")]
           (VTuple [VStr "a"; VInt 7; VMessage TestBasics.color; VList [VStr "b"; VBool true]])
           [VStr "a"; VInt 7; VMessage TestBasics.color; VList [VStr "b"; VBool true]]
           ["a"; "7"; "colour"; "b and 1"]
           (snd (for_each (dispatch_item minimal_runtime (Some "en"))
                   [VStr "a"; VInt 7; VMessage TestBasics.color; VList [VStr "b"; VBool true]]
                   TestBasics.service))
           "" ", " " and " " or ").
  - split; [exists []; reflexivity|].
    apply register_messages_consistent, new_service_consistent.
  - right. reflexivity.
  - intros m. discriminate.
  - exists "en". reflexivity.
  - exists "en". reflexivity.
  - exists "en". reflexivity.
  - exists "en". reflexivity.
  - vm_compute. repeat split.
Defined.

(** ** Nested requests in a pattern *)






